(** * DocBrains backend (backend/server.py): a shallow embedding

    The server is a FastAPI application over two MongoDB collections
    ([documents] and [chat_messages]), a local PDF text-layer parser
    (PyPDF2), a remote language model (LlmChat) and a PDF layout engine
    (reportlab).  The route handlers are embedded as computations in a
    state-and-exception monad over a [world]; the three external
    libraries, the clock and the identifier generators are the fields of
    a record [externals] the handlers are parameterised by.  Every call
    to the parser, the remote model or the layout engine is recorded in
    the world's [trace]. *)

From Stdlib Require Import ZArith String Ascii List Lia.
From Stdlib.Strings Require Import Byte.
From stdpp Require Import gmap strings list fin_maps pretty.

Local Open Scope string_scope.
Local Open Scope Z_scope.
Local Open Scope list_scope.

(** ** Python strings

    A [str] is embedded as a [string]; one [ascii] stands for one
    character (code points 0..255). *)

Module PyStr.

(** [str.isspace] on the code points below 256. *)
Definition isspace (c : ascii) : bool :=
  let n := nat_of_ascii c in
  ((9 <=? n) && (n <=? 13) || (28 <=? n) && (n <=? 32)
   || (n =? 133) || (n =? 160))%nat.

Fixpoint lstrip (s : string) : string :=
  match s with
  | EmptyString => EmptyString
  | String c r => if isspace c then lstrip r else s
  end.

Fixpoint rstrip (s : string) : string :=
  match s with
  | EmptyString => EmptyString
  | String c r =>
      match rstrip r with
      | EmptyString => if isspace c then EmptyString else String c EmptyString
      | r' => String c r'
      end
  end.

(** [s.strip()] *)
Definition strip (s : string) : string := rstrip (lstrip s).

(** [len(s)] *)
Definition len (s : string) : Z := Z.of_nat (String.length s).

(** [s[:n]] *)
Definition upto (n : nat) (s : string) : string := String.substring 0 n s.

(** [s.startswith(p)] *)
Definition startswith (p s : string) : bool := String.prefix p s.

(** [bool(s)]: a string is truthy when it is not empty. *)
Definition nonempty (s : string) : bool :=
  match s with EmptyString => false | String _ _ => true end.

(** [s.split(sep)] for a one-character separator. *)
Fixpoint split (sep : ascii) (s : string) : list string :=
  match s with
  | EmptyString => [EmptyString]
  | String c r =>
      if Ascii.eqb c sep then EmptyString :: split sep r
      else match split sep r with
           | [] => [String c EmptyString]
           | p :: ps => String c p :: ps
           end
  end.

(** [s.replace(a, b)] for one-character [a] and [b]. *)
Fixpoint replace (a b : ascii) (s : string) : string :=
  match s with
  | EmptyString => EmptyString
  | String c r => String (if Ascii.eqb c a then b else c) (replace a b r)
  end.

Definition nl : string := String (ascii_of_nat 10) EmptyString.

(** The letter a with a grave accent (U+00E0). *)
Definition a_grave : string := String (ascii_of_nat 224) EmptyString.

End PyStr.

(** ** Values and documents

    A MongoDB document and a JSON response object are both Python
    dicts with string keys; the values the server reads and writes are
    scalars. *)

Inductive value : Type :=
| VNone
| VBool (b : bool)
| VInt (n : Z)
| VStr (s : string)
| VDatetime (iso : string)   (* a [datetime], carried as its [isoformat()] *)
| VObjectId (hex : string).  (* a BSON [ObjectId], carried as its hex form *)

#[global] Instance value_eq_dec : EqDecision value.
Proof. solve_decision. Defined.

Abbreviation document := (gmap string value).

(** [bool(v)] *)
Definition truthy (v : value) : bool :=
  match v with
  | VNone => false
  | VBool b => b
  | VInt n => negb (n =? 0)
  | VStr s => PyStr.nonempty s
  | VDatetime _ => true
  | VObjectId _ => true
  end.

(** [d.get(k)] *)
Definition get (d : document) (k : string) : value :=
  match d !! k with Some v => v | None => VNone end.

(** [d.get(k, dflt)] *)
Definition get_or (d : document) (k : string) (dflt : value) : value :=
  match d !! k with Some v => v | None => dflt end.

(** [str(v)], as an f-string formats a value. *)
Definition py_str (v : value) : string :=
  match v with
  | VNone => "None"
  | VBool true => "True"
  | VBool false => "False"
  | VInt n => pretty n
  | VStr s => s
  | VDatetime iso =>
      PyStr.replace "T" " " iso
  | VObjectId hex => hex
  end.

(** The class name in the [TypeError] of [v[:n]] on a value that is not
    a string. *)
Definition type_name (v : value) : string :=
  match v with
  | VNone => "NoneType"
  | VBool _ => "bool"
  | VInt _ => "int"
  | VStr _ => "str"
  | VDatetime _ => "datetime.datetime"
  | VObjectId _ => "ObjectId"
  end.

(** ** Exceptions and the handler monad *)

Inductive exn : Type :=
| HTTPException (status_code : Z) (detail : string)
| Exception (msg : string).

(** [str(e)] *)
Definition exn_str (e : exn) : string :=
  match e with
  | HTTPException s d => pretty s +:+ ": " +:+ d
  | Exception m => m
  end.

Inductive result (A : Type) : Type :=
| Return (a : A)
| Raise (e : exn).
Arguments Return {A} a.
Arguments Raise {A} e.

(** What an external call does: it returns or raises with a message. *)
Inductive outcome (A : Type) : Type :=
| Returned (a : A)
| Raised (msg : string).
Arguments Returned {A} a.
Arguments Raised {A} msg.

Abbreviation bytes := (list byte).

(** What the server records of its calls to the outside: the local
    parser with the text [extract_text_from_pdf] returned, a message
    sent to the remote model (with the file attached, if any), and a
    layout run. *)
Inductive event : Type :=
| EvPdfExtract (file_content : bytes) (text : string)
| EvSendMessage (system_message text : string)
                (file_contents : option (bytes * string))
| EvDocBuild (title : string) (paragraphs : list string).

Record world : Type := World {
  documents : list document;       (* db.documents, in natural order *)
  chat_messages : list document;   (* db.chat_messages *)
  trace : list event;              (* external calls, oldest first *)
  tick : nat                       (* number of oracle draws so far *)
}.

Definition M (A : Type) : Type := world -> result A * world.

Definition ret {A} (a : A) : M A := fun w => (Return a, w).

Definition raise {A} (e : exn) : M A := fun w => (Raise e, w).

Definition bind {A B} (m : M A) (k : A -> M B) : M B :=
  fun w =>
    match m w with
    | (Return a, w') => k a w'
    | (Raise e, w') => (Raise e, w')
    end.

Notation "x <- c1 ;; c2" := (bind c1 (fun x => c2))
  (at level 100, c1 at next level, right associativity).
Notation "c1 ;;; c2" := (bind c1 (fun _ => c2))
  (at level 100, right associativity).

(** [try: m except Exception as e: h e] *)
Definition try_except {A} (m : M A) (h : exn -> M A) : M A :=
  fun w =>
    match m w with
    | (Return a, w') => (Return a, w')
    | (Raise e, w') => h e w'
    end.

(** The tail every route but [/chat] ends with:
    [except HTTPException: raise] then
    [except Exception as e: raise HTTPException(500, prefix + str(e))]. *)
Definition route {A} (prefix : string) (m : M A) : M A :=
  try_except m (fun e =>
    match e with
    | HTTPException _ _ => raise e
    | Exception msg => raise (HTTPException 500 (prefix +:+ msg))
    end).

Definition draw : M nat :=
  fun w => (Return (tick w),
            World (documents w) (chat_messages w) (trace w) (S (tick w))).

Definition emit (ev : event) : M unit :=
  fun w => (Return tt,
            World (documents w) (chat_messages w) (trace w ++ [ev]) (tick w)).

Definition read_documents : M (list document) :=
  fun w => (Return (documents w), w).

Definition write_documents (c : list document) : M unit :=
  fun w => (Return tt, World c (chat_messages w) (trace w) (tick w)).

Definition read_chat_messages : M (list document) :=
  fun w => (Return (chat_messages w), w).

Definition write_chat_messages (c : list document) : M unit :=
  fun w => (Return tt, World (documents w) c (trace w) (tick w)).

(** The HTTP status a handler's result is answered with. *)
Definition status {A} (r : result A) : Z :=
  match r with
  | Return _ => 200
  | Raise (HTTPException s _) => s
  | Raise (Exception _) => 500
  end.

(** ** The document store (motor / MongoDB)

    A collection is the list of its documents in natural (insertion)
    order.  Every query of the server is the filter [{"id": x}]. *)

Module Mongo.

(** Does document [d] satisfy [{"id": id}]? *)
Definition matches (id : string) (d : document) : bool :=
  bool_decide (d !! "id" = Some (VStr id)).

(** [find_one({"id": id})]: the first match. *)
Definition find_one (id : string) (c : list document) : option document :=
  List.find (matches id) c.

(** [update_one({"id": id}, {"$set": fields})]: the first match gets
    the fields of [fields], its other fields are kept. *)
Fixpoint update_one (id : string) (fields : document) (c : list document)
  : list document :=
  match c with
  | [] => []
  | d :: rest =>
      if matches id d then (fields ∪ d) :: rest
      else d :: update_one id fields rest
  end.

(** [delete_one({"id": id})]: the first match is removed; the result
    carries [deleted_count]. *)
Fixpoint delete_one (id : string) (c : list document)
  : Z * list document :=
  match c with
  | [] => (0, [])
  | d :: rest =>
      if matches id d then (1, rest)
      else let '(n, rest') := delete_one id rest in (n, d :: rest')
  end.

(** [insert_one(d)]: the document gets an [_id] unless it has one and
    goes to the end of the collection. *)
Definition insert_one (oid : string) (d : document) (c : list document)
  : list document :=
  c ++ [match d !! "_id" with
        | Some _ => d
        | None => <["_id" := VObjectId oid]> d
        end].

(** [find().to_list(n)] *)
Definition to_list (n : nat) (c : list document) : list document :=
  take n c.

End Mongo.

(** ** The outside world

    [uuid4], [utcnow] and [object_id] answer the n-th draw of the
    process; [pdf_reader] is PyPDF2 ([PdfReader] and [extract_text] of
    every page: the page texts, or the exception of either);
    [send_message] is [LlmChat(...).with_model(...).send_message];
    [doc_build] is reportlab's [SimpleDocTemplate.build] on a fresh
    temporary file, whose name it returns; [none_not_allowed] is the
    text of pydantic's validation error for a [None] in a [str] field. *)

Record externals : Type := Externals {
  uuid4 : nat -> string;
  utcnow : nat -> string;
  object_id : nat -> string;
  pdf_reader : nat -> bytes -> outcome (list string);
  send_message :
    nat -> string -> string -> string -> option (bytes * string) ->
    outcome string;
  doc_build : nat -> string -> list string -> outcome string;
  none_not_allowed : string
}.

(** ** Models (pydantic) *)

Record DocumentUpload : Type := mkDocumentUpload {
  du_id : string;
  du_filename : string;
  du_content_type : string;
  du_file_size : Z;
  du_extracted_text : option string;
  du_summary_text : option string;
  du_summary_type : option string;
  du_mindmap_schema : option string;
  du_schema_type : option string;
  du_created_at : string;
  du_updated_at : string
}.

Record SummaryRequest : Type := mkSummaryRequest {
  sr_document_id : string;
  sr_summary_type : string;
  sr_accuracy_level : string
}.

Record SchemaRequest : Type := mkSchemaRequest {
  sc_document_id : string;
  sc_schema_type : string
}.

Record ChatMessage : Type := mkChatMessage {
  cm_id : string;
  cm_document_id : option string;
  cm_message : string;
  cm_response : string;
  cm_created_at : string
}.

Record ChatRequest : Type := mkChatRequest {
  cr_document_id : option string;
  cr_message : string;
  cr_context : option string
}.

(** The multipart part of an upload: its filename, its Content-Type
    header if it has one, and what [file.read()] returns. *)
Record UploadFile : Type := mkUploadFile {
  filename : string;
  content_type : option string;
  contents : bytes
}.

Definition optional (o : option string) : value :=
  match o with Some s => VStr s | None => VNone end.

(** [document.dict()] *)
Definition DocumentUpload_dict (d : DocumentUpload) : document :=
  {[ "id" := VStr (du_id d);
     "filename" := VStr (du_filename d);
     "content_type" := VStr (du_content_type d);
     "file_size" := VInt (du_file_size d);
     "extracted_text" := optional (du_extracted_text d);
     "summary_text" := optional (du_summary_text d);
     "summary_type" := optional (du_summary_type d);
     "mindmap_schema" := optional (du_mindmap_schema d);
     "schema_type" := optional (du_schema_type d);
     "created_at" := VDatetime (du_created_at d);
     "updated_at" := VDatetime (du_updated_at d) ]}.

(** [chat_message.dict()] *)
Definition ChatMessage_dict (m : ChatMessage) : document :=
  {[ "id" := VStr (cm_id m);
     "document_id" := optional (cm_document_id m);
     "message" := VStr (cm_message m);
     "response" := VStr (cm_response m);
     "created_at" := VDatetime (cm_created_at m) ]}.

(** [prepare_for_mongo]: every [datetime] becomes its ISO string (the
    dicts of the two models hold no nested dict or list). *)
Definition prepare_for_mongo (data : document) : document :=
  (fun v => match v with VDatetime iso => VStr iso | _ => v end) <$> data.

(** What a route answers with. *)
Inductive payload : Type :=
| JsonObject (d : document)
| JsonArray (l : list document)
| FileResponse (path media_type file_name : string).

Definition MAX_UPLOAD : Z := 100 * 1024 * 1024.
Definition MIN_PDF_TEXT : Z := 50.

(** [table.get(k, dflt)] on a literal dict of strings. *)
Fixpoint table_get (table : list (string * string)) (k dflt : string)
  : string :=
  match table with
  | [] => dflt
  | (k', v) :: rest => if String.eqb k k' then v else table_get rest k dflt
  end.

Definition length_instructions : list (string * string) :=
  [ ("breve", "Crea un riassunto molto conciso di massimo 200 parole");
    ("medio", "Crea un riassunto di lunghezza media tra 300-500 parole");
    ("dettagliato",
     "Crea un riassunto dettagliato e completo di 600-800 parole") ].

Definition accuracy_instructions : list (string * string) :=
  [ ("standard", "Mantieni le informazioni principali");
    ("alta", "Mantieni tutti i dettagli importanti, dati, cifre e punti chiave senza omettere nulla di rilevante") ].

Definition schema_instructions : list (string * string) :=
  [ ("brainstorming", "Crea una mappa mentale in formato testuale con le idee principali, concetti chiave e collegamenti. Usa simboli, frecce e indentazione per mostrare le relazioni.");
    ("cascata", "Crea uno schema a cascata/flow chart che mostri la sequenza logica, i processi e i collegamenti gerarchici del contenuto. Usa frecce e livelli per mostrare il flusso.") ].

Definition extraction_system_message : string :=
  "Sei un esperto nell'estrazione di testo da documenti. Estrai tutto il contenuto testuale dal documento fornito, mantenendo la struttura e l'ordine originale. Non omettere nessuna parte del contenuto.".

Definition extraction_user_text : string :=
  "Estrai tutto il testo da questo documento. Mantieni la struttura e l'ordine originale. Non omettere nessuna sezione, paragrafo o pagina.".

Definition summary_system_message (summary_type accuracy_level : string)
  : string :=
  PyStr.nl +:+ "Sei un esperto nella creazione di riassunti. "
  +:+ table_get length_instructions summary_type
        (table_get length_instructions "medio" "")
  +:+ "." +:+ PyStr.nl
  +:+ table_get accuracy_instructions accuracy_level
        (table_get accuracy_instructions "standard" "")
  +:+ "." +:+ PyStr.nl +:+ PyStr.nl
  +:+ "Il riassunto deve:" +:+ PyStr.nl
  +:+ "- Catturare tutti i punti principali del documento" +:+ PyStr.nl
  +:+ "- Mantenere la logica e la struttura del testo originale" +:+ PyStr.nl
  +:+ "- Essere chiaro e ben organizzato" +:+ PyStr.nl
  +:+ "- Includere tutte le sezioni importanti del documento originale"
  +:+ PyStr.nl.

Definition schema_system_message (schema_type : string) : string :=
  PyStr.nl +:+ "Sei un esperto nella creazione di schemi e mappe mentali. "
  +:+ table_get schema_instructions schema_type
        (table_get schema_instructions "brainstorming" "")
  +:+ PyStr.nl +:+ PyStr.nl
  +:+ "Lo schema deve:" +:+ PyStr.nl
  +:+ "- Essere visivamente chiaro e ben strutturato" +:+ PyStr.nl
  +:+ "- Mostrare tutte le relazioni importanti" +:+ PyStr.nl
  +:+ "- Usare simboli ASCII per migliorare la leggibilit"
  +:+ PyStr.a_grave +:+ PyStr.nl
  +:+ "- Essere esportabile e comprensibile" +:+ PyStr.nl.

Definition chat_base_system_message : string :=
  "Sei un assistente AI specializzato nell'aiutare gli utenti con documenti e contenuti. Puoi rispondere a domande, suggerire modifiche, e fornire supporto.".

(** [v[:n]] *)
Definition slice_upto (n : nat) (v : value) : outcome string :=
  match v with
  | VStr s => Returned (PyStr.upto n s)
  | _ => Raised ("'" +:+ type_name v +:+ "' object is not subscriptable")
  end.

(** [d[k]] *)
Definition getitem (d : document) (k : string) : outcome value :=
  match d !! k with
  | Some v => Returned v
  | None => Raised ("'" +:+ k +:+ "'")
  end.

(** An external call's exception becomes a Python exception. *)
Definition lift {A} (o : outcome A) : M A :=
  match o with
  | Returned a => ret a
  | Raised msg => raise (Exception msg)
  end.

(** The body of [extract_text_from_pdf] on what PyPDF2 did: the page
    texts, each followed by a newline, concatenated and stripped; the
    empty string when PyPDF2 raised. *)
Definition pdf_text (o : outcome (list string)) : string :=
  match o with
  | Returned pages =>
      PyStr.strip
        (fold_left (fun text page => text +:+ (page +:+ PyStr.nl)) pages "")
  | Raised _ => ""
  end.

(** [not extracted_text or len(extracted_text.strip()) < 50] *)
Definition too_short (extracted_text : string) : bool :=
  negb (PyStr.nonempty extracted_text)
  || (PyStr.len (PyStr.strip extracted_text) <? MIN_PDF_TEXT).

Section Server.

Variable E : externals.

Definition new_uuid : M string := t <- draw ;; ret (uuid4 E t).

Definition now : M string := t <- draw ;; ret (utcnow E t).

(** [LlmChat(api_key, session_id=str(uuid.uuid4()), system_message)
    .with_model(...)] followed by [send_message(UserMessage(text,
    file_contents))]. *)
Definition llm_chat (system_message text : string)
           (file_contents : option (bytes * string)) : M string :=
  session_id <- new_uuid ;;
  emit (EvSendMessage system_message text file_contents) ;;;
  t <- draw ;;
  lift (send_message E t session_id system_message text file_contents).

(** [try: body except Exception as e:
      raise HTTPException(500, prefix + str(e))] *)
Definition or_500 {A} (prefix : string) (body : M A) : M A :=
  try_except body
    (fun e => raise (HTTPException 500 (prefix +:+ exn_str e))).

Definition extract_text_from_pdf (file_content : bytes) : M string :=
  t <- draw ;;
  let text := pdf_text (pdf_reader E t file_content) in
  emit (EvPdfExtract file_content text) ;;;
  ret text.

(** The temporary file the route writes is carried as its contents. *)
Definition extract_text_with_gemini (file : bytes) (mime_type : string)
  : M string :=
  or_500 "Errore nell'estrazione del testo: "
    (llm_chat extraction_system_message extraction_user_text
              (Some (file, mime_type))).

Definition generate_summary_with_gemini
           (text : value) (summary_type accuracy_level : string)
  : M string :=
  or_500 "Errore nella generazione del riassunto: "
    (llm_chat (summary_system_message summary_type accuracy_level)
              ("Crea un riassunto del seguente testo:"
               +:+ PyStr.nl +:+ PyStr.nl +:+ py_str text)
              None).

Definition generate_schema_with_gemini (text : value) (schema_type : string)
  : M string :=
  or_500 "Errore nella generazione dello schema: "
    (llm_chat (schema_system_message schema_type)
              ("Crea uno schema " +:+ schema_type
               +:+ " del seguente contenuto:"
               +:+ PyStr.nl +:+ PyStr.nl +:+ py_str text)
              None).

(** The story of [create_pdf_export]: the paragraphs of the content
    that are not blank. *)
Definition paragraphs (content : string) : list string :=
  List.filter (fun para => PyStr.nonempty (PyStr.strip para))
              (PyStr.split (ascii_of_nat 10) content).

Definition create_pdf_export (content : value) (title : string) : M string :=
  or_500 "Errore nella creazione del PDF: "
    (match content with
     | VStr s =>
         emit (EvDocBuild title (paragraphs s)) ;;;
         t <- draw ;;
         lift (doc_build E t title (paragraphs s))
     | v => raise (Exception ("'" +:+ type_name v
                              +:+ "' object has no attribute 'split'"))
     end).

(** [DocumentUpload(filename=..., content_type=..., file_size=...)]:
    the three default factories run, then validation rejects a
    missing content type. *)
Definition new_DocumentUpload
           (name : string) (ctype : option string) (size : Z)
  : M DocumentUpload :=
  id <- new_uuid ;;
  created <- now ;;
  updated <- now ;;
  match ctype with
  | Some ct =>
      ret (mkDocumentUpload id name ct size None None None None None
                            created updated)
  | None => raise (Exception (none_not_allowed E))
  end.

Definition set_extracted_text (d : DocumentUpload) (text : string)
  : DocumentUpload :=
  mkDocumentUpload (du_id d) (du_filename d) (du_content_type d)
                   (du_file_size d) (Some text) (du_summary_text d)
                   (du_summary_type d) (du_mindmap_schema d)
                   (du_schema_type d) (du_created_at d) (du_updated_at d).

Definition db_documents_insert_one (d : document) : M unit :=
  t <- draw ;;
  c <- read_documents ;;
  write_documents (Mongo.insert_one (object_id E t) d c).

Definition db_chat_messages_insert_one (d : document) : M unit :=
  t <- draw ;;
  c <- read_chat_messages ;;
  write_chat_messages (Mongo.insert_one (object_id E t) d c).

Definition db_documents_find_one (id : string) : M (option document) :=
  c <- read_documents ;; ret (Mongo.find_one id c).

Definition db_documents_update_one (id : string) (fields : document)
  : M unit :=
  c <- read_documents ;; write_documents (Mongo.update_one id fields c).

Definition db_documents_delete_one (id : string) : M Z :=
  c <- read_documents ;;
  let '(n, c') := Mongo.delete_one id c in
  write_documents c' ;;; ret n.

(** POST /upload *)
Definition upload_document (file : UploadFile) : M payload :=
  route "Errore durante il caricamento: "
    (let size := Z.of_nat (length (contents file)) in
     if MAX_UPLOAD <? size then
       raise (HTTPException 413 "File troppo grande. Massimo 100MB.")
     else
       document <- new_DocumentUpload (filename file) (content_type file)
                                      size ;;
       extracted_text <-
         match content_type file with
         | Some ct =>
             if String.eqb ct "application/pdf" then
               local <- extract_text_from_pdf (contents file) ;;
               if too_short local then
                 extract_text_with_gemini (contents file) "application/pdf"
               else ret local
             else if PyStr.startswith "image/" ct then
               extract_text_with_gemini (contents file) ct
             else
               raise (HTTPException 400
                 "Tipo di file non supportato. Usa PDF o immagini.")
         | None =>
             raise (Exception
               "'NoneType' object has no attribute 'startswith'")
         end ;;
       if negb (PyStr.nonempty extracted_text) then
         raise (HTTPException 400
                  "Impossibile estrarre testo dal documento.")
       else
         let document := set_extracted_text document extracted_text in
         db_documents_insert_one
           (prepare_for_mongo (DocumentUpload_dict document)) ;;;
         ret (JsonObject
           {[ "id" := VStr (du_id document);
              "filename" := VStr (du_filename document);
              "extracted_text" :=
                VStr (if 500 <? PyStr.len extracted_text
                      then PyStr.upto 500 extracted_text +:+ "..."
                      else extracted_text);
              "text_length" := VInt (PyStr.len extracted_text);
              "message" :=
                VStr "Documento caricato e analizzato con successo" ]})).

(** POST /generate-summary *)
Definition generate_summary (request : SummaryRequest) : M payload :=
  route "Errore nella generazione del riassunto: "
    (found <- db_documents_find_one (sr_document_id request) ;;
     match found with
     | None => raise (HTTPException 404 "Documento non trovato")
     | Some document =>
         if negb (truthy (get document "extracted_text")) then
           raise (HTTPException 400
                    "Testo non disponibile per questo documento")
         else
           text <- lift (getitem document "extracted_text") ;;
           summary <- generate_summary_with_gemini
                        text (sr_summary_type request)
                        (sr_accuracy_level request) ;;
           stamp <- now ;;
           db_documents_update_one (sr_document_id request)
             {[ "summary_text" := VStr summary;
                "summary_type" := VStr (sr_summary_type request);
                "updated_at" := VStr stamp ]} ;;;
           ret (JsonObject
             {[ "document_id" := VStr (sr_document_id request);
                "summary" := VStr summary;
                "summary_type" := VStr (sr_summary_type request);
                "accuracy_level" := VStr (sr_accuracy_level request) ]})
     end).

(** POST /generate-schema *)
Definition generate_schema (request : SchemaRequest) : M payload :=
  route "Errore nella generazione dello schema: "
    (found <- db_documents_find_one (sc_document_id request) ;;
     match found with
     | None => raise (HTTPException 404 "Documento non trovato")
     | Some document =>
         if negb (truthy (get document "extracted_text")) then
           raise (HTTPException 400
                    "Testo non disponibile per questo documento")
         else
           text <- lift (getitem document "extracted_text") ;;
           schema <- generate_schema_with_gemini
                       text (sc_schema_type request) ;;
           stamp <- now ;;
           db_documents_update_one (sc_document_id request)
             {[ "mindmap_schema" := VStr schema;
                "schema_type" := VStr (sc_schema_type request);
                "updated_at" := VStr stamp ]} ;;;
           ret (JsonObject
             {[ "document_id" := VStr (sc_document_id request);
                "schema" := VStr schema;
                "schema_type" := VStr (sc_schema_type request) ]})
     end).

(** The system instruction of a chat turn once the document lookup has
    answered [found]: the base instruction, the document's text (its
    first 2000 characters) when there is one, the caller's context
    when there is one. *)
Definition with_document_context (found : option document)
           (system_message : string) : M string :=
  match found with
  | Some document =>
      if truthy (get document "extracted_text") then
        text <- lift (getitem document "extracted_text") ;;
        head <- lift (slice_upto 2000 text) ;;
        ret (system_message +:+ PyStr.nl +:+ PyStr.nl
             +:+ "Contesto del documento: " +:+ head +:+ "...")
      else ret system_message
  | None => ret system_message
  end.

Definition with_extra_context (context : option string)
           (system_message : string) : string :=
  match context with
  | Some c =>
      if PyStr.nonempty c then
        system_message +:+ PyStr.nl +:+ PyStr.nl
        +:+ "Contesto aggiuntivo: " +:+ c
      else system_message
  | None => system_message
  end.

(** POST /chat *)
Definition chat_with_document (request : ChatRequest) : M payload :=
  or_500 "Errore nella chat: "
    (system_message <-
       match cr_document_id request with
       | Some id =>
           if PyStr.nonempty id then
             found <- db_documents_find_one id ;;
             with_document_context found chat_base_system_message
           else ret chat_base_system_message
       | None => ret chat_base_system_message
       end ;;
     let system_message :=
       with_extra_context (cr_context request) system_message in
     response <- llm_chat system_message (cr_message request) None ;;
     id <- new_uuid ;;
     created <- now ;;
     let chat_message :=
       mkChatMessage id (cr_document_id request) (cr_message request)
                     response created in
     db_chat_messages_insert_one
       (prepare_for_mongo (ChatMessage_dict chat_message)) ;;;
     ret (JsonObject
       {[ "message" := VStr (cr_message request);
          "response" := VStr response;
          "chat_id" := VStr (cm_id chat_message) ]})).

(** GET /export-pdf/{document_id}; [content_type] is the query
    parameter, [None] when the request has none (the signature's
    default is then used). *)
Definition export_pdf (document_id : string) (content_type : option string)
  : M payload :=
  route "Errore nell'esportazione PDF: "
    (let content_type :=
       match content_type with Some c => c | None => "summary" end in
     found <- db_documents_find_one document_id ;;
     match found with
     | None => raise (HTTPException 404 "Documento non trovato")
     | Some document =>
         let name :=
           py_str (get_or document "filename" (VStr "Documento")) in
         selected <-
           (if String.eqb content_type "summary" then
              ret (get document "summary_text", "Riassunto - " +:+ name)
            else if String.eqb content_type "schema" then
              ret (get document "mindmap_schema", "Schema - " +:+ name)
            else if String.eqb content_type "full" then
              ret (get document "extracted_text",
                   "Testo Completo - " +:+ name)
            else
              raise (HTTPException 400 "Tipo di contenuto non valido")) ;;
         let '(content, title) := selected in
         if negb (truthy content) then
           raise (HTTPException 400 "Contenuto non disponibile")
         else
           pdf_path <- create_pdf_export content title ;;
           ret (FileResponse pdf_path "application/pdf" (title +:+ ".pdf"))
     end).

(** One entry of the listing of GET /documents. *)
Definition listing_entry (doc : document) : M document :=
  id <- lift (getitem doc "id") ;;
  name <- lift (getitem doc "filename") ;;
  ctype <- lift (getitem doc "content_type") ;;
  size <- lift (getitem doc "file_size") ;;
  created <- lift (getitem doc "created_at") ;;
  preview <-
    (if truthy (get doc "extracted_text") then
       head <- lift (slice_upto 200
                       (get_or doc "extracted_text" (VStr ""))) ;;
       ret (VStr (head +:+ "..."))
     else ret VNone) ;;
  ret ({[ "id" := id;
          "filename" := name;
          "content_type" := ctype;
          "file_size" := size;
          "has_summary" := VBool (truthy (get doc "summary_text"));
          "has_schema" := VBool (truthy (get doc "mindmap_schema"));
          "created_at" := created;
          "text_preview" := preview ]} : document).

(** [[f(x) for x in xs]] *)
Fixpoint for_each {A B} (f : A -> M B) (xs : list A) : M (list B) :=
  match xs with
  | [] => ret []
  | x :: rest =>
      y <- f x ;;
      ys <- for_each f rest ;;
      ret (y :: ys)
  end.

(** GET /documents *)
Definition get_documents : M payload :=
  or_500 "Errore nel recupero documenti: "
    (c <- read_documents ;;
     entries <- for_each listing_entry (Mongo.to_list 1000 c) ;;
     ret (JsonArray entries)).

(** GET /document/{document_id} *)
Definition get_document (document_id : string) : M payload :=
  route "Errore nel recupero documento: "
    (found <- db_documents_find_one document_id ;;
     match found with
     | None => raise (HTTPException 404 "Documento non trovato")
     | Some document =>
         id <- lift (getitem document "id") ;;
         name <- lift (getitem document "filename") ;;
         ctype <- lift (getitem document "content_type") ;;
         size <- lift (getitem document "file_size") ;;
         created <- lift (getitem document "created_at") ;;
         ret (JsonObject
           {[ "id" := id;
              "filename" := name;
              "content_type" := ctype;
              "file_size" := size;
              "extracted_text" := get document "extracted_text";
              "summary_text" := get document "summary_text";
              "summary_type" := get document "summary_type";
              "mindmap_schema" := get document "mindmap_schema";
              "schema_type" := get document "schema_type";
              "created_at" := created;
              "updated_at" := get document "updated_at" ]})
     end).

(** DELETE /document/{document_id} *)
Definition delete_document (document_id : string) : M payload :=
  route "Errore durante l'eliminazione: "
    (deleted_count <- db_documents_delete_one document_id ;;
     if deleted_count =? 0 then
       raise (HTTPException 404 "Documento non trovato.")
     else
       ret (JsonObject
         {[ "message" :=
              VStr ("Documento " +:+ document_id
                    +:+ " eliminato con successo.") ]})).

(** GET / *)
Definition root : M payload :=
  ret (JsonObject
    {[ "message" := VStr "DocBrains API - Analisi Documenti con AI" ]}).

(** The requests of the API and their dispatch. *)
Inductive request : Type :=
| PostUpload (file : UploadFile)
| PostGenerateSummary (r : SummaryRequest)
| PostGenerateSchema (r : SchemaRequest)
| PostChat (r : ChatRequest)
| GetExportPdf (document_id : string) (content_type : option string)
| GetDocuments
| GetDocument (document_id : string)
| DeleteDocument (document_id : string)
| GetRoot.

Definition handle (r : request) : M payload :=
  match r with
  | PostUpload file => upload_document file
  | PostGenerateSummary r => generate_summary r
  | PostGenerateSchema r => generate_schema r
  | PostChat r => chat_with_document r
  | GetExportPdf id ct => export_pdf id ct
  | GetDocuments => get_documents
  | GetDocument id => get_document id
  | DeleteDocument id => delete_document id
  | GetRoot => root
  end.

(** A sequence of requests served one after the other; the statuses
    answered, in order, and the world they leave. *)
Fixpoint serve (rs : list request) (w : world) : list Z * world :=
  match rs with
  | [] => ([], w)
  | r :: rest =>
      let '(res, w') := handle r w in
      let '(sts, w'') := serve rest w' in
      (status res :: sts, w'')
  end.

End Server.

(** ** Concrete worlds

    A deterministic outside world, an empty store and a few uploads, on
    which the routes can be run. *)

Module Fixture.

Definition E0 : externals :=
  Externals (fun n => "uuid-" +:+ pretty n)
            (fun n => "2025-01-01T00:00:" +:+ pretty n)
            (fun n => "oid-" +:+ pretty n)
            (fun _ _ => Returned ["Hello "; "world"])
            (fun _ _ _ _ _ => Returned "remote text")
            (fun _ _ _ => Returned "/tmp/export.pdf")
            "none is not an allowed value".

(** The same world with a parser that fails on every file. *)
Definition E_broken_parser : externals :=
  Externals (uuid4 E0) (utcnow E0) (object_id E0)
            (fun _ _ => Raised "EOF marker not found")
            (send_message E0) (doc_build E0) (none_not_allowed E0).

Definition w0 : world := World [] [] [] 0.

(** [n] zero bytes. *)
Definition blob (n : Z) : bytes := repeat x00 (Z.to_nat n).

Definition small_pdf : UploadFile :=
  mkUploadFile "a.pdf" (Some "application/pdf") [x25; x50; x44; x46].

Definition text_file : UploadFile :=
  mkUploadFile "notes.txt" (Some "text/plain") [x68; x69].

(** An image of exactly 100MB, and files one byte over the limit. *)
Definition image_at_limit : UploadFile :=
  mkUploadFile "scan.png" (Some "image/png") (blob MAX_UPLOAD).

Definition oversized_text : UploadFile :=
  mkUploadFile "notes.txt" (Some "text/plain") (blob (MAX_UPLOAD + 1)).

Definition oversized_pdf : UploadFile :=
  mkUploadFile "big.pdf" (Some "application/pdf") (blob (MAX_UPLOAD + 1)).

(** A stored document as an upload leaves it, and the same with a
    summary. *)
Definition stored (id : string) (text : option string) : document :=
  prepare_for_mongo
    (DocumentUpload_dict
       (mkDocumentUpload id "a.pdf" "application/pdf" 4 text
                         None None None None
                         "2025-01-01T00:00:01" "2025-01-01T00:00:02")).

Definition summarised (id : string) : document :=
  <["summary_text" := VStr "In short."]> (stored id (Some "Some text.")).

Definition world_of (c : list document) : world := World c [] [] 0.

(** A store of 1001 documents. *)
Definition crowded : world :=
  world_of (replicate 1001 (stored "doc-1" (Some "Some text."))).

End Fixture.

(** ** Vocabulary of the statements *)

(** Field [k] of [d] is missing, [None] or the empty string. *)
Definition absent_or_empty (d : document) (k : string) : Prop :=
  d !! k = None \/ d !! k = Some VNone \/ d !! k = Some (VStr "").

(** Collection [c'] has the documents of [c] at the same places, each
    with the fields it had, except possibly the fields in [keys]. *)
Definition only_writes (keys : list string) (c c' : list document) : Prop :=
  length c' = length c /\
  forall i d, c !! i = Some d ->
    exists d', c' !! i = Some d' /\ forall k, k ∉ keys -> d' !! k = d !! k.

(** Every document of [c] is still in [c'], at its place, with its
    identifier and its extracted text. *)
Definition keeps_text (c c' : list document) : Prop :=
  forall i d, c !! i = Some d ->
    exists d', c' !! i = Some d' /\
               d' !! "extracted_text" = d !! "extracted_text" /\
               d' !! "id" = d !! "id".

(** Field [k] of a JSON answer. *)
Definition answered (r : result payload) (k : string) : option value :=
  match r with
  | Return (JsonObject body) => body !! k
  | _ => None
  end.

(** The records of a JSON array answer. *)
Definition records (r : result payload) : option (list document) :=
  match r with
  | Return (JsonArray l) => Some l
  | _ => None
  end.

(** Identifier [id] names exactly one stored document. *)
Definition names_one (id : string) (c : list document) : Prop :=
  length (List.filter (Mongo.matches id) c) = 1%nat.

(** The field of the document GET /export-pdf prints for a
    [content_type], if the [content_type] is one it knows. *)
Definition export_field (content_type : string) : option string :=
  if String.eqb content_type "summary" then Some "summary_text"
  else if String.eqb content_type "schema" then Some "mindmap_schema"
  else if String.eqb content_type "full" then Some "extracted_text"
  else None.

(** A document GET /documents can list: it has the five fields the
    listing reads with [doc[...]], and its extracted text, if it has
    one, is a string. *)
Definition listable (d : document) : Prop :=
  is_Some (d !! "id") /\ is_Some (d !! "filename") /\
  is_Some (d !! "content_type") /\ is_Some (d !! "file_size") /\
  is_Some (d !! "created_at") /\
  (truthy (get d "extracted_text") = false \/
   exists s, d !! "extracted_text" = Some (VStr s)).

(** A computation that neither reads nor writes the world. *)
Definition stateless {A} (m : M A) : Prop :=
  exists r, forall w, m w = (r, w).

Definition is_delete (r : request) : bool :=
  match r with DeleteDocument _ => true | _ => false end.

(** The server at start: an empty store, nothing drawn yet. *)
Definition initial : world := World [] [] [] 0.

(** The identifiers in the store are those minted by [uuid4] at distinct
    past draws. *)
Definition minted (E : externals) (w : world) : Prop :=
  exists ts : list nat,
    (fun d : document => d !! "id") <$> documents w
    = (fun t => Some (VStr (uuid4 E t))) <$> ts /\
    NoDup ts /\ Forall (fun t => (t < tick w)%nat) ts.

(** A relation between worlds seen as one between their stores. *)
Definition on_documents (R : relation (list document)) : relation world :=
  fun w w' => R (documents w) (documents w').

(** A computation never takes the world out of relation [R]. *)
Definition preserves (R : relation world) {A} (m : M A) : Prop :=
  forall w, R w (snd (m w)).

(** A preorder on worlds that holds across every step but a write to
    [db.documents]. *)
Class Ambient (R : relation world) : Prop := {
  ambient_preorder :: PreOrder R;
  ambient_draw : forall w, R w (snd (draw w));
  ambient_emit : forall ev w, R w (snd (emit ev w));
  ambient_chat : forall c w, R w (snd (write_chat_messages c w))
}.

(** ** Vocabulary of the further properties *)

(** The record POST /upload builds for a file of declared type [ct]
    whose extracted text is [text], when the request starts in world
    [w]. *)
Definition uploaded_record (E : externals) (w : world) (file : UploadFile)
           (ct text : string) : document :=
  prepare_for_mongo
    (DocumentUpload_dict
       (mkDocumentUpload (uuid4 E (tick w)) (filename file) ct
                         (Z.of_nat (length (contents file)))
                         (Some text) None None None None
                         (utcnow E (S (tick w)))
                         (utcnow E (S (S (tick w)))))).

(** [text[:n] + "..." if len(text) > n else text] *)
Definition preview (n : nat) (text : string) : string :=
  if Z.of_nat n <? PyStr.len text then PyStr.upto n text +:+ "..."
  else text.

(** The fields GET /document and GET /documents read with [doc[...]]. *)
Definition required_keys : list string :=
  ["id"; "filename"; "content_type"; "file_size"; "created_at"].

(** The fields GET /document reads with [doc.get(...)]. *)
Definition optional_keys : list string :=
  ["extracted_text"; "summary_text"; "summary_type"; "mindmap_schema";
   "schema_type"; "updated_at"].

(** A world whose remote model fails on every message. *)
Definition E_broken_model : externals :=
  Externals (uuid4 Fixture.E0) (utcnow Fixture.E0) (object_id Fixture.E0)
            (pdf_reader Fixture.E0)
            (fun _ _ _ _ _ => Raised "quota exceeded")
            (doc_build Fixture.E0) (none_not_allowed Fixture.E0).

(** The title GET /export-pdf gives the file for a [content_type] it
    knows: a heading and the document's filename ([Documento] when the
    document has none). *)
Definition export_title (content_type : string) (d : document) : string :=
  (if String.eqb content_type "summary" then "Riassunto - "
   else if String.eqb content_type "schema" then "Schema - "
   else "Testo Completo - ")
  +:+ py_str (get_or d "filename" (VStr "Documento")).


(** Does a request answered with status [s] add a turn to the chat log? *)
Definition logged (r : request) (s : Z) : bool :=
  match r with
  | PostChat _ => s =? 200
  | _ => false
  end.


(** The fields of an entry of GET /documents. *)
Definition listing_keys : list string :=
  ["id"; "filename"; "content_type"; "file_size"; "has_summary";
   "has_schema"; "created_at"; "text_preview"].

(** A record as the routes leave it: it has the five fields read with
    [doc[...]] and its extracted text is a non-empty string. *)
Definition well_formed (d : document) : Prop :=
  Forall (fun k => is_Some (d !! k)) required_keys /\
  exists text, d !! "extracted_text" = Some (VStr text) /\
               PyStr.nonempty text = true.

(** ** [prepare_for_mongo] on nested data

    The dicts of the two models are flat, and [prepare_for_mongo] above
    is the function on them.  The source function also descends into
    nested dicts and into the dicts of a list; here it is on values that
    can nest.  A dict is the list of its items, in order; the function
    assigns to the keys it iterates over, so it returns its argument
    with every value replaced in place. *)

Module Json.

#[local] Unset Elimination Schemes.
Inductive json : Type :=
| JScalar (v : value)
| JDict (fields : list (string * json))
| JList (items : list json).
#[local] Set Elimination Schemes.

Fixpoint prepare_for_mongo (data : json) : json :=
  match data with
  | JDict fields =>
      JDict
        (map (fun kv =>
                let value := snd kv in
                (fst kv,
                 match value with
                 | JScalar (VDatetime iso) => JScalar (VStr iso)
                 | JScalar _ => value
                 | JDict _ => prepare_for_mongo value
                 | JList items =>
                     JList
                       (map (fun item =>
                               match item with
                               | JDict _ => prepare_for_mongo item
                               | _ => item
                               end) items)
                 end)) fields)
  | _ => data
  end.

(** What [prepare_for_mongo] leaves in a list for [item], and at a key
    for [value]: the two inner branches of the function. *)
Definition prepared_item (item : json) : json :=
  match item with
  | JDict _ => prepare_for_mongo item
  | _ => item
  end.

Definition prepared_value (value : json) : json :=
  match value with
  | JScalar (VDatetime iso) => JScalar (VStr iso)
  | JScalar _ => value
  | JDict _ => prepare_for_mongo value
  | JList items => JList (map prepared_item items)
  end.

(** No [datetime] is left anywhere in the value. *)
Fixpoint no_datetime (data : json) : bool :=
  match data with
  | JScalar (VDatetime _) => false
  | JScalar _ => true
  | JDict fields => forallb (fun kv => no_datetime (snd kv)) fields
  | JList items => forallb no_datetime items
  end.

(** Every list, at any depth, holds only dicts and scalars that are no
    [datetime]. *)
Fixpoint lists_of_dicts (data : json) : bool :=
  match data with
  | JScalar _ => true
  | JDict fields => forallb (fun kv => lists_of_dicts (snd kv)) fields
  | JList items =>
      forallb (fun item =>
                 match item with
                 | JScalar (VDatetime _) => false
                 | JScalar _ => true
                 | JDict _ => lists_of_dicts item
                 | JList _ => false
                 end) items
  end.

(** The keys of a dict, in order. *)
Definition keys (data : json) : list string :=
  match data with
  | JDict fields => map fst fields
  | _ => []
  end.

(** A flat dict as a nested value, and back. *)
Definition of_items (items : list (string * value)) : json :=
  JDict (map (fun kv => (fst kv, JScalar (snd kv))) items).

Definition as_document (data : json) : option document :=
  match data with
  | JDict fields =>
      list_to_map
        <$> mapM (fun kv => match snd kv with
                            | JScalar v => Some (fst kv, v)
                            | _ => None
                            end) fields
  | _ => None
  end.

End Json.

(** Induction on nested data, with the property known of the values of
    a dict and of the items of a list. *)

Section JsonInduction.

Variable P : Json.json -> Prop.
Hypothesis Hscalar : forall v, P (Json.JScalar v).
Hypothesis Hdict :
  forall fields, Forall (fun kv => P (snd kv)) fields -> P (Json.JDict fields).
Hypothesis Hlist : forall items, Forall P items -> P (Json.JList items).

Fixpoint json_induction (data : Json.json) : P data :=
  match data with
  | Json.JScalar v => Hscalar v
  | Json.JDict fields =>
      Hdict fields
        ((fix go (l : list (string * Json.json))
            : Forall (fun kv => P (snd kv)) l :=
            match l with
            | [] => @List.Forall_nil _ _
            | kv :: rest =>
                @List.Forall_cons _ _ kv rest (json_induction (snd kv)) (go rest)
            end) fields)
  | Json.JList items =>
      Hlist items
        ((fix go (l : list Json.json) : Forall P l :=
            match l with
            | [] => @List.Forall_nil _ _
            | item :: rest =>
                @List.Forall_cons _ _ item rest (json_induction item) (go rest)
            end) items)
  end.

End JsonInduction.

(** * Proofs *)

(** ** Running the monad *)

Ltac mrun :=
  cbv [route or_500 try_except bind ret raise draw emit lift
       read_documents write_documents read_chat_messages
       write_chat_messages new_uuid now llm_chat
       extract_text_from_pdf extract_text_with_gemini
       generate_summary_with_gemini generate_schema_with_gemini
       create_pdf_export new_DocumentUpload set_extracted_text
       db_documents_insert_one db_chat_messages_insert_one
       db_documents_find_one db_documents_update_one
       db_documents_delete_one
       documents chat_messages trace tick fst snd status negb].

Lemma blob_length (n : Z) :
  0 <= n -> Z.of_nat (length (Fixture.blob n)) = n.
Proof.
  intros Hn. unfold Fixture.blob. rewrite repeat_length. apply Z2Nat.id, Hn.
Qed.

#[local] Opaque Fixture.blob.

(** ** The upload route *)

Lemma upload_oversized E w file :
  MAX_UPLOAD < Z.of_nat (length (contents file)) ->
  upload_document E file w
  = (Raise (HTTPException 413 "File troppo grande. Massimo 100MB."), w).
Proof.
  intros Hsize. apply Z.ltb_lt in Hsize.
  unfold upload_document. mrun. rewrite Hsize. reflexivity.
Qed.

Lemma upload_unsupported E w file ct :
  content_type file = Some ct ->
  Z.of_nat (length (contents file)) <= MAX_UPLOAD ->
  String.eqb ct "application/pdf" = false ->
  PyStr.startswith "image/" ct = false ->
  upload_document E file w
  = (Raise (HTTPException 400
              "Tipo di file non supportato. Usa PDF o immagini."),
     World (documents w) (chat_messages w) (trace w) (S (S (S (tick w))))).
Proof.
  intros Hct Hsize Hpdf Himg. apply Z.ltb_ge in Hsize.
  unfold upload_document. mrun. rewrite Hsize, Hct, Hpdf, Himg. reflexivity.
Qed.

(** The message [extract_text_with_gemini] sends for a file. *)
Lemma too_short_spec (s : string) :
  too_short s = true <-> s = "" \/ PyStr.len (PyStr.strip s) < MIN_PDF_TEXT.
Proof.
  unfold too_short. rewrite orb_true_iff, Z.ltb_lt.
  destruct s; simpl; intuition congruence.
Qed.

(** What the record of a fresh upload holds once it is in the store. *)
Lemma stored_upload_text oid (d : DocumentUpload) :
  let d' := prepare_for_mongo (DocumentUpload_dict d) in
  match d' !! "_id" with
  | Some _ => d'
  | None => <["_id" := VObjectId oid]> d'
  end !! "extracted_text" = Some (optional (du_extracted_text d)).
Proof.
  destruct d as [? ? ? ? [t|] ? ? ? ? ? ?]; vm_compute; reflexivity.
Qed.

Lemma upload_pdf_trace E w file :
  content_type file = Some "application/pdf" ->
  Z.of_nat (length (contents file)) <= MAX_UPLOAD ->
  let local := pdf_text (pdf_reader E (S (S (S (tick w)))) (contents file)) in
  trace (snd (upload_document E file w))
  = trace w ++
    EvPdfExtract (contents file) local ::
    (if too_short local
     then [EvSendMessage extraction_system_message extraction_user_text
                         (Some (contents file, "application/pdf"))]
     else []).
Proof.
  intros Hct Hsize local. apply Z.ltb_ge in Hsize. subst local.
  destruct w as [docs chats tr tk].
  unfold upload_document. mrun. rewrite Hsize, Hct.
  change ("application/pdf" =? "application/pdf")%string with true.
  mrun. destruct (too_short _); mrun.
  - destruct (send_message _ _ _ _ _ _) as [reply|msg]; mrun.
    + destruct (PyStr.nonempty reply); mrun;
        rewrite <- app_assoc; reflexivity.
    + rewrite <- app_assoc; reflexivity.
  - destruct (PyStr.nonempty _); reflexivity.
Qed.

Lemma upload_pdf_fallback_ok E w file reply :
  content_type file = Some "application/pdf" ->
  Z.of_nat (length (contents file)) <= MAX_UPLOAD ->
  too_short (pdf_text (pdf_reader E (S (S (S (tick w)))) (contents file)))
  = true ->
  send_message E (S (S (S (S (S (tick w)))))) (uuid4 E (S (S (S (S (tick w))))))
               extraction_system_message extraction_user_text
               (Some (contents file, "application/pdf")) = Returned reply ->
  PyStr.nonempty reply = true ->
  status (fst (upload_document E file w)) = 200 /\
  exists d, documents (snd (upload_document E file w)) = documents w ++ [d] /\
            d !! "extracted_text" = Some (VStr reply).
Proof.
  intros Hct Hsize Hshort Hsend Hreply. apply Z.ltb_ge in Hsize.
  destruct w as [docs chats tr tk].
  unfold upload_document. mrun. cbn [tick] in Hshort, Hsend.
  rewrite Hsize, Hct.
  change ("application/pdf" =? "application/pdf")%string with true.
  mrun. rewrite Hshort. mrun. rewrite Hsend. mrun. rewrite Hreply. mrun.
  split; [reflexivity|]. unfold Mongo.insert_one.
  eexists; split; [reflexivity|].
  exact (stored_upload_text _
           (mkDocumentUpload _ _ _ _ (Some reply) _ _ _ _ _ _)).
Qed.

Lemma upload_image_ok E w file ct reply :
  content_type file = Some ct ->
  Z.of_nat (length (contents file)) <= MAX_UPLOAD ->
  String.eqb ct "application/pdf" = false ->
  PyStr.startswith "image/" ct = true ->
  send_message E (S (S (S (S (tick w))))) (uuid4 E (S (S (S (tick w)))))
               extraction_system_message extraction_user_text
               (Some (contents file, ct)) = Returned reply ->
  PyStr.nonempty reply = true ->
  status (fst (upload_document E file w)) = 200 /\
  trace (snd (upload_document E file w))
  = trace w ++ [EvSendMessage extraction_system_message extraction_user_text
                              (Some (contents file, ct))].
Proof.
  intros Hct Hsize Hpdf Himg Hsend Hreply. apply Z.ltb_ge in Hsize.
  destruct w as [docs chats tr tk].
  unfold upload_document. mrun. cbn [tick] in Hsend.
  rewrite Hsize, Hct, Hpdf, Himg. mrun. rewrite Hsend. mrun.
  rewrite Hreply. mrun. split; reflexivity.
Qed.

(** Within the limit the answer is 200, 400 or 500. *)
Lemma upload_within_limit_status E w file :
  Z.of_nat (length (contents file)) <= MAX_UPLOAD ->
  status (fst (upload_document E file w)) = 200 \/
  status (fst (upload_document E file w)) = 400 \/
  status (fst (upload_document E file w)) = 500.
Proof.
  intros Hsize. apply Z.ltb_ge in Hsize. destruct w as [docs chats tr tk].
  unfold upload_document. mrun. rewrite Hsize.
  destruct (content_type file) as [ct|]; mrun; [|auto].
  destruct (ct =? "application/pdf")%string; mrun.
  - destruct (too_short _); mrun.
    + destruct (send_message _ _ _ _ _ _) as [reply|msg]; mrun; [|auto].
      destruct (PyStr.nonempty reply); mrun; auto.
    + destruct (PyStr.nonempty _); mrun; auto.
  - destruct (PyStr.startswith "image/" ct); mrun; [|auto].
    destruct (send_message _ _ _ _ _ _) as [reply|msg]; mrun; [|auto].
    destruct (PyStr.nonempty reply); mrun; auto.
Qed.

(** C1.  For an upload declared [application/pdf], the request sends a
    message to the remote model exactly when [extract_text_from_pdf] ran
    and returned a text that is empty or whose stripped length is below
    50; the only message sent is the transcription request carrying the
    file's own bytes.  When the upload passes the size guard the parser
    does run, once, and returns the stripped concatenation of the page
    texts, or the empty text when PyPDF2 raised: the exception is not
    propagated, the remote model is asked instead and, when it replies
    with a text, the upload is answered 200 and stores that text. *)
Theorem pdf_upload_remote_iff_short E w file :
  content_type file = Some "application/pdf" ->
  exists evs,
    trace (snd (upload_document E file w)) = trace w ++ evs /\
    ((exists sys txt att, EvSendMessage sys txt att ∈ evs) <->
     (exists local, EvPdfExtract (contents file) local ∈ evs /\
                    (local = "" \/ PyStr.len (PyStr.strip local) < 50))) /\
    (forall sys txt att, EvSendMessage sys txt att ∈ evs ->
       sys = extraction_system_message /\ txt = extraction_user_text /\
       att = Some (contents file, "application/pdf")) /\
    (Z.of_nat (length (contents file)) <= MAX_UPLOAD ->
     (forall local,
        EvPdfExtract (contents file) local ∈ evs <->
        local = pdf_text (pdf_reader E (3 + tick w)%nat (contents file))) /\
     (forall msg,
        pdf_reader E (3 + tick w)%nat (contents file) = Raised msg ->
        EvPdfExtract (contents file) "" ∈ evs /\
        EvSendMessage extraction_system_message extraction_user_text
                      (Some (contents file, "application/pdf")) ∈ evs /\
        forall reply,
          send_message E (5 + tick w)%nat (uuid4 E (4 + tick w)%nat)
                       extraction_system_message extraction_user_text
                       (Some (contents file, "application/pdf"))
          = Returned reply ->
          PyStr.nonempty reply = true ->
          status (fst (upload_document E file w)) = 200 /\
          exists d,
            documents (snd (upload_document E file w)) = documents w ++ [d] /\
            d !! "extracted_text" = Some (VStr reply))).
Proof.
  intros Hct.
  destruct (Z.lt_ge_cases MAX_UPLOAD (Z.of_nat (length (contents file))))
    as [Hbig|Hsize].
  - exists []. rewrite (upload_oversized E w file Hbig). cbn [snd].
    rewrite app_nil_r. split; [reflexivity|].
    split; [|split].
    + split.
      * intros (sys & txt & att & Hin). apply elem_of_nil in Hin. tauto.
      * intros (local & Hin & _). apply elem_of_nil in Hin. tauto.
    + intros sys txt att Hin. apply elem_of_nil in Hin. tauto.
    + intros Hle. lia.
  - pose proof (upload_pdf_trace E w file Hct Hsize) as Htr.
    change (S (S (S (tick w)))) with (3 + tick w)%nat in Htr.
    cbv zeta in Htr.
    set (local := pdf_text (pdf_reader E (3 + tick w)%nat (contents file)))
      in *.
    eexists; split; [exact Htr|].
    assert (Hlocal : forall l,
      EvPdfExtract (contents file) l
        ∈ EvPdfExtract (contents file) local ::
          (if too_short local
           then [EvSendMessage extraction_system_message
                   extraction_user_text
                   (Some (contents file, "application/pdf"))]
           else []) <-> l = local).
    { intros l. rewrite elem_of_cons. split.
      - intros [Heq|Hin]; [congruence|].
        destruct (too_short local).
        + apply list_elem_of_singleton in Hin. discriminate.
        + apply elem_of_nil in Hin. tauto.
      - intros ->. left. reflexivity. }
    split; [|split].
    + split.
      * intros (sys & txt & att & Hin).
        exists local. split; [apply Hlocal; reflexivity|].
        apply elem_of_cons in Hin as [Heq|Hin]; [discriminate|].
        destruct (too_short local) eqn:Hshort.
        -- apply too_short_spec, Hshort.
        -- apply elem_of_nil in Hin. tauto.
      * intros (l & Hin & Hcond). apply Hlocal in Hin. subst l.
        apply too_short_spec in Hcond. rewrite Hcond.
        do 3 eexists. right. left.
    + intros sys txt att Hin.
      apply elem_of_cons in Hin as [Heq|Hin]; [discriminate|].
      destruct (too_short local).
      * apply list_elem_of_singleton in Hin. inversion Hin. auto.
      * apply elem_of_nil in Hin. tauto.
    + intros _. split; [exact Hlocal|].
      intros msg Hraised.
      assert (Hempty : local = "")
        by (unfold local; rewrite Hraised; reflexivity).
      clearbody local. subst local. change (too_short "") with true.
      split; [left|]. split; [right; left|].
      intros reply Hsend Hreply.
      apply (upload_pdf_fallback_ok E w file reply Hct Hsize); try assumption.
      change (S (S (S (tick w)))) with (3 + tick w)%nat.
      rewrite Hraised. reflexivity.
Qed.

Lemma pdf_upload_remote_iff_short_witness :
  content_type Fixture.small_pdf = Some "application/pdf" /\
  Z.of_nat (length (contents Fixture.small_pdf)) <= MAX_UPLOAD /\
  status (fst (upload_document Fixture.E_broken_parser Fixture.small_pdf
                               Fixture.w0)) = 200.
Proof.
  split; [reflexivity|]. split; [vm_compute; discriminate|].
  destruct (pdf_upload_remote_iff_short
              Fixture.E_broken_parser Fixture.w0 Fixture.small_pdf eq_refl)
    as (evs & _ & _ & _ & Hrun).
  destruct Hrun as [_ Hraised]; [vm_compute; discriminate|].
  destruct (Hraised "EOF marker not found" eq_refl) as (_ & _ & Hok).
  destruct (Hok "remote text" eq_refl eq_refl) as [Hstatus _].
  exact Hstatus.
Defined.

(** C3 (as amended).  An upload is answered 413 exactly when its content
    is strictly larger than 100MB (100 * 1024 * 1024 bytes); it is then
    rejected before anything else happens: no call to the local parser
    or to the remote model, no write to the store. *)
Theorem upload_413_iff_over_limit E w file :
  (status (fst (upload_document E file w)) = 413 <->
   100 * 1024 * 1024 < Z.of_nat (length (contents file))) /\
  (100 * 1024 * 1024 < Z.of_nat (length (contents file)) ->
   snd (upload_document E file w) = w).
Proof.
  change (100 * 1024 * 1024) with MAX_UPLOAD. split; [split|].
  - intros H413.
    destruct (Z.lt_ge_cases MAX_UPLOAD (Z.of_nat (length (contents file))))
      as [Hbig|Hsize]; [exact Hbig|].
    destruct (upload_within_limit_status E w file Hsize) as [H|[H|H]];
      rewrite H in H413; discriminate.
  - intros Hbig. rewrite (upload_oversized E w file Hbig). reflexivity.
  - intros Hbig. rewrite (upload_oversized E w file Hbig). reflexivity.
Qed.

Lemma upload_413_iff_over_limit_witness :
  100 * 1024 * 1024 < Z.of_nat (length (contents Fixture.oversized_pdf)) /\
  status (fst (upload_document Fixture.E0 Fixture.oversized_pdf Fixture.w0))
  = 413 /\
  snd (upload_document Fixture.E0 Fixture.oversized_pdf Fixture.w0)
  = Fixture.w0.
Proof.
  assert (Hbig : 100 * 1024 * 1024
                 < Z.of_nat (length (contents Fixture.oversized_pdf))).
  { change (contents Fixture.oversized_pdf)
      with (Fixture.blob (MAX_UPLOAD + 1)).
    rewrite blob_length; [reflexivity | discriminate]. }
  split; [exact Hbig|].
  destruct (upload_413_iff_over_limit
              Fixture.E0 Fixture.w0 Fixture.oversized_pdf) as [Hiff Hsame].
  split; [apply Hiff, Hbig | apply Hsame, Hbig].
Defined.

(** C3, as stated, fails at exactly 100MB: an image of 104857600 bytes
    passes the guard, is sent to the remote model and is answered 200. *)
Lemma upload_of_exactly_100MB_is_extracted :
  Z.of_nat (length (contents Fixture.image_at_limit)) = 100 * 1024 * 1024 /\
  status (fst (upload_document Fixture.E0 Fixture.image_at_limit Fixture.w0))
  = 200 /\
  trace (snd (upload_document Fixture.E0 Fixture.image_at_limit Fixture.w0))
  = [EvSendMessage extraction_system_message extraction_user_text
                   (Some (contents Fixture.image_at_limit, "image/png"))].
Proof.
  assert (Hlen : Z.of_nat (length (contents Fixture.image_at_limit))
                 = 100 * 1024 * 1024).
  { change (contents Fixture.image_at_limit) with (Fixture.blob MAX_UPLOAD).
    rewrite blob_length; [reflexivity | discriminate]. }
  split; [exact Hlen|].
  assert (Hle : Z.of_nat (length (contents Fixture.image_at_limit))
                <= MAX_UPLOAD) by (rewrite Hlen; discriminate).
  exact (upload_image_ok Fixture.E0 Fixture.w0 Fixture.image_at_limit
                         "image/png" "remote text"
                         eq_refl Hle eq_refl eq_refl eq_refl eq_refl).
Qed.

(** C4 (as amended).  An upload of at most 100MB whose declared content
    type is neither [application/pdf] nor one starting with [image/] is
    answered 400, whatever its bytes are; no extraction call is made and
    nothing is stored. *)
Theorem upload_unsupported_type_400 E w file ct :
  content_type file = Some ct ->
  ct <> "application/pdf" ->
  PyStr.startswith "image/" ct = false ->
  Z.of_nat (length (contents file)) <= 100 * 1024 * 1024 ->
  status (fst (upload_document E file w)) = 400 /\
  trace (snd (upload_document E file w)) = trace w /\
  documents (snd (upload_document E file w)) = documents w.
Proof.
  intros Hct Hpdf Himg Hsize. apply String.eqb_neq in Hpdf.
  rewrite (upload_unsupported E w file ct Hct Hsize Hpdf Himg).
  repeat split.
Qed.

Lemma upload_unsupported_type_400_witness :
  content_type Fixture.text_file = Some "text/plain" /\
  "text/plain" <> "application/pdf" /\
  PyStr.startswith "image/" "text/plain" = false /\
  Z.of_nat (length (contents Fixture.text_file)) <= 100 * 1024 * 1024 /\
  status (fst (upload_document Fixture.E0 Fixture.text_file Fixture.w0)) = 400.
Proof.
  assert (Hne : "text/plain" <> "application/pdf") by discriminate.
  assert (Hsize : Z.of_nat (length (contents Fixture.text_file))
                  <= 100 * 1024 * 1024) by (vm_compute; discriminate).
  split; [reflexivity|]. split; [exact Hne|]. split; [reflexivity|].
  split; [exact Hsize|].
  exact (proj1 (upload_unsupported_type_400
                  Fixture.E0 Fixture.w0 Fixture.text_file "text/plain"
                  eq_refl Hne eq_refl Hsize)).
Defined.

(** C4, as stated, fails above the size limit: a [text/plain] upload of
    100MB and one byte is answered 413, not 400. *)
Lemma oversized_text_upload_is_413 :
  content_type Fixture.oversized_text = Some "text/plain" /\
  PyStr.startswith "image/" "text/plain" = false /\
  status (fst (upload_document Fixture.E0 Fixture.oversized_text Fixture.w0))
  = 413.
Proof.
  split; [reflexivity|]. split; [reflexivity|].
  rewrite upload_oversized; [reflexivity|].
  change (contents Fixture.oversized_text)
    with (Fixture.blob (MAX_UPLOAD + 1)).
  rewrite blob_length; [reflexivity | discriminate].
Qed.

(** ** What a computation may do to the world

    [preserves R m] is closed under the combinators of the monad when
    [R] is ambient; only the writes to [db.documents] have to be looked
    at. *)

#[local] Instance on_documents_ambient (R : relation (list document))
  `{!PreOrder R} : Ambient (on_documents R).
Proof.
  split.
  - split.
    + intros w. unfold on_documents. reflexivity.
    + intros a b c Hab Hbc. unfold on_documents in *.
      etransitivity; eassumption.
  - intros w. unfold on_documents. reflexivity.
  - intros ev w. unfold on_documents. reflexivity.
  - intros c w. unfold on_documents. reflexivity.
Qed.

Section Preservation.

Context (R : relation world) `{!Ambient R}.

Lemma preserves_ret {A} (a : A) : preserves R (ret a).
Proof. intros w. reflexivity. Qed.

Lemma preserves_raise {A} (e : exn) : preserves R (@raise A e).
Proof. intros w. reflexivity. Qed.

Lemma preserves_bind {A B} (m : M A) (k : A -> M B) :
  preserves R m -> (forall a, preserves R (k a)) -> preserves R (bind m k).
Proof.
  intros Hm Hk w. unfold bind. specialize (Hm w).
  destruct (m w) as [[a|e] w']; cbn [snd] in *; [|exact Hm].
  etransitivity; [exact Hm | apply Hk].
Qed.

Lemma preserves_try_except {A} (m : M A) (h : exn -> M A) :
  preserves R m -> (forall e, preserves R (h e)) ->
  preserves R (try_except m h).
Proof.
  intros Hm Hh w. unfold try_except. specialize (Hm w).
  destruct (m w) as [[a|e] w']; cbn [snd] in *; [exact Hm|].
  etransitivity; [exact Hm | apply Hh].
Qed.

Lemma preserves_route {A} (prefix : string) (m : M A) :
  preserves R m -> preserves R (route prefix m).
Proof.
  intros Hm. apply preserves_try_except; [exact Hm|].
  intros [s d|msg]; apply preserves_raise.
Qed.

Lemma preserves_or_500 {A} (prefix : string) (m : M A) :
  preserves R m -> preserves R (or_500 prefix m).
Proof.
  intros Hm. apply preserves_try_except; [exact Hm|].
  intros e; apply preserves_raise.
Qed.

Lemma preserves_draw : preserves R draw.
Proof. exact ambient_draw. Qed.

Lemma preserves_emit (ev : event) : preserves R (emit ev).
Proof. exact (ambient_emit ev). Qed.

Lemma preserves_lift {A} (o : outcome A) : preserves R (lift o).
Proof. destruct o; [apply preserves_ret | apply preserves_raise]. Qed.

Lemma preserves_read_documents : preserves R read_documents.
Proof. intros w. reflexivity. Qed.

Lemma preserves_read_chat_messages : preserves R read_chat_messages.
Proof. intros w. reflexivity. Qed.

Lemma preserves_write_chat_messages (c : list document) :
  preserves R (write_chat_messages c).
Proof. exact (ambient_chat c). Qed.

Lemma preserves_for_each {A B} (f : A -> M B) (xs : list A) :
  (forall x, preserves R (f x)) -> preserves R (for_each f xs).
Proof.
  intros Hf. induction xs as [|x xs IH]; cbn [for_each].
  - apply preserves_ret.
  - apply preserves_bind; [apply Hf|]. intros y.
    apply preserves_bind; [exact IH|]. intros ys. apply preserves_ret.
Qed.

Lemma preserves_insert_one E (d : document) :
  (forall oid w,
     R w (snd (write_documents (Mongo.insert_one oid d (documents w)) w))) ->
  preserves R (db_documents_insert_one E d).
Proof.
  intros H w. etransitivity; [apply (ambient_draw w)|].
  exact (H (object_id E (tick w)) (snd (draw w))).
Qed.

Lemma preserves_update_one (id : string) (fields : document) :
  (forall w,
     R w (snd (write_documents
                 (Mongo.update_one id fields (documents w)) w))) ->
  preserves R (db_documents_update_one id fields).
Proof. intros H w. exact (H w). Qed.

Lemma preserves_delete_one (id : string) :
  (forall w,
     R w (snd (write_documents
                 (snd (Mongo.delete_one id (documents w))) w))) ->
  preserves R (db_documents_delete_one id).
Proof.
  intros H w. specialize (H w). unfold db_documents_delete_one.
  unfold bind at 1. unfold read_documents.
  destruct (Mongo.delete_one id (documents w)) as [n c'].
  exact H.
Qed.

End Preservation.

Ltac preserve_step :=
  first
    [ apply preserves_ret | apply preserves_raise | apply preserves_draw
    | apply preserves_emit | apply preserves_lift
    | apply preserves_read_documents | apply preserves_read_chat_messages
    | apply preserves_write_chat_messages
    | apply preserves_update_one | apply preserves_insert_one
    | apply preserves_delete_one
    | apply preserves_route | apply preserves_or_500
    | apply preserves_try_except | apply preserves_bind
    | apply preserves_for_each
    | match goal with
      | |- preserves _ (match ?x with _ => _ end) => destruct x
      | |- preserves _ (let _ := _ in _) => cbv zeta
      | |- forall _, _ => intro
      end
    | progress cbv beta zeta ].

Ltac preserve :=
  unfold new_uuid, now, llm_chat, extract_text_from_pdf,
    extract_text_with_gemini, generate_summary_with_gemini,
    generate_schema_with_gemini, create_pdf_export, new_DocumentUpload,
    db_chat_messages_insert_one, db_documents_find_one,
    with_document_context, listing_entry;
  repeat preserve_step; try assumption; try exact _.

(** ** The store operations *)

#[local] Instance only_writes_preorder keys : PreOrder (only_writes keys).
Proof.
  split.
  - intros c. split; [reflexivity|]. intros i d Hd. exists d. auto.
  - intros a b c [Hlab Hab] [Hlbc Hbc]. split; [congruence|].
    intros i d Hd. destruct (Hab i d Hd) as (d1 & Hd1 & H1).
    destruct (Hbc i d1 Hd1) as (d2 & Hd2 & H2).
    exists d2. split; [exact Hd2|]. intros k Hk.
    rewrite (H2 k Hk). apply H1, Hk.
Qed.

#[local] Instance keeps_text_preorder : PreOrder keeps_text.
Proof.
  split.
  - intros c i d Hd. exists d. auto.
  - intros a b c Hab Hbc i d Hd.
    destruct (Hab i d Hd) as (d1 & Hd1 & Ht1 & Hi1).
    destruct (Hbc i d1 Hd1) as (d2 & Hd2 & Ht2 & Hi2).
    exists d2. repeat split; [exact Hd2| |]; congruence.
Qed.

Lemma matches_union id (fields d : document) :
  fields !! "id" = None ->
  Mongo.matches id (fields ∪ d) = Mongo.matches id d.
Proof.
  intros Hf. unfold Mongo.matches.
  rewrite lookup_union_r by exact Hf. reflexivity.
Qed.

Lemma update_one_length id fields c :
  length (Mongo.update_one id fields c) = length c.
Proof.
  induction c as [|d c IH]; cbn [Mongo.update_one]; [reflexivity|].
  destruct (Mongo.matches id d); cbn [length]; congruence.
Qed.

Lemma update_one_lookup id fields c i d :
  c !! i = Some d ->
  exists d', Mongo.update_one id fields c !! i = Some d' /\
             (d' = d \/ d' = fields ∪ d).
Proof.
  revert i. induction c as [|d0 c IH]; intros i Hd; [discriminate|].
  cbn [Mongo.update_one]. destruct (Mongo.matches id d0).
  - destruct i as [|i]; cbn in Hd |- *.
    + injection Hd as ->. eauto.
    + eauto.
  - destruct i as [|i]; cbn in Hd |- *.
    + injection Hd as ->. eauto.
    + apply IH, Hd.
Qed.

Lemma update_one_only_writes id fields keys c :
  (forall k, k ∉ keys -> fields !! k = None) ->
  only_writes keys c (Mongo.update_one id fields c).
Proof.
  intros Hf. split; [apply update_one_length|].
  intros i d Hd.
  destruct (update_one_lookup id fields c i d Hd) as (d' & Hd' & [->| ->]).
  - exists d. auto.
  - exists (fields ∪ d). split; [exact Hd'|].
    intros k Hk. apply lookup_union_r, Hf, Hk.
Qed.

Lemma update_one_keeps_text id fields c :
  fields !! "extracted_text" = None -> fields !! "id" = None ->
  keeps_text c (Mongo.update_one id fields c).
Proof.
  intros Ht Hi i d Hd.
  destruct (update_one_lookup id fields c i d Hd) as (d' & Hd' & [->| ->]).
  - exists d. auto.
  - exists (fields ∪ d). split; [exact Hd'|].
    split; apply lookup_union_r; assumption.
Qed.

Lemma insert_one_keeps_text oid d c : keeps_text c (Mongo.insert_one oid d c).
Proof.
  intros i d0 Hd0. exists d0. split; [|auto].
  unfold Mongo.insert_one. apply lookup_app_l_Some, Hd0.
Qed.

Lemma find_one_update_one id fields c d :
  fields !! "id" = None ->
  Mongo.find_one id c = Some d ->
  Mongo.find_one id (Mongo.update_one id fields c) = Some (fields ∪ d).
Proof.
  intros Hf. unfold Mongo.find_one.
  induction c as [|d0 c IH]; cbn [find Mongo.update_one]; [discriminate|].
  destruct (Mongo.matches id d0) eqn:Hm; cbn [find].
  - intros [= ->]. rewrite (matches_union id fields d Hf), Hm. reflexivity.
  - rewrite Hm. exact IH.
Qed.

(** ** The generation routes *)

Lemma absent_or_empty_falsy d k : absent_or_empty d k -> truthy (get d k) = false.
Proof. unfold get. intros [H|[H|H]]; rewrite H; reflexivity. Qed.

Lemma generate_summary_no_text E w r d :
  Mongo.find_one (sr_document_id r) (documents w) = Some d ->
  truthy (get d "extracted_text") = false ->
  generate_summary E r w
  = (Raise (HTTPException 400 "Testo non disponibile per questo documento"),
     w).
Proof.
  intros Hfind Hfalsy. destruct w as [docs chats tr tk].
  cbn [documents] in Hfind.
  unfold generate_summary. mrun. rewrite Hfind. mrun. rewrite Hfalsy.
  reflexivity.
Qed.

Lemma generate_schema_no_text E w r d :
  Mongo.find_one (sc_document_id r) (documents w) = Some d ->
  truthy (get d "extracted_text") = false ->
  generate_schema E r w
  = (Raise (HTTPException 400 "Testo non disponibile per questo documento"),
     w).
Proof.
  intros Hfind Hfalsy. destruct w as [docs chats tr tk].
  cbn [documents] in Hfind.
  unfold generate_schema. mrun. rewrite Hfind. mrun. rewrite Hfalsy.
  reflexivity.
Qed.

(** C5.  When the stored document a request names has no extracted text
    (the field is missing, [None] or empty), generate-summary and
    generate-schema both answer 400 and leave the world as it was: no
    message goes to the remote model and the store is not written. *)
Theorem generation_without_text_400 E w id d :
  Mongo.find_one id (documents w) = Some d ->
  absent_or_empty d "extracted_text" ->
  (forall summary_type accuracy_level,
     let r := mkSummaryRequest id summary_type accuracy_level in
     status (fst (generate_summary E r w)) = 400 /\
     snd (generate_summary E r w) = w) /\
  (forall schema_type,
     let r := mkSchemaRequest id schema_type in
     status (fst (generate_schema E r w)) = 400 /\
     snd (generate_schema E r w) = w).
Proof.
  intros Hfind Hno. apply absent_or_empty_falsy in Hno. split.
  - intros st acc r.
    rewrite (generate_summary_no_text E w r d Hfind Hno). split; reflexivity.
  - intros st r.
    rewrite (generate_schema_no_text E w r d Hfind Hno). split; reflexivity.
Qed.

Lemma generation_without_text_400_witness :
  Mongo.find_one "doc-1"
    (documents (Fixture.world_of [Fixture.stored "doc-1" None]))
  = Some (Fixture.stored "doc-1" None) /\
  absent_or_empty (Fixture.stored "doc-1" None) "extracted_text" /\
  status (fst (generate_summary Fixture.E0
                 (mkSummaryRequest "doc-1" "breve" "alta")
                 (Fixture.world_of [Fixture.stored "doc-1" None]))) = 400 /\
  status (fst (generate_schema Fixture.E0
                 (mkSchemaRequest "doc-1" "cascata")
                 (Fixture.world_of [Fixture.stored "doc-1" None]))) = 400.
Proof.
  assert (Hfind : Mongo.find_one "doc-1"
            (documents (Fixture.world_of [Fixture.stored "doc-1" None]))
          = Some (Fixture.stored "doc-1" None)) by reflexivity.
  assert (Hno : absent_or_empty (Fixture.stored "doc-1" None)
                                "extracted_text")
    by (right; left; vm_compute; reflexivity).
  split; [exact Hfind|]. split; [exact Hno|].
  destruct (generation_without_text_400 Fixture.E0 _ "doc-1" _ Hfind Hno)
    as [Hsum Hsch].
  split; [exact (proj1 (Hsum "breve" "alta")) | exact (proj1 (Hsch "cascata"))].
Defined.

(** The fields the two routes write. *)
Lemma summary_fields_only summary summary_type stamp k :
  k ∉ ["summary_text"; "summary_type"; "updated_at"] ->
  ({[ "summary_text" := VStr summary;
      "summary_type" := VStr summary_type;
      "updated_at" := VStr stamp ]} : document) !! k = None.
Proof.
  intros Hk. rewrite !not_elem_of_cons in Hk. destruct Hk as (?&?&?&_).
  rewrite !lookup_insert_ne by congruence.
  apply lookup_singleton_ne. congruence.
Qed.

Lemma schema_fields_only schema schema_type stamp k :
  k ∉ ["mindmap_schema"; "schema_type"; "updated_at"] ->
  ({[ "mindmap_schema" := VStr schema;
      "schema_type" := VStr schema_type;
      "updated_at" := VStr stamp ]} : document) !! k = None.
Proof.
  intros Hk. rewrite !not_elem_of_cons in Hk. destruct Hk as (?&?&?&_).
  rewrite !lookup_insert_ne by congruence.
  apply lookup_singleton_ne. congruence.
Qed.

(** A generate-summary call that is answered 200 found the document,
    obtained a summary from the remote model and wrote it with one
    [update_one]. *)
Lemma generate_summary_success E w r :
  status (fst (generate_summary E r w)) = 200 ->
  exists d summary,
    Mongo.find_one (sr_document_id r) (documents w) = Some d /\
    truthy (get d "extracted_text") = true /\
    answered (fst (generate_summary E r w)) "summary" = Some (VStr summary) /\
    documents (snd (generate_summary E r w))
    = Mongo.update_one (sr_document_id r)
        {[ "summary_text" := VStr summary;
           "summary_type" := VStr (sr_summary_type r);
           "updated_at" := VStr (utcnow E (S (S (tick w)))) ]}
        (documents w).
Proof.
  destruct w as [docs chats tr tk]. unfold generate_summary. mrun.
  destruct (Mongo.find_one _ docs) as [d|]; mrun; [|discriminate].
  destruct (truthy (get d "extracted_text")) eqn:Htext; mrun; [|discriminate].
  unfold getitem.
  destruct (d !! "extracted_text") as [text|]; mrun; [|discriminate].
  destruct (send_message _ _ _ _ _ _) as [summary|msg]; mrun; [|discriminate].
  intros _. exists d, summary. repeat split; try reflexivity; exact Htext.
Qed.

Lemma generate_schema_success E w r :
  status (fst (generate_schema E r w)) = 200 ->
  exists d schema,
    Mongo.find_one (sc_document_id r) (documents w) = Some d /\
    truthy (get d "extracted_text") = true /\
    answered (fst (generate_schema E r w)) "schema" = Some (VStr schema) /\
    documents (snd (generate_schema E r w))
    = Mongo.update_one (sc_document_id r)
        {[ "mindmap_schema" := VStr schema;
           "schema_type" := VStr (sc_schema_type r);
           "updated_at" := VStr (utcnow E (S (S (tick w)))) ]}
        (documents w).
Proof.
  destruct w as [docs chats tr tk]. unfold generate_schema. mrun.
  destruct (Mongo.find_one _ docs) as [d|]; mrun; [|discriminate].
  destruct (truthy (get d "extracted_text")) eqn:Htext; mrun; [|discriminate].
  unfold getitem.
  destruct (d !! "extracted_text") as [text|]; mrun; [|discriminate].
  destruct (send_message _ _ _ _ _ _) as [schema|msg]; mrun; [|discriminate].
  intros _. exists d, schema. repeat split; try reflexivity; exact Htext.
Qed.

Lemma generate_summary_preserves E r R `{!Ambient R} :
  (forall fields w,
     (forall k, k ∉ ["summary_text"; "summary_type"; "updated_at"] ->
                fields !! k = None) ->
     R w (snd (write_documents
                 (Mongo.update_one (sr_document_id r) fields (documents w))
                 w))) ->
  preserves R (generate_summary E r).
Proof.
  intros Hupd. unfold generate_summary. preserve.
  intros. apply Hupd. intros k. apply summary_fields_only.
Qed.

Lemma generate_schema_preserves E r R `{!Ambient R} :
  (forall fields w,
     (forall k, k ∉ ["mindmap_schema"; "schema_type"; "updated_at"] ->
                fields !! k = None) ->
     R w (snd (write_documents
                 (Mongo.update_one (sc_document_id r) fields (documents w))
                 w))) ->
  preserves R (generate_schema E r).
Proof.
  intros Hupd. unfold generate_schema. preserve.
  intros. apply Hupd. intros k. apply schema_fields_only.
Qed.

(** A field of [fields ∪ d] for literal [fields]. *)
Ltac field_of_union :=
  repeat (rewrite lookup_union_r by (vm_compute; reflexivity));
  apply lookup_union_Some_l; vm_compute; reflexivity.

Lemma generate_summary_written E w r :
  status (fst (generate_summary E r w)) = 200 ->
  exists summary d,
    answered (fst (generate_summary E r w)) "summary" = Some (VStr summary) /\
    Mongo.find_one (sr_document_id r) (documents w) = Some d /\
    Mongo.find_one (sr_document_id r)
                   (documents (snd (generate_summary E r w)))
    = Some ({[ "summary_text" := VStr summary;
               "summary_type" := VStr (sr_summary_type r);
               "updated_at" := VStr (utcnow E (S (S (tick w)))) ]} ∪ d).
Proof.
  intros Hok.
  destruct (generate_summary_success E w r Hok)
    as (d & summary & Hfind & _ & Hans & Hdocs).
  exists summary, d. split; [exact Hans|]. split; [exact Hfind|].
  rewrite Hdocs. apply find_one_update_one; [|exact Hfind].
  apply summary_fields_only. rewrite !not_elem_of_cons.
  repeat split; try discriminate. apply not_elem_of_nil.
Qed.

Lemma generate_schema_written E w r :
  status (fst (generate_schema E r w)) = 200 ->
  exists schema d,
    answered (fst (generate_schema E r w)) "schema" = Some (VStr schema) /\
    Mongo.find_one (sc_document_id r) (documents w) = Some d /\
    Mongo.find_one (sc_document_id r)
                   (documents (snd (generate_schema E r w)))
    = Some ({[ "mindmap_schema" := VStr schema;
               "schema_type" := VStr (sc_schema_type r);
               "updated_at" := VStr (utcnow E (S (S (tick w)))) ]} ∪ d).
Proof.
  intros Hok.
  destruct (generate_schema_success E w r Hok)
    as (d & schema & Hfind & _ & Hans & Hdocs).
  exists schema, d. split; [exact Hans|]. split; [exact Hfind|].
  rewrite Hdocs. apply find_one_update_one; [|exact Hfind].
  apply schema_fields_only. rewrite !not_elem_of_cons.
  repeat split; try discriminate. apply not_elem_of_nil.
Qed.

(** The two writes on one document, whichever reaches the store first. *)
Lemma both_writes_land id (c : list document) d (fs fc : document) k v :
  Mongo.find_one id c = Some d ->
  fs !! "id" = None -> fc !! "id" = None ->
  (fs !! k = Some v /\ fc !! k = None) \/ (fc !! k = Some v /\ fs !! k = None) ->
  exists d1 d2,
    Mongo.find_one id (Mongo.update_one id fc (Mongo.update_one id fs c))
    = Some d1 /\
    Mongo.find_one id (Mongo.update_one id fs (Mongo.update_one id fc c))
    = Some d2 /\
    d1 !! k = Some v /\ d2 !! k = Some v.
Proof.
  intros Hfind Hs Hc Hk.
  exists (fc ∪ (fs ∪ d)), (fs ∪ (fc ∪ d)).
  split; [|split].
  - apply find_one_update_one; [exact Hc|].
    apply find_one_update_one; assumption.
  - apply find_one_update_one; [exact Hs|].
    apply find_one_update_one; assumption.
  - destruct Hk as [[Hv Hn]|[Hv Hn]]; split.
    + rewrite lookup_union_r by exact Hn. apply lookup_union_Some_l, Hv.
    + apply lookup_union_Some_l, Hv.
    + apply lookup_union_Some_l, Hv.
    + rewrite lookup_union_r by exact Hn. apply lookup_union_Some_l, Hv.
Qed.

(** C2.  Whatever its outcome, a generate-summary call leaves every
    stored document with all its fields but [summary_text],
    [summary_type] and [updated_at], and a generate-schema call with
    all but [mindmap_schema], [schema_type] and [updated_at]; when the
    call is answered 200 the document it names holds the generated text
    and its type.  Hence after a successful summary and a successful
    schema call on the same document, in either order, the document
    holds both the summary and the schema that were answered; and the
    two [update_one] writes themselves, applied to a store in either
    order, leave the summary and the schema in the document. *)
Theorem summary_and_schema_writes_are_separate E :
  (forall w r,
     let run := generate_summary E r w in
     only_writes ["summary_text"; "summary_type"; "updated_at"]
                 (documents w) (documents (snd run)) /\
     (status (fst run) = 200 ->
      exists summary d,
        answered (fst run) "summary" = Some (VStr summary) /\
        Mongo.find_one (sr_document_id r) (documents (snd run)) = Some d /\
        d !! "summary_text" = Some (VStr summary) /\
        d !! "summary_type" = Some (VStr (sr_summary_type r)))) /\
  (forall w r,
     let run := generate_schema E r w in
     only_writes ["mindmap_schema"; "schema_type"; "updated_at"]
                 (documents w) (documents (snd run)) /\
     (status (fst run) = 200 ->
      exists schema d,
        answered (fst run) "schema" = Some (VStr schema) /\
        Mongo.find_one (sc_document_id r) (documents (snd run)) = Some d /\
        d !! "mindmap_schema" = Some (VStr schema) /\
        d !! "schema_type" = Some (VStr (sc_schema_type r)))) /\
  (forall w rs rc,
     sr_document_id rs = sc_document_id rc ->
     let first := generate_summary E rs w in
     let second := generate_schema E rc (snd first) in
     status (fst first) = 200 -> status (fst second) = 200 ->
     exists summary schema d,
       answered (fst first) "summary" = Some (VStr summary) /\
       answered (fst second) "schema" = Some (VStr schema) /\
       Mongo.find_one (sr_document_id rs) (documents (snd second)) = Some d /\
       d !! "summary_text" = Some (VStr summary) /\
       d !! "mindmap_schema" = Some (VStr schema)) /\
  (forall w rs rc,
     sr_document_id rs = sc_document_id rc ->
     let first := generate_schema E rc w in
     let second := generate_summary E rs (snd first) in
     status (fst first) = 200 -> status (fst second) = 200 ->
     exists summary schema d,
       answered (fst second) "summary" = Some (VStr summary) /\
       answered (fst first) "schema" = Some (VStr schema) /\
       Mongo.find_one (sr_document_id rs) (documents (snd second)) = Some d /\
       d !! "summary_text" = Some (VStr summary) /\
       d !! "mindmap_schema" = Some (VStr schema)) /\
  (forall id c d summary summary_type stamp schema schema_type stamp',
     Mongo.find_one id c = Some d ->
     let fs : document := {[ "summary_text" := VStr summary;
                             "summary_type" := VStr summary_type;
                             "updated_at" := VStr stamp ]} in
     let fc : document := {[ "mindmap_schema" := VStr schema;
                             "schema_type" := VStr schema_type;
                             "updated_at" := VStr stamp' ]} in
     forall c',
       c' = Mongo.update_one id fc (Mongo.update_one id fs c) \/
       c' = Mongo.update_one id fs (Mongo.update_one id fc c) ->
       exists d', Mongo.find_one id c' = Some d' /\
                  d' !! "summary_text" = Some (VStr summary) /\
                  d' !! "mindmap_schema" = Some (VStr schema)).
Proof.
  split; [|split; [|split; [|split]]].
  - intros w r run. split.
    + apply (generate_summary_preserves E r (on_documents (only_writes _))).
      intros fields w0 Hf. apply update_one_only_writes, Hf.
    + intros Hok.
      destruct (generate_summary_written E w r Hok)
        as (summary & d & Hans & _ & Hfind).
      eexists summary, _. split; [exact Hans|]. split; [exact Hfind|].
      split; field_of_union.
  - intros w r run. split.
    + apply (generate_schema_preserves E r (on_documents (only_writes _))).
      intros fields w0 Hf. apply update_one_only_writes, Hf.
    + intros Hok.
      destruct (generate_schema_written E w r Hok)
        as (schema & d & Hans & _ & Hfind).
      eexists schema, _. split; [exact Hans|]. split; [exact Hfind|].
      split; field_of_union.
  - intros w rs rc Hid first second Hok1 Hok2.
    destruct (generate_summary_written E w rs Hok1)
      as (summary & d & Hans1 & _ & Hfind1).
    destruct (generate_schema_written E (snd first) rc Hok2)
      as (schema & d1 & Hans2 & Hfind1' & Hfind2).
    rewrite <- Hid in Hfind1', Hfind2.
    fold first in Hfind1. rewrite Hfind1 in Hfind1'.
    injection Hfind1' as <-.
    eexists summary, schema, _.
    split; [exact Hans1|]. split; [exact Hans2|]. split; [exact Hfind2|].
    split; field_of_union.
  - intros w rs rc Hid first second Hok1 Hok2.
    destruct (generate_schema_written E w rc Hok1)
      as (schema & d & Hans1 & _ & Hfind1).
    destruct (generate_summary_written E (snd first) rs Hok2)
      as (summary & d1 & Hans2 & Hfind1' & Hfind2).
    rewrite Hid in Hfind1'.
    fold first in Hfind1. rewrite Hfind1 in Hfind1'.
    injection Hfind1' as <-.
    eexists summary, schema, _.
    split; [exact Hans2|]. split; [exact Hans1|]. split; [exact Hfind2|].
    split; field_of_union.
  - intros id c d summary st stamp schema ct stamp' Hfind fs fc c' Hc'.
    destruct (both_writes_land id c d fs fc "summary_text" (VStr summary)
                Hfind eq_refl eq_refl (or_introl (conj eq_refl eq_refl)))
      as (d1 & d2 & H1 & H2 & Hs1 & Hs2).
    destruct (both_writes_land id c d fs fc "mindmap_schema" (VStr schema)
                Hfind eq_refl eq_refl (or_intror (conj eq_refl eq_refl)))
      as (d1' & d2' & H1' & H2' & Hc1 & Hc2).
    rewrite H1 in H1'. injection H1' as <-.
    rewrite H2 in H2'. injection H2' as <-.
    destruct Hc' as [-> | ->]; [exists d1 | exists d2]; auto.
Qed.

Lemma summary_and_schema_writes_are_separate_witness :
  let w := Fixture.world_of [Fixture.stored "doc-1" (Some "Some text.")] in
  let rs := mkSummaryRequest "doc-1" "breve" "alta" in
  let rc := mkSchemaRequest "doc-1" "cascata" in
  status (fst (generate_summary Fixture.E0 rs w)) = 200 /\
  status (fst (generate_schema Fixture.E0 rc
                 (snd (generate_summary Fixture.E0 rs w)))) = 200 /\
  exists summary schema d,
    answered (fst (generate_summary Fixture.E0 rs w)) "summary"
    = Some (VStr summary) /\
    answered (fst (generate_schema Fixture.E0 rc
                     (snd (generate_summary Fixture.E0 rs w)))) "schema"
    = Some (VStr schema) /\
    Mongo.find_one "doc-1"
      (documents (snd (generate_schema Fixture.E0 rc
                         (snd (generate_summary Fixture.E0 rs w)))))
    = Some d /\
    d !! "summary_text" = Some (VStr summary) /\
    d !! "mindmap_schema" = Some (VStr schema).
Proof.
  intros w rs rc.
  assert (H1 : status (fst (generate_summary Fixture.E0 rs w)) = 200)
    by (vm_compute; reflexivity).
  assert (H2 : status (fst (generate_schema Fixture.E0 rc
                              (snd (generate_summary Fixture.E0 rs w)))) = 200)
    by (vm_compute; reflexivity).
  split; [exact H1|]. split; [exact H2|].
  exact (proj1 (proj2 (proj2 (summary_and_schema_writes_are_separate
                                Fixture.E0)))
               w rs rc eq_refl H1 H2).
Defined.

(** ** Requests that do not delete keep every extracted text *)

Lemma handle_keeps_text E r :
  is_delete r = false -> preserves (on_documents keeps_text) (handle E r).
Proof.
  destruct r as [file|r|r|r|id ct| |id|id| ]; cbn [is_delete handle];
    intros Hdel; try discriminate.
  - unfold upload_document. preserve. apply insert_one_keeps_text.
  - apply (generate_summary_preserves E r _). intros fields w Hf.
    apply update_one_keeps_text; apply Hf; rewrite !not_elem_of_cons;
      (repeat split; try discriminate); apply not_elem_of_nil.
  - apply (generate_schema_preserves E r _). intros fields w Hf.
    apply update_one_keeps_text; apply Hf; rewrite !not_elem_of_cons;
      (repeat split; try discriminate); apply not_elem_of_nil.
  - unfold chat_with_document. preserve.
  - unfold export_pdf. preserve.
  - unfold get_documents. preserve.
  - unfold get_document. preserve.
  - unfold root. preserve.
Qed.

(** C7.  Along any sequence of requests without a deletion (uploads,
    generate-summary, generate-schema, chat, export, listing, reading),
    every stored document stays in the store at its place with the
    identifier and the [extracted_text] field it had: the field is
    neither removed nor overwritten. *)
Theorem extracted_text_is_never_overwritten E rs w :
  Forall (fun r => is_delete r = false) rs ->
  forall i d,
    documents w !! i = Some d ->
    exists d',
      documents (snd (serve E rs w)) !! i = Some d' /\
      d' !! "extracted_text" = d !! "extracted_text" /\
      d' !! "id" = d !! "id".
Proof.
  intros Hrs. change (keeps_text (documents w) (documents (snd (serve E rs w)))).
  revert w. induction Hrs as [|r rs Hr Hrs IH]; intros w; cbn [serve].
  - reflexivity.
  - pose proof (handle_keeps_text E r Hr w) as Hstep.
    destruct (handle E r w) as [res w1]. cbn [snd] in Hstep.
    specialize (IH w1). destruct (serve E rs w1) as [sts w2].
    cbn [snd] in *. etransitivity; eassumption.
Qed.

Lemma extracted_text_is_never_overwritten_witness :
  let w := Fixture.world_of [Fixture.stored "doc-1" (Some "Some text.")] in
  let rs := [ PostGenerateSummary (mkSummaryRequest "doc-1" "breve" "alta");
              PostGenerateSchema (mkSchemaRequest "doc-1" "cascata");
              PostChat (mkChatRequest (Some "doc-1") "What is it?" None);
              GetExportPdf "doc-1" (Some "full");
              PostUpload Fixture.small_pdf ] in
  Forall (fun r => is_delete r = false) rs /\
  documents w !! 0%nat = Some (Fixture.stored "doc-1" (Some "Some text.")) /\
  fst (serve Fixture.E0 rs w) = [200; 200; 200; 200; 200] /\
  exists d',
    documents (snd (serve Fixture.E0 rs w)) !! 0%nat = Some d' /\
    d' !! "extracted_text" = Some (VStr "Some text.") /\
    d' !! "id" = Some (VStr "doc-1").
Proof.
  intros w rs.
  assert (Hrs : Forall (fun r => is_delete r = false) rs)
    by (repeat constructor).
  split; [exact Hrs|]. split; [reflexivity|].
  split; [vm_compute; reflexivity|].
  exact (extracted_text_is_never_overwritten Fixture.E0 rs w Hrs 0%nat
           (Fixture.stored "doc-1" (Some "Some text.")) eq_refl).
Defined.

(** ** The export route *)

Lemma export_unknown E w id ct :
  Mongo.find_one id (documents w) = None ->
  export_pdf E id ct w = (Raise (HTTPException 404 "Documento non trovato"), w).
Proof.
  intros Hfind. destruct w as [docs chats tr tk]. cbn [documents] in Hfind.
  unfold export_pdf. mrun. rewrite Hfind. reflexivity.
Qed.

Lemma export_invalid E w id c d :
  Mongo.find_one id (documents w) = Some d ->
  export_field c = None ->
  export_pdf E id (Some c) w
  = (Raise (HTTPException 400 "Tipo di contenuto non valido"), w).
Proof.
  intros Hfind Hc. destruct w as [docs chats tr tk]. cbn [documents] in Hfind.
  unfold export_pdf. mrun. rewrite Hfind. unfold export_field in Hc.
  mrun.
  destruct (c =? "summary")%string; [discriminate|].
  destruct (c =? "schema")%string; [discriminate|].
  destruct (c =? "full")%string; [discriminate|]. reflexivity.
Qed.

Lemma export_empty E w id c d k :
  Mongo.find_one id (documents w) = Some d ->
  export_field c = Some k ->
  truthy (get d k) = false ->
  export_pdf E id (Some c) w
  = (Raise (HTTPException 400 "Contenuto non disponibile"), w).
Proof.
  intros Hfind Hc Hk. destruct w as [docs chats tr tk].
  cbn [documents] in Hfind.
  unfold export_pdf. mrun. rewrite Hfind. unfold export_field in Hc.
  mrun.
  destruct (c =? "summary")%string;
    [|destruct (c =? "schema")%string; [|destruct (c =? "full")%string]];
    try discriminate; injection Hc as <-; mrun; rewrite Hk; reflexivity.
Qed.

(** C6 (as amended).  An export request for an identifier that matches
    no stored document is answered 404, whatever its [content_type].
    For a stored document: a [content_type] other than [summary],
    [schema] and [full] is answered 400; a request without
    [content_type] is served as [content_type=summary]; and when the
    field the [content_type] selects is missing, [None] or empty the
    answer is 400.  None of these answers changes the world. *)
Theorem export_pdf_rejections E w id :
  (Mongo.find_one id (documents w) = None ->
   forall ct, status (fst (export_pdf E id ct w)) = 404 /\
              snd (export_pdf E id ct w) = w) /\
  export_pdf E id None w = export_pdf E id (Some "summary") w /\
  (forall d, Mongo.find_one id (documents w) = Some d ->
     (forall c, c <> "summary" -> c <> "schema" -> c <> "full" ->
        status (fst (export_pdf E id (Some c) w)) = 400 /\
        snd (export_pdf E id (Some c) w) = w) /\
     (forall c k, export_field c = Some k -> absent_or_empty d k ->
        status (fst (export_pdf E id (Some c) w)) = 400 /\
        snd (export_pdf E id (Some c) w) = w)).
Proof.
  split; [|split].
  - intros Hfind ct. rewrite (export_unknown E w id ct Hfind).
    split; reflexivity.
  - reflexivity.
  - intros d Hfind. split.
    + intros c H1 H2 H3.
      rewrite (export_invalid E w id c d Hfind); [split; reflexivity|].
      unfold export_field. apply String.eqb_neq in H1, H2, H3.
      rewrite H1, H2, H3. reflexivity.
    + intros c k Hc Hk.
      rewrite (export_empty E w id c d k Hfind Hc
                            (absent_or_empty_falsy d k Hk)).
      split; reflexivity.
Qed.

Lemma export_pdf_rejections_witness :
  let w := Fixture.world_of [Fixture.stored "doc-1" (Some "Some text.")] in
  Mongo.find_one "doc-2" (documents w) = None /\
  Mongo.find_one "doc-1" (documents w)
  = Some (Fixture.stored "doc-1" (Some "Some text.")) /\
  status (fst (export_pdf Fixture.E0 "doc-2" (Some "full") w)) = 404 /\
  status (fst (export_pdf Fixture.E0 "doc-1" (Some "text") w)) = 400 /\
  status (fst (export_pdf Fixture.E0 "doc-1" (Some "schema") w)) = 400.
Proof.
  intros w.
  assert (Hnone : Mongo.find_one "doc-2" (documents w) = None)
    by (vm_compute; reflexivity).
  assert (Hsome : Mongo.find_one "doc-1" (documents w)
                  = Some (Fixture.stored "doc-1" (Some "Some text.")))
    by reflexivity.
  split; [exact Hnone|]. split; [exact Hsome|].
  destruct (export_pdf_rejections Fixture.E0 w "doc-2") as (H404 & _ & _).
  destruct (export_pdf_rejections Fixture.E0 w "doc-1") as (_ & _ & H400).
  destruct (H400 _ Hsome) as [Hinvalid Hempty].
  split; [exact (proj1 (H404 Hnone (Some "full")))|].
  split.
  - apply Hinvalid; discriminate.
  - apply (Hempty "schema" "mindmap_schema"); [reflexivity|].
    right; left; vm_compute; reflexivity.
Defined.

(** C6, as stated, fails for a request without [content_type]: on a
    document that has a summary it is answered 200 with the exported
    file. *)
Lemma export_without_content_type_is_200 :
  status (fst (export_pdf Fixture.E0 "doc-1" None
                 (Fixture.world_of [Fixture.summarised "doc-1"]))) = 200 /\
  fst (export_pdf Fixture.E0 "doc-1" None
         (Fixture.world_of [Fixture.summarised "doc-1"]))
  = Return (FileResponse "/tmp/export.pdf" "application/pdf"
                         "Riassunto - a.pdf.pdf").
Proof. split; vm_compute; reflexivity. Qed.

(** ** The delete route *)

Lemma delete_one_count id c :
  fst (Mongo.delete_one id c)
  = match List.filter (Mongo.matches id) c with [] => 0 | _ :: _ => 1 end.
Proof.
  induction c as [|d c IH]; cbn [Mongo.delete_one List.filter]; [reflexivity|].
  destruct (Mongo.matches id d); [reflexivity|].
  destruct (Mongo.delete_one id c) as [n c']. exact IH.
Qed.

Lemma delete_one_rest id c :
  List.filter (Mongo.matches id) (snd (Mongo.delete_one id c))
  = tail (List.filter (Mongo.matches id) c).
Proof.
  induction c as [|d c IH]; cbn [Mongo.delete_one List.filter]; [reflexivity|].
  destruct (Mongo.matches id d) eqn:Hm; [reflexivity|].
  destruct (Mongo.delete_one id c) as [n c']. cbn [snd List.filter] in *.
  rewrite Hm. exact IH.
Qed.

Lemma delete_document_run w id :
  delete_document id w
  = (match List.filter (Mongo.matches id) (documents w) with
     | [] => Raise (HTTPException 404 "Documento non trovato.")
     | _ :: _ =>
         Return (JsonObject
           {[ "message" := VStr ("Documento " +:+ id
                                 +:+ " eliminato con successo.") ]})
     end,
     World (snd (Mongo.delete_one id (documents w)))
           (chat_messages w) (trace w) (tick w)).
Proof.
  destruct w as [docs chats tr tk]. unfold delete_document. mrun.
  pose proof (delete_one_count id docs) as Hn.
  destruct (Mongo.delete_one id docs) as [n c']. cbn [fst] in Hn.
  mrun. subst n. destruct (List.filter (Mongo.matches id) docs); reflexivity.
Qed.

(** ** The listing route *)

Lemma stateless_ret {A} (a : A) : stateless (ret a).
Proof. exists (Return a). reflexivity. Qed.

Lemma stateless_raise {A} (e : exn) : stateless (@raise A e).
Proof. exists (Raise e). reflexivity. Qed.

Lemma stateless_lift {A} (o : outcome A) : stateless (lift o).
Proof. destruct o; [apply stateless_ret | apply stateless_raise]. Qed.

Lemma stateless_bind {A B} (m : M A) (k : A -> M B) :
  stateless m -> (forall a, stateless (k a)) -> stateless (bind m k).
Proof.
  intros [r Hm] Hk. destruct r as [a|e].
  - destruct (Hk a) as [r' Hka]. exists r'. intros w.
    unfold bind. rewrite Hm. apply Hka.
  - exists (Raise e). intros w. unfold bind. rewrite Hm. reflexivity.
Qed.

Lemma stateless_for_each {A B} (f : A -> M B) (xs : list A) :
  (forall x, stateless (f x)) -> stateless (for_each f xs).
Proof.
  intros Hf. induction xs as [|x xs IH]; cbn [for_each].
  - apply stateless_ret.
  - apply stateless_bind; [apply Hf|]. intros y.
    apply stateless_bind; [exact IH|]. intros ys. apply stateless_ret.
Qed.

Lemma stateless_listing_entry (doc : document) : stateless (listing_entry doc).
Proof.
  unfold listing_entry.
  repeat first
    [ apply stateless_ret | apply stateless_lift | apply stateless_bind
    | intro
    | match goal with
      | |- stateless (if ?b then _ else _) => destruct b
      end ].
Qed.

Lemma for_each_Forall2 {A B} (f : A -> M B) (xs : list A) w ys w' :
  for_each f xs w = (Return ys, w') ->
  Forall2 (fun x y => exists w1 w2, f x w1 = (Return y, w2)) xs ys.
Proof.
  revert w ys w'. induction xs as [|x xs IH]; intros w ys w'; cbn [for_each].
  - unfold ret. intros [= <- _]. constructor.
  - unfold bind at 1. destruct (f x w) as [[y|e] w1] eqn:Hfx; [|discriminate].
    unfold bind at 1.
    destruct (for_each f xs w1) as [[ys'|e] w2] eqn:Hrest; [|discriminate].
    unfold ret. intros [= <- _]. constructor; [eauto|].
    eapply IH, Hrest.
Qed.

Lemma listing_entry_id (doc : document) w e w' :
  listing_entry doc w = (Return e, w') -> e !! "id" = doc !! "id".
Proof.
  unfold listing_entry, getitem. mrun.
  destruct (doc !! "id") as [v1|]; mrun; [|discriminate].
  destruct (doc !! "filename") as [v2|]; mrun; [|discriminate].
  destruct (doc !! "content_type") as [v3|]; mrun; [|discriminate].
  destruct (doc !! "file_size") as [v4|]; mrun; [|discriminate].
  destruct (doc !! "created_at") as [v5|]; mrun; [|discriminate].
  destruct (truthy _); mrun.
  - destruct (slice_upto _ _); mrun; [|discriminate].
    intros [= <- _]. vm_compute. reflexivity.
  - intros [= <- _]. vm_compute. reflexivity.
Qed.

Lemma listing_entry_listable (doc : document) w :
  listable doc -> exists e, listing_entry doc w = (Return e, w).
Proof.
  intros ([v1 H1] & [v2 H2] & [v3 H3] & [v4 H4] & [v5 H5] & Htext).
  unfold listing_entry, getitem. mrun. rewrite H1, H2, H3, H4, H5. mrun.
  destruct Htext as [Hfalsy|[s Hs]].
  - rewrite Hfalsy. mrun. eexists. reflexivity.
  - unfold get, get_or. rewrite Hs. cbn [slice_upto].
    destruct (truthy (VStr s)); mrun; eexists; reflexivity.
Qed.

Lemma get_documents_run w :
  get_documents w
  = (match fst (for_each listing_entry (take 1000 (documents w)) w) with
     | Return l => Return (JsonArray l)
     | Raise e =>
         Raise (HTTPException 500
                  ("Errore nel recupero documenti: " +:+ exn_str e))
     end, w).
Proof.
  destruct (stateless_for_each listing_entry (take 1000 (documents w))
              stateless_listing_entry) as [r Hr].
  unfold get_documents, Mongo.to_list. mrun. rewrite !Hr.
  destruct r; reflexivity.
Qed.

Lemma for_each_listable (c : list document) w :
  Forall listable c ->
  exists l, for_each listing_entry c w = (Return l, w).
Proof.
  induction 1 as [|d c Hd Hc IH]; cbn [for_each].
  - exists []. reflexivity.
  - destruct (listing_entry_listable d w Hd) as [e He].
    destruct IH as [l Hl]. exists (e :: l).
    unfold bind at 1. rewrite He. unfold bind at 1. rewrite Hl. reflexivity.
Qed.

(** C9.  GET /documents answers with at most 1000 records: the records
    are those of the first documents of the store, in order, and there
    are min(1000, size of the store) of them; the answer is the same for
    two stores with the same first 1000 documents, so the documents
    beyond them are left out without any sign.  The route does not
    change the world, and it does answer with the records when the
    first 1000 documents have the fields the listing reads. *)
Theorem listing_returns_at_most_1000 w :
  snd (get_documents w) = w /\
  (forall l, records (fst (get_documents w)) = Some l ->
     length l = Nat.min 1000 (length (documents w)) /\
     (length l <= 1000)%nat /\
     forall i e, l !! i = Some e ->
       exists d, documents w !! i = Some d /\ e !! "id" = d !! "id") /\
  (Forall listable (take 1000 (documents w)) ->
   exists l, fst (get_documents w) = Return (JsonArray l)) /\
  (forall w', take 1000 (documents w') = take 1000 (documents w) ->
     fst (get_documents w') = fst (get_documents w)).
Proof.
  split; [|split; [|split]].
  - rewrite get_documents_run. reflexivity.
  - intros l. rewrite get_documents_run. cbn [fst].
    destruct (for_each listing_entry (take 1000 (documents w)) w)
      as [[l'|e] w1] eqn:Hrun; cbn [fst records]; [|discriminate].
    intros [= ->]. apply for_each_Forall2 in Hrun.
    assert (Hlen : length l = Nat.min 1000 (length (documents w))).
    { rewrite <- (Forall2_length _ _ _ Hrun). apply length_take. }
    split; [exact Hlen|]. split; [rewrite Hlen; apply Nat.le_min_l|].
    intros i e He.
    destruct (Forall2_lookup_r _ _ _ _ _ Hrun He)
      as (d & Hd & w2 & w3 & Hentry).
    apply lookup_take_Some in Hd as [Hd _].
    exists d. split; [exact Hd|]. eapply listing_entry_id, Hentry.
  - intros Hall. rewrite get_documents_run. cbn [fst].
    destruct (for_each_listable _ w Hall) as [l Hl]. rewrite Hl.
    exists l. reflexivity.
  - intros w' Htake. rewrite !get_documents_run. cbn [fst]. rewrite Htake.
    destruct (stateless_for_each listing_entry (take 1000 (documents w))
                stateless_listing_entry) as [r Hr].
    rewrite !Hr. reflexivity.
Qed.

Lemma listing_returns_at_most_1000_witness :
  length (documents Fixture.crowded) = 1001%nat /\
  Forall listable (take 1000 (documents Fixture.crowded)) /\
  exists l, fst (get_documents Fixture.crowded) = Return (JsonArray l) /\
            length l = 1000%nat.
Proof.
  assert (Hlen : length (documents Fixture.crowded) = 1001%nat)
    by apply length_replicate.
  assert (Hall : Forall listable (take 1000 (documents Fixture.crowded))).
  { apply Forall_take, Forall_replicate.
    unfold listable, get. repeat split; vm_compute; eauto. }
  split; [exact Hlen|]. split; [exact Hall|].
  destruct (listing_returns_at_most_1000 Fixture.crowded)
    as (_ & Hcap & Hsome & _).
  destruct (Hsome Hall) as [l Hl]. exists l. split; [exact Hl|].
  destruct (Hcap l) as [Hmin _]; [rewrite Hl; reflexivity|].
  rewrite Hmin, Hlen. reflexivity.
Defined.

(** ** The chat route *)

(** The record of a chat turn once it is in [db.chat_messages]. *)
Lemma stored_turn_fields oid (m : ChatMessage) :
  let d := prepare_for_mongo (ChatMessage_dict m) in
  let d' := match d !! "_id" with
            | Some _ => d
            | None => <["_id" := VObjectId oid]> d
            end in
  d' !! "document_id" = Some (optional (cm_document_id m)) /\
  d' !! "message" = Some (VStr (cm_message m)) /\
  d' !! "response" = Some (VStr (cm_response m)).
Proof.
  destruct m as [? [?|] ? ? ?]; repeat split; vm_compute; reflexivity.
Qed.

Lemma chat_unknown_document_run E w r id :
  cr_document_id r = Some id ->
  Mongo.find_one id (documents w) = None ->
  let sys := with_extra_context (cr_context r) chat_base_system_message in
  chat_with_document E r w
  = match send_message E (S (tick w)) (uuid4 E (tick w)) sys
                       (cr_message r) None with
    | Returned response =>
        (Return (JsonObject
           {[ "message" := VStr (cr_message r);
              "response" := VStr response;
              "chat_id" := VStr (uuid4 E (S (S (tick w)))) ]}),
         World (documents w)
               (Mongo.insert_one
                  (object_id E (S (S (S (S (tick w))))))
                  (prepare_for_mongo
                     (ChatMessage_dict
                        (mkChatMessage (uuid4 E (S (S (tick w)))) (Some id)
                                       (cr_message r) response
                                       (utcnow E (S (S (S (tick w))))))))
                  (chat_messages w))
               (trace w ++ [EvSendMessage sys (cr_message r) None])
               (S (S (S (S (S (tick w)))))))
    | Raised msg =>
        (Raise (HTTPException 500 ("Errore nella chat: " +:+ msg)),
         World (documents w) (chat_messages w)
               (trace w ++ [EvSendMessage sys (cr_message r) None])
               (S (S (tick w))))
    end.
Proof.
  intros Hid Hfind sys. subst sys. destruct w as [docs chats tr tk].
  cbn [documents] in Hfind.
  unfold chat_with_document. mrun. rewrite Hid.
  destruct (PyStr.nonempty id); mrun.
  - rewrite Hfind. unfold with_document_context. mrun.
    destruct (send_message _ _ _ _ _ _) as [response|msg]; mrun; reflexivity.
  - destruct (send_message _ _ _ _ _ _) as [response|msg]; mrun; reflexivity.
Qed.

(** C10.  A chat request whose [document_id] matches no stored document
    is not answered 404.  One message goes to the remote model, under
    the system instruction of a request without document (the base
    instruction, followed by the caller's context if the request has
    one); when the model replies, the turn is appended to the chat log
    with the request's [document_id], and the answer is 200 with the
    reply; when the model fails, the answer is 500. *)
Theorem chat_with_unknown_document_is_served E w r id :
  cr_document_id r = Some id ->
  Mongo.find_one id (documents w) = None ->
  let run := chat_with_document E r w in
  let sys := with_extra_context (cr_context r) chat_base_system_message in
  trace (snd run) = trace w ++ [EvSendMessage sys (cr_message r) None] /\
  (cr_context r = None -> sys = chat_base_system_message) /\
  documents (snd run) = documents w /\
  (status (fst run) = 200 \/ status (fst run) = 500) /\
  forall response,
    send_message E (S (tick w)) (uuid4 E (tick w)) sys (cr_message r) None
    = Returned response ->
    status (fst run) = 200 /\
    answered (fst run) "response" = Some (VStr response) /\
    exists turn,
      chat_messages (snd run) = chat_messages w ++ [turn] /\
      turn !! "document_id" = Some (VStr id) /\
      turn !! "message" = Some (VStr (cr_message r)) /\
      turn !! "response" = Some (VStr response).
Proof.
  intros Hid Hfind run sys. subst run.
  rewrite (chat_unknown_document_run E w r id Hid Hfind). fold sys.
  destruct (send_message E (S (tick w)) (uuid4 E (tick w)) sys
                         (cr_message r) None) as [reply|msg].
  - cbn [fst snd trace documents chat_messages status].
    split; [reflexivity|].
    split; [intros Hctx; unfold sys; rewrite Hctx; reflexivity|].
    split; [reflexivity|]. split; [left; reflexivity|].
    intros response [= <-]. split; [reflexivity|].
    split; [vm_compute; reflexivity|].
    unfold Mongo.insert_one. eexists. split; [reflexivity|].
    exact (stored_turn_fields _ (mkChatMessage _ (Some id) _ _ _)).
  - cbn [fst snd trace documents chat_messages status].
    split; [reflexivity|].
    split; [intros Hctx; unfold sys; rewrite Hctx; reflexivity|].
    split; [reflexivity|]. split; [right; reflexivity|].
    intros response Hret. discriminate.
Qed.

Lemma chat_with_unknown_document_is_served_witness :
  let r := mkChatRequest (Some "no-such-document") "What is it?" None in
  let run := chat_with_document Fixture.E0 r Fixture.w0 in
  cr_document_id r = Some "no-such-document" /\
  Mongo.find_one "no-such-document" (documents Fixture.w0) = None /\
  status (fst run) = 200 /\
  trace (snd run)
  = [EvSendMessage chat_base_system_message "What is it?" None] /\
  exists turn,
    chat_messages (snd run) = [turn] /\
    turn !! "document_id" = Some (VStr "no-such-document").
Proof.
  intros r run.
  destruct (chat_with_unknown_document_is_served
              Fixture.E0 Fixture.w0 r "no-such-document" eq_refl eq_refl)
    as (Htrace & _ & _ & _ & Hserved).
  destruct (Hserved "remote text" eq_refl)
    as (Hstatus & _ & turn & Hlog & Hdoc & _).
  split; [reflexivity|]. split; [reflexivity|]. split; [exact Hstatus|].
  split; [exact Htrace|]. exists turn. split; [exact Hlog | exact Hdoc].
Defined.

(** ** Identifiers are unique

    In every world the server reaches from its start, the stored
    identifiers are [uuid4] values of distinct draws; when [uuid4] does
    not repeat itself no two stored documents share an identifier. *)

Lemma minted_later E c ch tr t ch' tr' t' :
  minted E (World c ch tr t) -> (t <= t')%nat ->
  minted E (World c ch' tr' t').
Proof.
  intros (ts & Hids & Hnd & Hlt) Hle. exists ts. cbn [documents tick] in *.
  split; [exact Hids|]. split; [exact Hnd|].
  eapply Forall_impl; [exact Hlt|]. cbn. intros; lia.
Qed.

Lemma minted_insert E c ch tr t d ch' tr' t' :
  minted E (World c ch tr t) ->
  d !! "id" = Some (VStr (uuid4 E t)) -> (t < t')%nat ->
  minted E (World (c ++ [d]) ch' tr' t').
Proof.
  intros (ts & Hids & Hnd & Hlt) Hd Hle. exists (ts ++ [t]).
  cbn [documents tick] in *. split; [|split].
  - rewrite !fmap_app, Hids. cbn. rewrite Hd. reflexivity.
  - apply NoDup_app. split; [exact Hnd|]. split; [|apply NoDup_singleton].
    intros x Hx Hx'. apply list_elem_of_singleton in Hx'. subst x.
    rewrite Forall_forall in Hlt. specialize (Hlt t Hx). lia.
  - apply Forall_app. split.
    + eapply Forall_impl; [exact Hlt|]. cbn. intros; lia.
    + repeat constructor. exact Hle.
Qed.

Lemma delete_one_at id c :
  exists i, snd (Mongo.delete_one id c) = delete i c.
Proof.
  induction c as [|d c [i IH]]; cbn [Mongo.delete_one].
  - exists 0%nat. reflexivity.
  - destruct (Mongo.matches id d).
    + exists 0%nat. reflexivity.
    + exists (S i). destruct (Mongo.delete_one id c) as [n c'].
      cbn [snd] in *. rewrite IH. reflexivity.
Qed.

Lemma minted_delete E c ch tr t id :
  minted E (World c ch tr t) ->
  minted E (World (snd (Mongo.delete_one id c)) ch tr t).
Proof.
  intros (ts & Hids & Hnd & Hlt). cbn [documents tick] in *.
  destruct (delete_one_at id c) as [i ->]. exists (delete i ts).
  cbn [documents tick]. split; [|split].
  - rewrite !list_fmap_delete, Hids. reflexivity.
  - eapply sublist_NoDup; [exact Hnd | apply sublist_delete].
  - apply Forall_delete, Hlt.
Qed.

Lemma minted_update E c ch tr t id fields :
  fields !! "id" = None ->
  minted E (World c ch tr t) ->
  minted E (World (Mongo.update_one id fields c) ch tr t).
Proof.
  intros Hf (ts & Hids & Hnd & Hlt). exists ts. cbn [documents tick] in *.
  split; [|auto]. rewrite <- Hids. clear Hids.
  induction c as [|d c IH]; cbn [Mongo.update_one]; [reflexivity|].
  destruct (Mongo.matches id d); cbn [fmap list_fmap].
  - rewrite lookup_union_r by exact Hf. reflexivity.
  - f_equal. exact IH.
Qed.

(** Worlds related by "if the first is minted, so is the second". *)
#[local] Instance minted_ambient E :
  Ambient (fun w w' => minted E w -> minted E w').
Proof.
  split.
  - split; [intros w; auto | intros a b c; auto].
  - intros [c ch tr t] H. eapply minted_later; [exact H | cbn; lia].
  - intros ev [c ch tr t] H. eapply minted_later; [exact H | cbn; lia].
  - intros c' [c ch tr t] H. eapply minted_later; [exact H | cbn; lia].
Qed.

Lemma stored_upload_id oid (d : DocumentUpload) :
  let d' := prepare_for_mongo (DocumentUpload_dict d) in
  match d' !! "_id" with
  | Some _ => d'
  | None => <["_id" := VObjectId oid]> d'
  end !! "id" = Some (VStr (du_id d)).
Proof.
  destruct d as [? ? ? ? [t|] ? ? ? ? ? ?]; vm_compute; reflexivity.
Qed.

Lemma upload_minted E file w :
  minted E w -> minted E (snd (upload_document E file w)).
Proof.
  destruct w as [docs chats tr tk]. intros Hw.
  assert (Hstore : forall text ch' tr' t' oid,
            (tk < t')%nat ->
            minted E
              (World
                 (Mongo.insert_one oid
                    (prepare_for_mongo
                       (DocumentUpload_dict
                          (mkDocumentUpload
                             (uuid4 E tk) (filename file) text.1
                             (Z.of_nat (length (contents file)))
                             (Some text.2) None None None None
                             (utcnow E (S tk)) (utcnow E (S (S tk))))))
                    docs) ch' tr' t')).
  { intros text ch' tr' t' oid Hlt. unfold Mongo.insert_one.
    eapply minted_insert; [exact Hw| |exact Hlt].
    exact (stored_upload_id oid (mkDocumentUpload (uuid4 E tk) _ _ _ _ _ _ _ _ _ _)). }
  unfold upload_document. mrun.
  destruct (MAX_UPLOAD <? _); mrun; [exact Hw|].
  destruct (content_type file) as [ct|]; mrun;
    [|eapply minted_later; [exact Hw | lia]].
  destruct (ct =? "application/pdf")%string; mrun.
  - destruct (too_short _); mrun.
    + destruct (send_message _ _ _ _ _ _) as [reply|msg]; mrun;
        [|eapply minted_later; [exact Hw | lia]].
      destruct (PyStr.nonempty reply); mrun;
        [|eapply minted_later; [exact Hw | lia]].
      apply (Hstore (ct, reply)). lia.
    + destruct (PyStr.nonempty _); mrun;
        [|eapply minted_later; [exact Hw | lia]].
      apply (Hstore (ct, _)). lia.
  - destruct (PyStr.startswith "image/" ct); mrun;
      [|eapply minted_later; [exact Hw | lia]].
    destruct (send_message _ _ _ _ _ _) as [reply|msg]; mrun;
      [|eapply minted_later; [exact Hw | lia]].
    destruct (PyStr.nonempty reply); mrun;
      [|eapply minted_later; [exact Hw | lia]].
    apply (Hstore (ct, reply)). lia.
Qed.

Lemma handle_minted E r w :
  minted E w -> minted E (snd (handle E r w)).
Proof.
  revert w.
  change (preserves (fun w w' => minted E w -> minted E w') (handle E r)).
  destruct r as [file|r|r|r|id ct| |id|id| ]; cbn [handle].
  - intros w. apply upload_minted.
  - apply (generate_summary_preserves E r _). intros fields [c ch tr t] Hf.
    apply minted_update, Hf. rewrite !not_elem_of_cons.
    (repeat split; try discriminate); apply not_elem_of_nil.
  - apply (generate_schema_preserves E r _). intros fields [c ch tr t] Hf.
    apply minted_update, Hf. rewrite !not_elem_of_cons.
    (repeat split; try discriminate); apply not_elem_of_nil.
  - unfold chat_with_document. preserve.
  - unfold export_pdf. preserve.
  - unfold get_documents. preserve.
  - unfold get_document. preserve.
  - unfold delete_document. preserve.
    intros; cbv beta.
    match goal with w : world |- _ => destruct w as [c ch tr t] end.
    apply minted_delete. assumption.
  - unfold root. preserve.
Qed.

Lemma serve_minted E rs w :
  minted E w -> minted E (snd (serve E rs w)).
Proof.
  revert w. induction rs as [|r rs IH]; intros w Hw; cbn [serve].
  - exact Hw.
  - pose proof (handle_minted E r w Hw) as Hstep.
    destruct (handle E r w) as [res w1]. cbn [snd] in Hstep.
    specialize (IH w1 Hstep). destruct (serve E rs w1) as [sts w2].
    exact IH.
Qed.

Lemma NoDup_ids_at_most_one id (c : list document) :
  NoDup ((fun d : document => d !! "id") <$> c) ->
  (length (List.filter (Mongo.matches id) c) <= 1)%nat.
Proof.
  induction c as [|d c IH]; cbn [fmap list_fmap List.filter length];
    [intros _; lia|].
  intros Hnd. apply NoDup_cons in Hnd as [Hd Hnd]. specialize (IH Hnd).
  destruct (Mongo.matches id d) eqn:Hm; [|exact IH].
  destruct (List.filter (Mongo.matches id) c) as [|d' l] eqn:Hfilter;
    [cbn [length]; lia|].
  exfalso. apply Hd.
  assert (Hin : In d' (List.filter (Mongo.matches id) c))
    by (rewrite Hfilter; left; reflexivity).
  apply filter_In in Hin as [Hin Hm'].
  unfold Mongo.matches in Hm, Hm'.
  apply bool_decide_eq_true in Hm, Hm'. rewrite Hm, <- Hm'.
  apply list_elem_of_fmap_2, list_elem_of_In, Hin.
Qed.

(** From the start of the server, whatever requests it has served, no
    two stored documents share an identifier as long as [uuid4] has not
    repeated itself. *)
Lemma served_ids_are_unique E rs id :
  Inj (=) (=) (uuid4 E) ->
  (length (List.filter (Mongo.matches id)
             (documents (snd (serve E rs initial)))) <= 1)%nat.
Proof.
  intros Hinj.
  assert (Hstart : minted E initial).
  { exists []. repeat split; constructor. }
  destruct (serve_minted E rs initial Hstart) as (ts & Hids & Hnd & _).
  apply NoDup_ids_at_most_one. rewrite Hids.
  apply NoDup_fmap_2; [|exact Hnd].
  intros t1 t2 [= H]. apply Hinj, H.
Qed.

Lemma delete_twice_run E w id :
  names_one id (documents w) ->
  fst (serve E [DeleteDocument id; DeleteDocument id] w) = [200; 404] /\
  answered (fst (delete_document id w)) "message"
  = Some (VStr ("Documento " +:+ id +:+ " eliminato con successo.")) /\
  Mongo.find_one id (documents (snd (delete_document id w))) = None.
Proof.
  unfold names_one. intros Hone.
  assert (Hgone : List.filter (Mongo.matches id)
                    (documents (snd (delete_document id w))) = []).
  { rewrite delete_document_run. cbn [snd documents].
    rewrite delete_one_rest.
    destruct (List.filter (Mongo.matches id) (documents w)) as [|d [|d' l]];
      try discriminate. reflexivity. }
  split; [|split].
  - cbn [serve handle].
    pose proof (delete_document_run (snd (delete_document id w)) id)
      as Hsecond.
    rewrite Hgone in Hsecond.
    destruct (delete_document id w) as [res1 w1] eqn:Hfirst.
    cbn [snd] in Hsecond. rewrite Hsecond.
    rewrite delete_document_run in Hfirst. injection Hfirst as <- _.
    destruct (List.filter (Mongo.matches id) (documents w)); [discriminate|].
    reflexivity.
  - rewrite delete_document_run. cbn [fst].
    destruct (List.filter (Mongo.matches id) (documents w)); [discriminate|].
    reflexivity.
  - unfold Mongo.find_one.
    destruct (find (Mongo.matches id)
                (documents (snd (delete_document id w)))) as [d|] eqn:Hf;
      [|reflexivity].
    apply find_some in Hf. apply filter_In in Hf. rewrite Hgone in Hf.
    destruct Hf.
Qed.

Lemma found_and_unique_names_one id (c : list document) :
  is_Some (Mongo.find_one id c) ->
  (length (List.filter (Mongo.matches id) c) <= 1)%nat ->
  names_one id c.
Proof.
  intros [d Hd] Hle. unfold names_one.
  apply find_some in Hd. apply filter_In in Hd.
  destruct (List.filter (Mongo.matches id) c) as [|d0 [|d1 l]];
    cbn [length] in *; [destruct Hd | reflexivity | lia].
Qed.

(** C8.  When the identifier names one stored document, the first of two
    deletions in a row is answered 200 with the confirmation message and
    the second 404, no stored document having the identifier in between.
    And an identifier that exists does name one document in every world
    the server reaches from its start by serving requests, as long as
    [uuid4] has not repeated itself. *)
Theorem delete_twice_200_then_404 E id :
  (forall w,
     names_one id (documents w) ->
     fst (serve E [DeleteDocument id; DeleteDocument id] w) = [200; 404] /\
     answered (fst (delete_document id w)) "message"
     = Some (VStr ("Documento " +:+ id +:+ " eliminato con successo.")) /\
     Mongo.find_one id (documents (snd (delete_document id w))) = None) /\
  (forall rs,
     Inj (=) (=) (uuid4 E) ->
     let w := snd (serve E rs initial) in
     is_Some (Mongo.find_one id (documents w)) ->
     names_one id (documents w) /\
     fst (serve E [DeleteDocument id; DeleteDocument id] w) = [200; 404]).
Proof.
  split.
  - intros w. apply delete_twice_run.
  - intros rs Hinj w Hfound.
    assert (Hone : names_one id (documents w)).
    { apply found_and_unique_names_one; [exact Hfound|].
      apply served_ids_are_unique, Hinj. }
    split; [exact Hone|]. apply (delete_twice_run E w id Hone).
Qed.

Lemma fixture_uuid4_inj : Inj (=) (=) (uuid4 Fixture.E0).
Proof.
  intros n m H. cbn in H.
  apply (inj (String.append "uuid-")) in H. exact (inj pretty _ _ H).
Qed.

Lemma delete_twice_200_then_404_witness :
  let w := Fixture.world_of [Fixture.stored "doc-1" (Some "Some text.");
                             Fixture.stored "doc-2" None] in
  let reached := snd (serve Fixture.E0 [PostUpload Fixture.small_pdf]
                            initial) in
  names_one "doc-1" (documents w) /\
  fst (serve Fixture.E0 [DeleteDocument "doc-1"; DeleteDocument "doc-1"] w)
  = [200; 404] /\
  is_Some (Mongo.find_one "uuid-0" (documents reached)) /\
  fst (serve Fixture.E0 [DeleteDocument "uuid-0"; DeleteDocument "uuid-0"]
             reached) = [200; 404].
Proof.
  intros w reached.
  assert (Hone : names_one "doc-1" (documents w)) by (vm_compute; reflexivity).
  assert (Hfound : is_Some (Mongo.find_one "uuid-0" (documents reached)))
    by (eexists; reflexivity).
  split; [exact Hone|].
  split;
    [exact (proj1 (proj1 (delete_twice_200_then_404 Fixture.E0 "doc-1")
                     w Hone))|].
  split; [exact Hfound|].
  exact (proj2 (proj2 (delete_twice_200_then_404 Fixture.E0 "uuid-0")
                  [PostUpload Fixture.small_pdf] fixture_uuid4_inj Hfound)).
Defined.

(** * Further properties of the routes *)

(** ** The text of a PDF *)

Lemma lstrip_head (s : string) c r :
  PyStr.lstrip s = String c r -> PyStr.isspace c = false.
Proof.
  induction s as [|c0 s IH]; cbn [PyStr.lstrip]; [discriminate|].
  destruct (PyStr.isspace c0) eqn:Hc0; [exact IH|].
  intros [= <- _]. exact Hc0.
Qed.

Lemma rstrip_cons c (t : string) :
  PyStr.rstrip (String c t)
  = match PyStr.rstrip t with
    | EmptyString => if PyStr.isspace c then EmptyString
                     else String c EmptyString
    | String c' u => String c (String c' u)
    end.
Proof. reflexivity. Qed.

Lemma rstrip_idempotent (s : string) :
  PyStr.rstrip (PyStr.rstrip s) = PyStr.rstrip s.
Proof.
  induction s as [|c s IH]; [reflexivity|].
  rewrite (rstrip_cons c s).
  destruct (PyStr.rstrip s) as [|c' u] eqn:Hu.
  - destruct (PyStr.isspace c) eqn:Hc; [reflexivity|].
    rewrite rstrip_cons. cbn [PyStr.rstrip]. rewrite Hc. reflexivity.
  - rewrite rstrip_cons, IH. reflexivity.
Qed.

Lemma rstrip_keeps_head c r :
  PyStr.isspace c = false ->
  exists r', PyStr.rstrip (String c r) = String c r'.
Proof.
  intros Hc. cbn [PyStr.rstrip]. destruct (PyStr.rstrip r) as [|c' u].
  - rewrite Hc. eauto.
  - eauto.
Qed.

Lemma strip_idempotent (s : string) :
  PyStr.strip (PyStr.strip s) = PyStr.strip s.
Proof.
  unfold PyStr.strip. destruct (PyStr.lstrip s) as [|c r] eqn:Hl.
  - reflexivity.
  - pose proof (lstrip_head s c r Hl) as Hc.
    destruct (rstrip_keeps_head c r Hc) as [r' Hr]. rewrite Hr.
    cbn [PyStr.lstrip]. rewrite Hc. rewrite <- Hr. apply rstrip_idempotent.
Qed.

Lemma lstrip_all_space (s : string) :
  forallb PyStr.isspace (list_ascii_of_string s) = true ->
  PyStr.lstrip s = "".
Proof.
  induction s as [|c s IH];
    cbn [list_ascii_of_string forallb PyStr.lstrip]; [reflexivity|].
  intros H. apply andb_true_iff in H as [Hc Hs]. rewrite Hc. apply IH, Hs.
Qed.

Lemma all_space_app (a b : string) :
  forallb PyStr.isspace (list_ascii_of_string (a +:+ b))
  = forallb PyStr.isspace (list_ascii_of_string a)
    && forallb PyStr.isspace (list_ascii_of_string b).
Proof.
  induction a as [|c a IH]; [reflexivity|].
  change (String c a +:+ b) with (String c (a +:+ b)).
  cbn [list_ascii_of_string forallb]. rewrite IH. apply andb_assoc.
Qed.

Lemma blank_pages_concat (pages : list string) (acc : string) :
  forallb PyStr.isspace (list_ascii_of_string acc) = true ->
  Forall (fun p => forallb PyStr.isspace (list_ascii_of_string p) = true)
         pages ->
  forallb PyStr.isspace
    (list_ascii_of_string
       (fold_left (fun text page => text +:+ (page +:+ PyStr.nl)) pages acc))
  = true.
Proof.
  intros Hacc Hpages. revert acc Hacc.
  induction Hpages as [|p pages Hp _ IH]; intros acc Hacc; cbn [fold_left].
  - exact Hacc.
  - apply IH. rewrite !all_space_app, Hacc, Hp. reflexivity.
Qed.

(** X1.  What [extract_text_from_pdf] returns is already stripped, so
    the route's test [not text or len(text.strip()) < 50] is the test
    [len(text) < 50]; and a PDF whose pages hold nothing but white space
    (or that has no page) gives the empty text. *)
Theorem pdf_text_is_stripped (o : outcome (list string)) :
  PyStr.strip (pdf_text o) = pdf_text o /\
  too_short (pdf_text o) = (PyStr.len (pdf_text o) <? 50) /\
  (forall pages,
     o = Returned pages ->
     Forall (fun p => forallb PyStr.isspace (list_ascii_of_string p) = true)
            pages ->
     pdf_text o = "").
Proof.
  assert (Hstrip : PyStr.strip (pdf_text o) = pdf_text o).
  { destruct o as [pages|msg]; [apply strip_idempotent | reflexivity]. }
  split; [exact Hstrip|]. split.
  - unfold too_short. rewrite Hstrip.
    destruct (pdf_text o); [reflexivity|]. reflexivity.
  - intros pages -> Hblank. unfold pdf_text, PyStr.strip.
    rewrite lstrip_all_space; [reflexivity|].
    apply blank_pages_concat; [reflexivity | exact Hblank].
Qed.

Lemma pdf_text_is_stripped_witness :
  Forall (fun p => forallb PyStr.isspace (list_ascii_of_string p) = true)
         [" "; ""; PyStr.nl] /\
  pdf_text (Returned [" "; ""; PyStr.nl]) = "".
Proof.
  assert (H : Forall (fun p => forallb PyStr.isspace
                                  (list_ascii_of_string p) = true)
                     [" "; ""; PyStr.nl]) by (repeat constructor).
  split; [exact H|].
  exact (proj2 (proj2 (pdf_text_is_stripped (Returned [" "; ""; PyStr.nl])))
           _ eq_refl H).
Defined.

(** ** Uploads *)

Lemma string_length_append (a b : string) :
  String.length (a +:+ b) = (String.length a + String.length b)%nat.
Proof.
  induction a as [|c a IH]; [reflexivity|].
  change (String c a +:+ b) with (String c (a +:+ b)).
  cbn [String.length]. rewrite IH. reflexivity.
Qed.

Lemma substring_0_length (n : nat) (s : string) :
  String.length (String.substring 0 n s) = Nat.min n (String.length s).
Proof.
  revert s. induction n as [|n IH]; intros [|c s]; cbn; try reflexivity.
  rewrite IH. reflexivity.
Qed.


(** Every way an upload ends: with the record stored and the answer
    built from it, or with an error and the store as it was. *)
Lemma upload_outcome E w file :
  (exists ct text oid tr' t',
     content_type file = Some ct /\
     PyStr.nonempty text = true /\
     upload_document E file w
     = (Return (JsonObject
          {[ "id" := VStr (uuid4 E (tick w));
             "filename" := VStr (filename file);
             "extracted_text" :=
               VStr (if 500 <? PyStr.len text
                     then PyStr.upto 500 text +:+ "..."
                     else text);
             "text_length" := VInt (PyStr.len text);
             "message" :=
               VStr "Documento caricato e analizzato con successo" ]}),
        World (Mongo.insert_one oid (uploaded_record E w file ct text)
                                (documents w))
              (chat_messages w) tr' t')) \/
  (exists s detail tr' t',
     s <> 200 /\
     upload_document E file w
     = (Raise (HTTPException s detail),
        World (documents w) (chat_messages w) tr' t')).
Proof.
  destruct w as [docs chats tr tk]. unfold uploaded_record.
  unfold upload_document. mrun.
  destruct (MAX_UPLOAD <? _); mrun;
    [right; do 4 eexists; split; [|reflexivity]; discriminate|].
  destruct (content_type file) as [ct|]; mrun;
    [|right; do 4 eexists; split; [|reflexivity]; discriminate].
  destruct (ct =? "application/pdf")%string; mrun.
  - destruct (too_short _); mrun.
    + destruct (send_message _ _ _ _ _ _) as [reply|msg]; mrun;
        [|right; do 4 eexists; split; [|reflexivity]; discriminate].
      destruct (PyStr.nonempty reply) eqn:Hreply; mrun;
        [|right; do 4 eexists; split; [|reflexivity]; discriminate].
      left. exists ct, reply. do 3 eexists.
      split; [reflexivity|]. split; [exact Hreply|]. reflexivity.
    + destruct (PyStr.nonempty _) eqn:Hlocal; mrun;
        [|right; do 4 eexists; split; [|reflexivity]; discriminate].
      left. exists ct. do 4 eexists.
      split; [reflexivity|]. split; [exact Hlocal|]. reflexivity.
  - destruct (PyStr.startswith "image/" ct); mrun;
      [|right; do 4 eexists; split; [|reflexivity]; discriminate].
    destruct (send_message _ _ _ _ _ _) as [reply|msg]; mrun;
      [|right; do 4 eexists; split; [|reflexivity]; discriminate].
    destruct (PyStr.nonempty reply) eqn:Hreply; mrun;
      [|right; do 4 eexists; split; [|reflexivity]; discriminate].
    left. exists ct, reply. do 3 eexists.
    split; [reflexivity|]. split; [exact Hreply|]. reflexivity.
Qed.

Lemma insert_uploaded_record E w file ct text oid (c : list document) :
  exists d,
    Mongo.insert_one oid (uploaded_record E w file ct text) c = c ++ [d] /\
    d !! "id" = Some (VStr (uuid4 E (tick w))) /\
    d !! "filename" = Some (VStr (filename file)) /\
    d !! "content_type" = Some (VStr ct) /\
    d !! "file_size" = Some (VInt (Z.of_nat (length (contents file)))) /\
    d !! "extracted_text" = Some (VStr text) /\
    d !! "summary_text" = Some VNone /\
    d !! "summary_type" = Some VNone /\
    d !! "mindmap_schema" = Some VNone /\
    d !! "schema_type" = Some VNone /\
    d !! "created_at" = Some (VStr (utcnow E (S (tick w)))) /\
    d !! "updated_at" = Some (VStr (utcnow E (S (S (tick w))))).
Proof.
  unfold Mongo.insert_one, uploaded_record.
  generalize (uuid4 E (tick w)) (filename file)
             (Z.of_nat (length (contents file)))
             (utcnow E (S (tick w))) (utcnow E (S (S (tick w)))).
  intros id name size created updated.
  eexists. split; [reflexivity|]. repeat split; vm_compute; reflexivity.
Qed.

(** X2.  POST /upload writes to the store exactly when it answers 200:
    any other answer leaves [db.documents] as it was, and a 200 appends
    one record, whose identifier is the one answered, whose text is not
    empty, whose summary and schema fields are [None] and whose
    timestamps are stored as ISO strings; the answer's [text_length] is
    the length of the stored text.  The chat log is never touched. *)
Theorem upload_stores_exactly_on_200 E w file :
  let run := upload_document E file w in
  chat_messages (snd run) = chat_messages w /\
  (status (fst run) <> 200 -> documents (snd run) = documents w) /\
  (status (fst run) = 200 ->
   exists d ct text,
     documents (snd run) = documents w ++ [d] /\
     content_type file = Some ct /\
     text <> "" /\
     answered (fst run) "id" = Some (VStr (uuid4 E (tick w))) /\
     answered (fst run) "text_length" = Some (VInt (PyStr.len text)) /\
     d !! "id" = Some (VStr (uuid4 E (tick w))) /\
     d !! "filename" = Some (VStr (filename file)) /\
     d !! "content_type" = Some (VStr ct) /\
     d !! "file_size" = Some (VInt (Z.of_nat (length (contents file)))) /\
     d !! "extracted_text" = Some (VStr text) /\
     d !! "summary_text" = Some VNone /\
     d !! "summary_type" = Some VNone /\
     d !! "mindmap_schema" = Some VNone /\
     d !! "schema_type" = Some VNone /\
     d !! "created_at" = Some (VStr (utcnow E (S (tick w)))) /\
     d !! "updated_at" = Some (VStr (utcnow E (S (S (tick w)))))).
Proof.
  intros run. subst run.
  destruct (upload_outcome E w file)
    as [(ct & text & oid & tr' & t' & Hct & Htext & ->)
       |(s & detail & tr' & t' & Hs & ->)];
    cbn [fst snd documents chat_messages status].
  - split; [reflexivity|]. split; [intros H; contradiction H; reflexivity|].
    intros _.
    destruct (insert_uploaded_record E w file ct text oid (documents w))
      as (d & -> & Hfields).
    exists d, ct, text. split; [reflexivity|]. split; [exact Hct|].
    split; [intros ->; discriminate|].
    split; [vm_compute; reflexivity|]. split; [vm_compute; reflexivity|].
    exact Hfields.
  - split; [reflexivity|]. split; [reflexivity|].
    intros H. contradiction.
Qed.

Lemma upload_stores_exactly_on_200_witness :
  let run := upload_document Fixture.E0 Fixture.small_pdf Fixture.w0 in
  status (fst run) = 200 /\
  exists d text,
    documents (snd run) = [d] /\ text <> "" /\
    d !! "extracted_text" = Some (VStr text) /\
    answered (fst run) "text_length" = Some (VInt (PyStr.len text)).
Proof.
  intros run.
  assert (Hok : status (fst run) = 200) by (vm_compute; reflexivity).
  split; [exact Hok|].
  destruct (upload_stores_exactly_on_200 Fixture.E0 Fixture.w0
              Fixture.small_pdf) as (_ & _ & Hstored).
  destruct (Hstored Hok)
    as (d & ct & text & Hdocs & _ & Hne & _ & Hlen & _ & _ & _ & _ & Htext
        & _).
  exists d, text. split; [exact Hdocs|]. split; [exact Hne|].
  split; [exact Htext | exact Hlen].
Defined.

(** ** Reading one document *)

Lemma find_one_app id (c : list document) d :
  Mongo.find_one id (c ++ [d])
  = match Mongo.find_one id c with
    | Some x => Some x
    | None => if Mongo.matches id d then Some d else None
    end.
Proof.
  unfold Mongo.find_one. induction c as [|d0 c IH]; cbn [app find].
  - destruct (Mongo.matches id d); reflexivity.
  - destruct (Mongo.matches id d0); [reflexivity | exact IH].
Qed.

Lemma get_document_found id w d :
  Mongo.find_one id (documents w) = Some d ->
  Forall (fun k => is_Some (d !! k)) required_keys ->
  get_document id w
  = (Return (JsonObject
       {[ "id" := get d "id";
          "filename" := get d "filename";
          "content_type" := get d "content_type";
          "file_size" := get d "file_size";
          "extracted_text" := get d "extracted_text";
          "summary_text" := get d "summary_text";
          "summary_type" := get d "summary_type";
          "mindmap_schema" := get d "mindmap_schema";
          "schema_type" := get d "schema_type";
          "created_at" := get d "created_at";
          "updated_at" := get d "updated_at" ]}), w).
Proof.
  intros Hfind Hreq. destruct w as [docs chats tr tk].
  cbn [documents] in Hfind.
  unfold required_keys in Hreq. rewrite !Forall_cons in Hreq.
  destruct Hreq as ([v1 H1] & [v2 H2] & [v3 H3] & [v4 H4] & [v5 H5] & _).
  unfold get_document, getitem, get. mrun. rewrite Hfind. mrun.
  rewrite H1, H2, H3, H4, H5. mrun. reflexivity.
Qed.

Lemma get_document_missing id w d k :
  Mongo.find_one id (documents w) = Some d ->
  k ∈ required_keys -> d !! k = None ->
  exists detail, get_document id w = (Raise (HTTPException 500 detail), w).
Proof.
  intros Hfind Hk Hnone. destruct w as [docs chats tr tk].
  cbn [documents] in Hfind.
  unfold get_document, getitem. mrun. rewrite Hfind. mrun.
  destruct (d !! "id") eqn:H1; mrun; [|eauto].
  destruct (d !! "filename") eqn:H2; mrun; [|eauto].
  destruct (d !! "content_type") eqn:H3; mrun; [|eauto].
  destruct (d !! "file_size") eqn:H4; mrun; [|eauto].
  destruct (d !! "created_at") eqn:H5; mrun; [|eauto].
  exfalso. unfold required_keys in Hk. rewrite !elem_of_cons in Hk.
  destruct Hk as [->|[->|[->|[->|[->|Hk]]]]]; try congruence.
  apply elem_of_nil in Hk. exact Hk.
Qed.

(** X3.  GET /document/{id} never changes the world.  It answers 404
    exactly when no stored document has the identifier.  For a stored
    document that has the five fields the route reads with [doc[...]],
    it answers 200 with those fields and with the six optional ones,
    [None] standing for a field the document lacks; when one of the
    five is missing the answer is 500. *)
Theorem get_document_answers w id :
  snd (get_document id w) = w /\
  (status (fst (get_document id w)) = 404 <->
   Mongo.find_one id (documents w) = None) /\
  (forall d,
     Mongo.find_one id (documents w) = Some d ->
     (Forall (fun k => is_Some (d !! k)) required_keys ->
      status (fst (get_document id w)) = 200 /\
      forall k, k ∈ required_keys ++ optional_keys ->
        answered (fst (get_document id w)) k = Some (get d k)) /\
     (forall k, k ∈ required_keys -> d !! k = None ->
        status (fst (get_document id w)) = 500)).
Proof.
  assert (Hfound : forall d,
    Mongo.find_one id (documents w) = Some d ->
    (Forall (fun k => is_Some (d !! k)) required_keys ->
      status (fst (get_document id w)) = 200 /\
      snd (get_document id w) = w /\
      forall k, k ∈ required_keys ++ optional_keys ->
        answered (fst (get_document id w)) k = Some (get d k)) /\
     (forall k, k ∈ required_keys -> d !! k = None ->
        status (fst (get_document id w)) = 500 /\
        snd (get_document id w) = w)).
  { intros d Hfind. split.
    - intros Hreq. rewrite (get_document_found id w d Hfind Hreq).
      split; [reflexivity|]. split; [reflexivity|].
      intros k Hk. cbn [fst answered].
      unfold required_keys, optional_keys in Hk. cbn [app] in Hk.
      rewrite !elem_of_cons in Hk.
      repeat (destruct Hk as [->|Hk]; [reflexivity|]).
      apply elem_of_nil in Hk. destruct Hk.
    - intros k Hk Hnone.
      destruct (get_document_missing id w d k Hfind Hk Hnone) as [detail ->].
      split; reflexivity. }
  destruct (Mongo.find_one id (documents w)) as [d|] eqn:Hfind.
  - destruct (Hfound d eq_refl) as [Hok Hmiss].
    assert (Hcases : Forall (fun k => is_Some (d !! k)) required_keys \/
                     exists k, k ∈ required_keys /\ d !! k = None).
    { unfold required_keys.
      destruct (d !! "id") eqn:H1;
        [|right; exists "id"; split; [rewrite !elem_of_cons; auto 10 | exact H1]].
      destruct (d !! "filename") eqn:H2;
        [|right; exists "filename"; split; [rewrite !elem_of_cons; auto 10 | exact H2]].
      destruct (d !! "content_type") eqn:H3;
        [|right; exists "content_type"; split; [rewrite !elem_of_cons; auto 10 | exact H3]].
      destruct (d !! "file_size") eqn:H4;
        [|right; exists "file_size"; split; [rewrite !elem_of_cons; auto 10 | exact H4]].
      destruct (d !! "created_at") eqn:H5;
        [|right; exists "created_at"; split; [rewrite !elem_of_cons; auto 10 | exact H5]].
      left. repeat constructor; eauto. }
    split; [|split].
    + destruct Hcases as [Hreq|(k & Hk & Hnone)].
      * apply (Hok Hreq).
      * apply (Hmiss k Hk Hnone).
    + split; [|discriminate]. intros H404.
      destruct Hcases as [Hreq|(k & Hk & Hnone)].
      * destruct (Hok Hreq) as [H200 _]. rewrite H200 in H404. discriminate.
      * destruct (Hmiss k Hk Hnone) as [H500 _]. rewrite H500 in H404.
        discriminate.
    + intros d' [= <-]. split.
      * intros Hreq. destruct (Hok Hreq) as (H200 & _ & Hans). auto.
      * intros k Hk Hnone. apply (Hmiss k Hk Hnone).
  - assert (Hrun : get_document id w
                   = (Raise (HTTPException 404 "Documento non trovato"), w)).
    { destruct w as [docs chats tr tk]. cbn [documents] in Hfind.
      unfold get_document. mrun. rewrite Hfind. reflexivity. }
    rewrite Hrun. split; [reflexivity|]. split; [split; reflexivity|].
    intros d [=].
Qed.

Lemma preview_length (n : nat) (text : string) :
  (String.length (preview n text) <= n + 3)%nat.
Proof.
  unfold preview, PyStr.len, PyStr.upto.
  destruct (Z.of_nat n <? Z.of_nat (String.length text)) eqn:Hlt.
  - rewrite string_length_append, substring_0_length. cbn [String.length].
    lia.
  - apply Z.ltb_ge in Hlt. lia.
Qed.

(** X4.  A document that was just uploaded can be read back: when the
    identifier drawn for it is not yet in the store and the upload is
    answered 200, GET /document with the answered identifier is answered
    200 with the whole extracted text (of which the upload answer showed
    the first 500 characters, followed by three dots when it is longer,
    and gave the length), the file's name, declared type and size, and no
    summary or schema. *)
Theorem upload_then_get_document E w file :
  Mongo.find_one (uuid4 E (tick w)) (documents w) = None ->
  status (fst (upload_document E file w)) = 200 ->
  exists id text ct,
    content_type file = Some ct /\
    answered (fst (upload_document E file w)) "id" = Some (VStr id) /\
    answered (fst (upload_document E file w)) "text_length"
    = Some (VInt (PyStr.len text)) /\
    answered (fst (upload_document E file w)) "extracted_text"
    = Some (VStr (preview 500 text)) /\
    (String.length (preview 500 text) <= 503)%nat /\
    let got := get_document id (snd (upload_document E file w)) in
    status (fst got) = 200 /\
    answered (fst got) "id" = Some (VStr id) /\
    answered (fst got) "extracted_text" = Some (VStr text) /\
    answered (fst got) "filename" = Some (VStr (filename file)) /\
    answered (fst got) "content_type" = Some (VStr ct) /\
    answered (fst got) "file_size"
    = Some (VInt (Z.of_nat (length (contents file)))) /\
    answered (fst got) "summary_text" = Some VNone /\
    answered (fst got) "mindmap_schema" = Some VNone.
Proof.
  intros Hfresh Hok.
  destruct (upload_outcome E w file)
    as [(ct & text & oid & tr' & t' & Hct & Htext & Hrun)
       |(s & detail & tr' & t' & Hs & Hrun)];
    rewrite Hrun in Hok |- *; cbn [fst snd status] in Hok |- *;
    [|contradiction].
  destruct (insert_uploaded_record E w file ct text oid (documents w))
    as (d & Hins & Hid & Hname & Htype & Hsize & Htxt & Hsum & _ & Hsch & _
        & Hcreated & _).
  rewrite Hins.
  exists (uuid4 E (tick w)), text, ct. split; [exact Hct|].
  split; [reflexivity|]. split; [reflexivity|]. split; [reflexivity|].
  split; [apply (preview_length 500)|].
  assert (Hfind : Mongo.find_one (uuid4 E (tick w)) (documents w ++ [d])
                  = Some d).
  { rewrite find_one_app, Hfresh. unfold Mongo.matches.
    rewrite bool_decide_eq_true_2 by exact Hid. reflexivity. }
  cbv zeta.
  rewrite (get_document_found (uuid4 E (tick w))
             (World (documents w ++ [d]) (chat_messages w) tr' t') d Hfind).
  - cbn [fst status answered]. unfold get.
    split; [reflexivity|].
    split; [transitivity (Some (get d "id")); [reflexivity|];
            unfold get; rewrite Hid; reflexivity|].
    split; [transitivity (Some (get d "extracted_text")); [reflexivity|];
            unfold get; rewrite Htxt; reflexivity|].
    split; [transitivity (Some (get d "filename")); [reflexivity|];
            unfold get; rewrite Hname; reflexivity|].
    split; [transitivity (Some (get d "content_type")); [reflexivity|];
            unfold get; rewrite Htype; reflexivity|].
    split; [transitivity (Some (get d "file_size")); [reflexivity|];
            unfold get; rewrite Hsize; reflexivity|].
    split; [transitivity (Some (get d "summary_text")); [reflexivity|];
            unfold get; rewrite Hsum; reflexivity|].
    transitivity (Some (get d "mindmap_schema")); [reflexivity|].
    unfold get. rewrite Hsch. reflexivity.
  - unfold required_keys. repeat constructor; eauto.
Qed.

Lemma upload_then_get_document_witness :
  Mongo.find_one (uuid4 Fixture.E0 (tick Fixture.w0)) (documents Fixture.w0)
  = None /\
  status (fst (upload_document Fixture.E0 Fixture.small_pdf Fixture.w0))
  = 200 /\
  exists id text,
    answered (fst (upload_document Fixture.E0 Fixture.small_pdf Fixture.w0))
             "id" = Some (VStr id) /\
    answered (fst (get_document id
                     (snd (upload_document Fixture.E0 Fixture.small_pdf
                                           Fixture.w0))))
             "extracted_text" = Some (VStr text).
Proof.
  assert (Hok : status (fst (upload_document Fixture.E0 Fixture.small_pdf
                                             Fixture.w0)) = 200)
    by (vm_compute; reflexivity).
  split; [reflexivity|]. split; [exact Hok|].
  destruct (upload_then_get_document Fixture.E0 Fixture.w0 Fixture.small_pdf
              eq_refl Hok)
    as (id & text & ct & _ & Hid & _ & _ & _ & _ & _ & Htext & _).
  exists id, text. split; [exact Hid | exact Htext].
Defined.

(** X5.  An image (declared type starting with [image/]) of at most
    100MB is never given to the local parser: the one external call of
    the request is the transcription message, carrying the file's bytes
    under its declared type.  A reply that is not empty is stored and
    answered 200; an empty reply is answered 400 and a failure of the
    model 500, under the extraction's own message, and in both cases
    nothing is stored. *)
Theorem image_upload_is_transcribed E w file ct :
  content_type file = Some ct ->
  PyStr.startswith "image/" ct = true ->
  Z.of_nat (length (contents file)) <= MAX_UPLOAD ->
  let run := upload_document E file w in
  let reply := send_message E (4 + tick w)%nat (uuid4 E (3 + tick w)%nat)
                 extraction_system_message extraction_user_text
                 (Some (contents file, ct)) in
  trace (snd run)
  = trace w ++ [EvSendMessage extraction_system_message extraction_user_text
                              (Some (contents file, ct))] /\
  (forall text, reply = Returned text -> text <> "" ->
     status (fst run) = 200 /\
     exists d, documents (snd run) = documents w ++ [d] /\
               d !! "extracted_text" = Some (VStr text) /\
               d !! "content_type" = Some (VStr ct)) /\
  (reply = Returned "" ->
     fst run = Raise (HTTPException 400
                        "Impossibile estrarre testo dal documento.") /\
     documents (snd run) = documents w) /\
  (forall msg, reply = Raised msg ->
     fst run = Raise (HTTPException 500
                        ("Errore nell'estrazione del testo: " +:+ msg)) /\
     documents (snd run) = documents w).
Proof.
  intros Hct Himg Hsize run reply. subst run reply.
  assert (Hpdf : (ct =? "application/pdf")%string = false).
  { apply String.eqb_neq. intros ->. discriminate. }
  apply Z.ltb_ge in Hsize. destruct w as [docs chats tr tk].
  cbn [tick Nat.add trace documents].
  unfold upload_document. mrun. rewrite Hsize, Hct, Hpdf, Himg. mrun.
  destruct (send_message _ _ _ _ _ _) as [text|msg]; mrun.
  - destruct (PyStr.nonempty text) eqn:Htext; mrun.
    + split; [reflexivity|]. split; [|split; [|intros ? [=]]].
      * intros ? [= <-] _. split; [reflexivity|].
        destruct (insert_uploaded_record E (World docs chats tr tk) file ct
                    text (object_id E (S (S (S (S (S tk)))))) docs)
          as (d & Hins & _ & _ & Htype & _ & Htxt & _).
        exists d. split; [exact Hins|]. split; [exact Htxt | exact Htype].
      * intros [= ->]. discriminate.
    + split; [reflexivity|]. split; [|split; [|intros ? [=]]].
      * intros ? [= <-] Hne. destruct text; [contradiction|discriminate].
      * intros _. split; reflexivity.
  - split; [reflexivity|]. split; [intros ? [=]|].
    split; [intros [=]|]. intros ? [= <-]. split; reflexivity.
Qed.

Lemma image_upload_is_transcribed_witness :
  let file := mkUploadFile "scan.png" (Some "image/png") [x89; x50] in
  content_type file = Some "image/png" /\
  PyStr.startswith "image/" "image/png" = true /\
  Z.of_nat (length (contents file)) <= MAX_UPLOAD /\
  status (fst (upload_document Fixture.E0 file Fixture.w0)) = 200 /\
  trace (snd (upload_document Fixture.E0 file Fixture.w0))
  = [EvSendMessage extraction_system_message extraction_user_text
                   (Some ([x89; x50], "image/png"))].
Proof.
  intros file.
  assert (Hsize : Z.of_nat (length (contents file)) <= MAX_UPLOAD)
    by (vm_compute; discriminate).
  split; [reflexivity|]. split; [reflexivity|]. split; [exact Hsize|].
  destruct (image_upload_is_transcribed Fixture.E0 Fixture.w0 file
              "image/png" eq_refl eq_refl Hsize) as (Htrace & Hok & _).
  split; [|exact Htrace].
  exact (proj1 (Hok "remote text" eq_refl ltac:(discriminate))).
Defined.

(** ** Generation, again *)

(** Every way a generate-summary call ends. *)
Lemma generate_summary_outcome E w r :
  match Mongo.find_one (sr_document_id r) (documents w) with
  | None =>
      generate_summary E r w
      = (Raise (HTTPException 404 "Documento non trovato"), w)
  | Some d =>
      match d !! "extracted_text" with
      | Some text =>
          if truthy text then
            let sys := summary_system_message (sr_summary_type r)
                                               (sr_accuracy_level r) in
            let ask := "Crea un riassunto del seguente testo:"
                       +:+ PyStr.nl +:+ PyStr.nl +:+ py_str text in
            match send_message E (S (tick w)) (uuid4 E (tick w)) sys ask None
            with
            | Returned summary =>
                generate_summary E r w
                = (Return (JsonObject
                     {[ "document_id" := VStr (sr_document_id r);
                        "summary" := VStr summary;
                        "summary_type" := VStr (sr_summary_type r);
                        "accuracy_level" := VStr (sr_accuracy_level r) ]}),
                   World (Mongo.update_one (sr_document_id r)
                            {[ "summary_text" := VStr summary;
                               "summary_type" := VStr (sr_summary_type r);
                               "updated_at" :=
                                 VStr (utcnow E (S (S (tick w)))) ]}
                            (documents w))
                         (chat_messages w)
                         (trace w ++ [EvSendMessage sys ask None])
                         (S (S (S (tick w)))))
            | Raised msg =>
                generate_summary E r w
                = (Raise (HTTPException 500
                     ("Errore nella generazione del riassunto: " +:+ msg)),
                   World (documents w) (chat_messages w)
                         (trace w ++ [EvSendMessage sys ask None])
                         (S (S (tick w))))
            end
          else
            generate_summary E r w
            = (Raise (HTTPException 400
                        "Testo non disponibile per questo documento"), w)
      | None =>
          generate_summary E r w
          = (Raise (HTTPException 400
                      "Testo non disponibile per questo documento"), w)
      end
  end.
Proof.
  destruct w as [docs chats tr tk]. cbn [documents tick chat_messages trace].
  unfold generate_summary, get, getitem. mrun.
  destruct (Mongo.find_one _ docs) as [d|]; mrun; [|reflexivity].
  destruct (d !! "extracted_text") as [text|]; mrun; [|reflexivity].
  destruct (truthy text); mrun; [|reflexivity].
  destruct (send_message _ _ _ _ _ _) as [summary|msg]; mrun; reflexivity.
Qed.

(** Every way a generate-schema call ends. *)
Lemma generate_schema_outcome E w r :
  match Mongo.find_one (sc_document_id r) (documents w) with
  | None =>
      generate_schema E r w
      = (Raise (HTTPException 404 "Documento non trovato"), w)
  | Some d =>
      match d !! "extracted_text" with
      | Some text =>
          if truthy text then
            let sys := schema_system_message (sc_schema_type r) in
            let ask := "Crea uno schema " +:+ sc_schema_type r
                       +:+ " del seguente contenuto:"
                       +:+ PyStr.nl +:+ PyStr.nl +:+ py_str text in
            match send_message E (S (tick w)) (uuid4 E (tick w)) sys ask None
            with
            | Returned schema =>
                generate_schema E r w
                = (Return (JsonObject
                     {[ "document_id" := VStr (sc_document_id r);
                        "schema" := VStr schema;
                        "schema_type" := VStr (sc_schema_type r) ]}),
                   World (Mongo.update_one (sc_document_id r)
                            {[ "mindmap_schema" := VStr schema;
                               "schema_type" := VStr (sc_schema_type r);
                               "updated_at" :=
                                 VStr (utcnow E (S (S (tick w)))) ]}
                            (documents w))
                         (chat_messages w)
                         (trace w ++ [EvSendMessage sys ask None])
                         (S (S (S (tick w)))))
            | Raised msg =>
                generate_schema E r w
                = (Raise (HTTPException 500
                     ("Errore nella generazione dello schema: " +:+ msg)),
                   World (documents w) (chat_messages w)
                         (trace w ++ [EvSendMessage sys ask None])
                         (S (S (tick w))))
            end
          else
            generate_schema E r w
            = (Raise (HTTPException 400
                        "Testo non disponibile per questo documento"), w)
      | None =>
          generate_schema E r w
          = (Raise (HTTPException 400
                      "Testo non disponibile per questo documento"), w)
      end
  end.
Proof.
  destruct w as [docs chats tr tk]. cbn [documents tick chat_messages trace].
  unfold generate_schema, get, getitem. mrun.
  destruct (Mongo.find_one _ docs) as [d|]; mrun; [|reflexivity].
  destruct (d !! "extracted_text") as [text|]; mrun; [|reflexivity].
  destruct (truthy text); mrun; [|reflexivity].
  destruct (send_message _ _ _ _ _ _) as [schema|msg]; mrun; reflexivity.
Qed.

(** X6.  The generation routes write to the store only when they answer
    200: an unknown identifier is answered 404 with the world unchanged,
    and a failure of the remote model is answered 500 under the route's
    message, with no field of any document written (no partial result);
    the chat log is never touched. *)
Theorem generation_errors_write_nothing E w :
  (forall r,
     let run := generate_summary E r w in
     chat_messages (snd run) = chat_messages w /\
     (status (fst run) <> 200 -> documents (snd run) = documents w) /\
     (Mongo.find_one (sr_document_id r) (documents w) = None ->
      fst run = Raise (HTTPException 404 "Documento non trovato") /\
      snd run = w) /\
     (forall d text msg,
        Mongo.find_one (sr_document_id r) (documents w) = Some d ->
        d !! "extracted_text" = Some text -> truthy text = true ->
        send_message E (S (tick w)) (uuid4 E (tick w))
          (summary_system_message (sr_summary_type r) (sr_accuracy_level r))
          ("Crea un riassunto del seguente testo:"
           +:+ PyStr.nl +:+ PyStr.nl +:+ py_str text) None = Raised msg ->
        fst run = Raise (HTTPException 500
                    ("Errore nella generazione del riassunto: " +:+ msg)))) /\
  (forall r,
     let run := generate_schema E r w in
     chat_messages (snd run) = chat_messages w /\
     (status (fst run) <> 200 -> documents (snd run) = documents w) /\
     (Mongo.find_one (sc_document_id r) (documents w) = None ->
      fst run = Raise (HTTPException 404 "Documento non trovato") /\
      snd run = w) /\
     (forall d text msg,
        Mongo.find_one (sc_document_id r) (documents w) = Some d ->
        d !! "extracted_text" = Some text -> truthy text = true ->
        send_message E (S (tick w)) (uuid4 E (tick w))
          (schema_system_message (sc_schema_type r))
          ("Crea uno schema " +:+ sc_schema_type r
           +:+ " del seguente contenuto:"
           +:+ PyStr.nl +:+ PyStr.nl +:+ py_str text) None = Raised msg ->
        fst run = Raise (HTTPException 500
                    ("Errore nella generazione dello schema: " +:+ msg)))).
Proof.
  split; intros r run; subst run.
  - pose proof (generate_summary_outcome E w r) as Hrun.
    destruct (Mongo.find_one _ (documents w)) as [d|] eqn:Hfind.
    + destruct (d !! "extracted_text") as [text|] eqn:Htext.
      * destruct (truthy text) eqn:Htruthy.
        -- cbv zeta in Hrun.
           destruct (send_message _ _ _ _ _ _) as [reply|msg] eqn:Hsend;
             rewrite Hrun; cbn [fst snd chat_messages documents status].
           ++ split; [reflexivity|].
              split; [intros H; contradiction H; reflexivity|].
              split; [discriminate|]. intros d0 text0 msg0 Hf Ht _ Hs.
              injection Hf as <-. rewrite Htext in Ht. injection Ht as <-.
              rewrite Hsend in Hs. discriminate.
           ++ split; [reflexivity|]. split; [reflexivity|].
              split; [discriminate|]. intros d0 text0 msg0 Hf Ht _ Hs.
              injection Hf as <-. rewrite Htext in Ht. injection Ht as <-.
              rewrite Hsend in Hs. injection Hs as <-. reflexivity.
        -- rewrite Hrun. cbn [fst snd]. split; [reflexivity|].
           split; [reflexivity|]. split; [discriminate|].
           intros d0 text0 msg0 Hf Ht Htr _.
           injection Hf as <-. rewrite Htext in Ht. injection Ht as <-.
           congruence.
      * rewrite Hrun. cbn [fst snd]. split; [reflexivity|].
        split; [reflexivity|]. split; [discriminate|].
        intros d0 text0 msg0 Hf Ht. injection Hf as <-. congruence.
    + rewrite Hrun. cbn [fst snd]. split; [reflexivity|].
      split; [reflexivity|]. split; [split; reflexivity|].
      intros d0 text0 msg0 Hf. discriminate.
  - pose proof (generate_schema_outcome E w r) as Hrun.
    destruct (Mongo.find_one _ (documents w)) as [d|] eqn:Hfind.
    + destruct (d !! "extracted_text") as [text|] eqn:Htext.
      * destruct (truthy text) eqn:Htruthy.
        -- cbv zeta in Hrun.
           destruct (send_message _ _ _ _ _ _) as [reply|msg] eqn:Hsend;
             rewrite Hrun; cbn [fst snd chat_messages documents status].
           ++ split; [reflexivity|].
              split; [intros H; contradiction H; reflexivity|].
              split; [discriminate|]. intros d0 text0 msg0 Hf Ht _ Hs.
              injection Hf as <-. rewrite Htext in Ht. injection Ht as <-.
              rewrite Hsend in Hs. discriminate.
           ++ split; [reflexivity|]. split; [reflexivity|].
              split; [discriminate|]. intros d0 text0 msg0 Hf Ht _ Hs.
              injection Hf as <-. rewrite Htext in Ht. injection Ht as <-.
              rewrite Hsend in Hs. injection Hs as <-. reflexivity.
        -- rewrite Hrun. cbn [fst snd]. split; [reflexivity|].
           split; [reflexivity|]. split; [discriminate|].
           intros d0 text0 msg0 Hf Ht Htr _.
           injection Hf as <-. rewrite Htext in Ht. injection Ht as <-.
           congruence.
      * rewrite Hrun. cbn [fst snd]. split; [reflexivity|].
        split; [reflexivity|]. split; [discriminate|].
        intros d0 text0 msg0 Hf Ht. injection Hf as <-. congruence.
    + rewrite Hrun. cbn [fst snd]. split; [reflexivity|].
      split; [reflexivity|]. split; [split; reflexivity|].
      intros d0 text0 msg0 Hf. discriminate.
Qed.

Lemma generation_errors_write_nothing_witness :
  let w := Fixture.world_of [Fixture.stored "doc-1" (Some "Some text.")] in
  let r := mkSummaryRequest "doc-1" "breve" "alta" in
  fst (generate_summary E_broken_model r w)
  = Raise (HTTPException 500
             "Errore nella generazione del riassunto: quota exceeded") /\
  documents (snd (generate_summary E_broken_model r w)) = documents w.
Proof.
  intros w r.
  destruct (generation_errors_write_nothing E_broken_model w)
    as [Hsummary _].
  destruct (Hsummary r) as (_ & Hkeep & _ & Hfail).
  assert (H500 : fst (generate_summary E_broken_model r w)
                 = Raise (HTTPException 500
                     "Errore nella generazione del riassunto: quota exceeded")).
  { exact (Hfail (Fixture.stored "doc-1" (Some "Some text."))
                 (VStr "Some text.") "quota exceeded"
                 eq_refl eq_refl eq_refl eq_refl). }
  split; [exact H500|]. apply Hkeep. rewrite H500. discriminate.
Defined.

Lemma table_get_default (table : list (string * string)) (k dflt : string) :
  k ∉ table.*1 -> table_get table k dflt = dflt.
Proof.
  induction table as [|[k' v] table IH]; cbn; [reflexivity|].
  intros Hk. apply not_elem_of_cons in Hk as [Hne Hk].
  apply String.eqb_neq in Hne. rewrite Hne. apply IH, Hk.
Qed.

(** X7.  The generation routes do not validate their options.  A
    generate-summary request with a [summary_type] other than [breve],
    [medio] and [dettagliato] that is answered 200 was put to the model
    under the instruction of [medio], yet the unknown type is what is
    answered and stored; likewise an unknown [accuracy_level] is served
    as [standard], and a generate-schema request with an unknown
    [schema_type] under the instruction of [brainstorming], its type
    stored as given. *)
Theorem unknown_options_are_served_with_defaults E w :
  (forall r,
     status (fst (generate_summary E r w)) = 200 ->
     exists ask d,
       trace (snd (generate_summary E r w))
       = trace w ++
         [EvSendMessage
            (summary_system_message
               (if bool_decide (sr_summary_type r
                                ∈ ["breve"; "medio"; "dettagliato"])
                then sr_summary_type r else "medio")
               (if bool_decide (sr_accuracy_level r ∈ ["standard"; "alta"])
                then sr_accuracy_level r else "standard"))
            ask None] /\
       answered (fst (generate_summary E r w)) "summary_type"
       = Some (VStr (sr_summary_type r)) /\
       Mongo.find_one (sr_document_id r)
                      (documents (snd (generate_summary E r w))) = Some d /\
       d !! "summary_type" = Some (VStr (sr_summary_type r))) /\
  (forall r,
     status (fst (generate_schema E r w)) = 200 ->
     exists ask d,
       trace (snd (generate_schema E r w))
       = trace w ++
         [EvSendMessage
            (schema_system_message
               (if bool_decide (sc_schema_type r
                                ∈ ["brainstorming"; "cascata"])
                then sc_schema_type r else "brainstorming"))
            ask None] /\
       answered (fst (generate_schema E r w)) "schema_type"
       = Some (VStr (sc_schema_type r)) /\
       Mongo.find_one (sc_document_id r)
                      (documents (snd (generate_schema E r w))) = Some d /\
       d !! "schema_type" = Some (VStr (sc_schema_type r))).
Proof.
  assert (Hsys : forall st acc,
    summary_system_message st acc
    = summary_system_message
        (if bool_decide (st ∈ ["breve"; "medio"; "dettagliato"])
         then st else "medio")
        (if bool_decide (acc ∈ ["standard"; "alta"])
         then acc else "standard")).
  { intros st acc. unfold summary_system_message.
    destruct (bool_decide_reflect (st ∈ ["breve"; "medio"; "dettagliato"]))
      as [_|Hst];
      destruct (bool_decide_reflect (acc ∈ ["standard"; "alta"]))
        as [_|Hacc]; try reflexivity.
    - rewrite (table_get_default accuracy_instructions acc) by exact Hacc.
      reflexivity.
    - rewrite (table_get_default length_instructions st) by exact Hst.
      reflexivity.
    - rewrite (table_get_default length_instructions st) by exact Hst.
      rewrite (table_get_default accuracy_instructions acc) by exact Hacc.
      reflexivity. }
  assert (Hsch : forall st,
    schema_system_message st
    = schema_system_message
        (if bool_decide (st ∈ ["brainstorming"; "cascata"])
         then st else "brainstorming")).
  { intros st. unfold schema_system_message.
    destruct (bool_decide_reflect (st ∈ ["brainstorming"; "cascata"]))
      as [_|Hst]; [reflexivity|].
    rewrite (table_get_default schema_instructions st) by exact Hst.
    reflexivity. }
  split; intros r Hok.
  - pose proof (generate_summary_outcome E w r) as Hrun.
    destruct (Mongo.find_one _ (documents w)) as [d|] eqn:Hfind;
      [|rewrite Hrun in Hok; discriminate].
    destruct (d !! "extracted_text") as [text|];
      [|rewrite Hrun in Hok; discriminate].
    destruct (truthy text); [|rewrite Hrun in Hok; discriminate].
    cbv zeta in Hrun.
    destruct (send_message _ _ _ _ _ _) as [summary|msg];
      [|rewrite Hrun in Hok; discriminate].
    rewrite Hrun. cbn [fst snd trace documents answered].
    eexists _, _. split; [rewrite <- Hsys; reflexivity|].
    split; [reflexivity|].
    split; [apply find_one_update_one; [reflexivity | exact Hfind]|].
    apply lookup_union_Some_l. reflexivity.
  - pose proof (generate_schema_outcome E w r) as Hrun.
    destruct (Mongo.find_one _ (documents w)) as [d|] eqn:Hfind;
      [|rewrite Hrun in Hok; discriminate].
    destruct (d !! "extracted_text") as [text|];
      [|rewrite Hrun in Hok; discriminate].
    destruct (truthy text); [|rewrite Hrun in Hok; discriminate].
    cbv zeta in Hrun.
    destruct (send_message _ _ _ _ _ _) as [schema|msg];
      [|rewrite Hrun in Hok; discriminate].
    rewrite Hrun. cbn [fst snd trace documents answered].
    eexists _, _. split; [rewrite <- Hsch; reflexivity|].
    split; [reflexivity|].
    split; [apply find_one_update_one; [reflexivity | exact Hfind]|].
    apply lookup_union_Some_l. reflexivity.
Qed.

Lemma unknown_options_are_served_with_defaults_witness :
  let w := Fixture.world_of [Fixture.stored "doc-1" (Some "Some text.")] in
  let r := mkSummaryRequest "doc-1" "lunghissimo" "massima" in
  status (fst (generate_summary Fixture.E0 r w)) = 200 /\
  exists ask d,
    trace (snd (generate_summary Fixture.E0 r w))
    = [EvSendMessage (summary_system_message "medio" "standard") ask None] /\
    Mongo.find_one "doc-1" (documents (snd (generate_summary Fixture.E0 r w)))
    = Some d /\
    d !! "summary_type" = Some (VStr "lunghissimo").
Proof.
  intros w r.
  assert (Hok : status (fst (generate_summary Fixture.E0 r w)) = 200)
    by (vm_compute; reflexivity).
  split; [exact Hok|].
  destruct (proj1 (unknown_options_are_served_with_defaults Fixture.E0 w)
              r Hok) as (ask & d & Htrace & _ & Hfind & Htype).
  exists ask, d. split; [exact Htrace|]. split; [exact Hfind | exact Htype].
Defined.

(** X8.  A summary is overwritten wholesale: after two generate-summary
    calls on one document, both answered 200, the document holds the
    text and the type of the second call and the time stamp of its
    write; nothing of the first is kept. *)
Theorem later_summary_replaces_earlier E w r1 r2 :
  sr_document_id r1 = sr_document_id r2 ->
  status (fst (generate_summary E r1 w)) = 200 ->
  status (fst (generate_summary E r2 (snd (generate_summary E r1 w)))) = 200 ->
  exists second d,
    answered (fst (generate_summary E r2 (snd (generate_summary E r1 w))))
             "summary" = Some (VStr second) /\
    Mongo.find_one (sr_document_id r2)
      (documents (snd (generate_summary E r2
                         (snd (generate_summary E r1 w))))) = Some d /\
    d !! "summary_text" = Some (VStr second) /\
    d !! "summary_type" = Some (VStr (sr_summary_type r2)) /\
    d !! "updated_at"
    = Some (VStr (utcnow E (S (S (tick (snd (generate_summary E r1 w))))))).
Proof.
  intros Hid Hok1 Hok2.
  destruct (generate_summary_written E _ r2 Hok2)
    as (second & d1 & Hans & _ & Hfind).
  eexists second, _. split; [exact Hans|]. split; [exact Hfind|].
  repeat split; apply lookup_union_Some_l; reflexivity.
Qed.

Lemma later_summary_replaces_earlier_witness :
  let w := Fixture.world_of [Fixture.summarised "doc-1"] in
  let r1 := mkSummaryRequest "doc-1" "breve" "alta" in
  let r2 := mkSummaryRequest "doc-1" "dettagliato" "standard" in
  status (fst (generate_summary Fixture.E0 r1 w)) = 200 /\
  status (fst (generate_summary Fixture.E0 r2
                 (snd (generate_summary Fixture.E0 r1 w)))) = 200 /\
  exists d,
    Mongo.find_one "doc-1"
      (documents (snd (generate_summary Fixture.E0 r2
                         (snd (generate_summary Fixture.E0 r1 w))))) = Some d /\
    d !! "summary_type" = Some (VStr "dettagliato").
Proof.
  intros w r1 r2.
  assert (H1 : status (fst (generate_summary Fixture.E0 r1 w)) = 200)
    by (vm_compute; reflexivity).
  assert (H2 : status (fst (generate_summary Fixture.E0 r2
                              (snd (generate_summary Fixture.E0 r1 w)))) = 200)
    by (vm_compute; reflexivity).
  split; [exact H1|]. split; [exact H2|].
  destruct (later_summary_replaces_earlier Fixture.E0 w r1 r2 eq_refl H1 H2)
    as (second & d & _ & Hfind & _ & Htype & _).
  exists d. split; [exact Hfind | exact Htype].
Defined.

(** ** Exports *)

Lemma export_found E w id c d k s :
  Mongo.find_one id (documents w) = Some d ->
  export_field c = Some k ->
  d !! k = Some (VStr s) -> s <> "" ->
  export_pdf E id (Some c) w
  = match doc_build E (tick w) (export_title c d) (paragraphs s) with
    | Returned path =>
        (Return (FileResponse path "application/pdf"
                              (export_title c d +:+ ".pdf")),
         World (documents w) (chat_messages w)
               (trace w ++ [EvDocBuild (export_title c d) (paragraphs s)])
               (S (tick w)))
    | Raised msg =>
        (Raise (HTTPException 500
                  ("Errore nella creazione del PDF: " +:+ msg)),
         World (documents w) (chat_messages w)
               (trace w ++ [EvDocBuild (export_title c d) (paragraphs s)])
               (S (tick w)))
    end.
Proof.
  intros Hfind Hc Hk Hs. destruct w as [docs chats tr tk].
  cbn [documents chat_messages trace tick] in *.
  assert (Htruthy : truthy (VStr s) = true)
    by (destruct s; [contradiction | reflexivity]).
  unfold export_pdf, export_title. mrun. rewrite Hfind. mrun.
  unfold export_field in Hc. unfold get.
  destruct (c =? "summary")%string;
    [|destruct (c =? "schema")%string; [|destruct (c =? "full")%string]];
    try discriminate; injection Hc as <-; mrun; rewrite Hk, Htruthy; mrun;
    destruct (doc_build _ _ _ _); reflexivity.
Qed.











(** ** Chat turns *)




(** Case analysis on every test a route makes, innermost first. *)
Ltac explore_step :=
  match goal with
  | |- context [match ?x with _ => _ end] =>
      lazymatch x with
      | context [match _ with _ => _ end] => fail
      | _ => destruct x eqn:?
      end
  end.

Ltac explore := mrun; repeat (explore_step; mrun).

Lemma export_pdf_world E id ct w :
  documents (snd (export_pdf E id ct w)) = documents w /\
  chat_messages (snd (export_pdf E id ct w)) = chat_messages w.
Proof.
  destruct w as [docs chats tr tk].
  unfold export_pdf, get, get_or. explore; split; reflexivity.
Qed.

Lemma get_document_world id w : snd (get_document id w) = w.
Proof.
  destruct w as [docs chats tr tk].
  unfold get_document, getitem. explore; reflexivity.
Qed.

Lemma chat_world E r w :
  documents (snd (chat_with_document E r w)) = documents w /\
  (status (fst (chat_with_document E r w)) = 200 \/
   status (fst (chat_with_document E r w)) = 500) /\
  (status (fst (chat_with_document E r w)) = 200 ->
   exists turn,
     chat_messages (snd (chat_with_document E r w))
     = chat_messages w ++ [turn] /\
     turn !! "message" = Some (VStr (cr_message r))) /\
  (status (fst (chat_with_document E r w)) <> 200 ->
   chat_messages (snd (chat_with_document E r w)) = chat_messages w).
Proof.
  destruct w as [docs chats tr tk].
  unfold chat_with_document, with_document_context, get, getitem, slice_upto.
  explore;
    (split; [reflexivity|]);
    (split; [first [left; reflexivity | right; reflexivity]|]);
    (split; [|first [intros _; reflexivity
                    | intros H; contradiction H; reflexivity]]);
    try discriminate;
    intros _; unfold Mongo.insert_one; (eexists; split; [reflexivity|]);
    exact (proj1 (proj2 (stored_turn_fields _ (mkChatMessage _ _ _ _ _)))).
Qed.

Lemma handle_chat_log E r w :
  exists extra,
    chat_messages (snd (handle E r w)) = chat_messages w ++ extra /\
    length extra
    = if logged r (status (fst (handle E r w))) then 1%nat else 0%nat.
Proof.
  assert (Hsame : forall c c' : list document,
            c' = c -> exists extra, c' = c ++ extra /\ length extra = 0%nat).
  { intros c c' ->. exists []. rewrite app_nil_r. split; reflexivity. }
  destruct r as [file|r|r|r|id ct| |id|id| ]; cbn [handle logged].
  - apply Hsame.
    destruct (upload_outcome E w file)
      as [(ct & text & oid & tr' & t' & _ & _ & ->)
         |(s & detail & tr' & t' & _ & ->)]; reflexivity.
  - apply Hsame. pose proof (generate_summary_outcome E w r) as Hrun.
    destruct (Mongo.find_one _ (documents w)) as [d|];
      [|rewrite Hrun; reflexivity].
    destruct (d !! "extracted_text") as [text|];
      [|rewrite Hrun; reflexivity].
    destruct (truthy text); [|rewrite Hrun; reflexivity].
    cbv zeta in Hrun.
    destruct (send_message _ _ _ _ _ _); rewrite Hrun; reflexivity.
  - apply Hsame. pose proof (generate_schema_outcome E w r) as Hrun.
    destruct (Mongo.find_one _ (documents w)) as [d|];
      [|rewrite Hrun; reflexivity].
    destruct (d !! "extracted_text") as [text|];
      [|rewrite Hrun; reflexivity].
    destruct (truthy text); [|rewrite Hrun; reflexivity].
    cbv zeta in Hrun.
    destruct (send_message _ _ _ _ _ _); rewrite Hrun; reflexivity.
  - destruct (chat_world E r w) as (_ & Hstatus & Hok & Hfail).
    destruct Hstatus as [H200|H500].
    + destruct (Hok H200) as (turn & Hlog & _).
      exists [turn]. rewrite H200. split; [exact Hlog | reflexivity].
    + rewrite H500. apply Hsame, Hfail. rewrite H500. discriminate.
  - apply Hsame, export_pdf_world.
  - apply Hsame. rewrite get_documents_run. reflexivity.
  - apply Hsame. rewrite get_document_world. reflexivity.
  - apply Hsame. rewrite delete_document_run. reflexivity.
  - apply Hsame. reflexivity.
Qed.

(** X13.  The chat log only grows: over any sequence of requests the
    turns logged before stay where they are (deleting a document does
    not delete its turns), and the turns added are as many as the chat
    requests of the sequence that were answered 200. *)
Theorem chat_log_is_append_only E rs w :
  exists extra,
    chat_messages (snd (serve E rs w)) = chat_messages w ++ extra /\
    length extra
    = length (List.filter (fun p => logged (fst p) (snd p))
                          (zip rs (fst (serve E rs w)))).
Proof.
  revert w. induction rs as [|r rs IH]; intros w; cbn [serve].
  - exists []. rewrite app_nil_r. split; reflexivity.
  - destruct (handle_chat_log E r w) as (extra1 & Hlog1 & Hlen1).
    destruct (handle E r w) as [res w1]. cbn [fst snd] in Hlog1, Hlen1.
    destruct (IH w1) as (extra2 & Hlog2 & Hlen2).
    destruct (serve E rs w1) as [sts w2]. cbn [fst snd] in *.
    exists (extra1 ++ extra2). split.
    + rewrite Hlog2, Hlog1, app_assoc. reflexivity.
    + rewrite length_app, Hlen1, Hlen2.
      change (zip (r :: rs) (status res :: sts))
        with ((r, status res) :: zip rs sts).
      cbn [List.filter fst snd].
      destruct (logged r (status res)); reflexivity.
Qed.

Lemma chat_log_is_append_only_witness :
  let w := Fixture.world_of [Fixture.stored "doc-1" (Some "Some text.")] in
  let rs := [ PostChat (mkChatRequest (Some "doc-1") "What is it?" None);
              DeleteDocument "doc-1";
              PostChat (mkChatRequest (Some "doc-1") "And now?" None) ] in
  fst (serve Fixture.E0 rs w) = [200; 200; 200] /\
  exists extra,
    chat_messages (snd (serve Fixture.E0 rs w)) = chat_messages w ++ extra /\
    length extra = 2%nat.
Proof.
  intros w rs.
  assert (Hsts : fst (serve Fixture.E0 rs w) = [200; 200; 200])
    by (vm_compute; reflexivity).
  split; [exact Hsts|].
  destruct (chat_log_is_append_only Fixture.E0 rs w)
    as (extra & Hlog & Hlen).
  exists extra. split; [exact Hlog|]. rewrite Hlen, Hsts. reflexivity.
Defined.

(** ** Deleting a document *)

Lemma matches_excludes id id' (d : document) :
  id' <> id -> Mongo.matches id d = true -> Mongo.matches id' d = false.
Proof.
  unfold Mongo.matches. intros Hne Hm. apply bool_decide_eq_true in Hm.
  apply bool_decide_eq_false. rewrite Hm. intros [= H]. auto.
Qed.

Lemma find_one_delete_one_other id id' (c : list document) :
  id' <> id ->
  Mongo.find_one id' (snd (Mongo.delete_one id c)) = Mongo.find_one id' c.
Proof.
  intros Hne. unfold Mongo.find_one.
  induction c as [|d c IH]; cbn [Mongo.delete_one]; [reflexivity|].
  destruct (Mongo.matches id d) eqn:Hm.
  - cbn [snd find]. rewrite (matches_excludes id id' d Hne Hm). reflexivity.
  - destruct (Mongo.delete_one id c) as [n c']. cbn [snd find] in *.
    rewrite IH. reflexivity.
Qed.

Lemma delete_one_filter_nil id (c : list document) :
  List.filter (Mongo.matches id) c = [] ->
  snd (Mongo.delete_one id c) = c.
Proof.
  induction c as [|d c IH]; cbn [Mongo.delete_one List.filter]; [reflexivity|].
  destruct (Mongo.matches id d); [discriminate|]. intros Hnil.
  specialize (IH Hnil). destruct (Mongo.delete_one id c) as [n c'].
  cbn [snd] in *. rewrite IH. reflexivity.
Qed.

Lemma delete_one_length id (c : list document) :
  length c
  = (length (snd (Mongo.delete_one id c))
     + match List.filter (Mongo.matches id) c with [] => 0 | _ :: _ => 1 end)%nat.
Proof.
  induction c as [|d c IH]; cbn [Mongo.delete_one List.filter]; [reflexivity|].
  destruct (Mongo.matches id d); cbn [snd length]; [lia|].
  destruct (Mongo.delete_one id c) as [n c']. cbn [snd length] in *.
  rewrite IH. reflexivity.
Qed.

Lemma filter_nil_find_one id (c : list document) :
  List.filter (Mongo.matches id) c = [] <-> Mongo.find_one id c = None.
Proof.
  unfold Mongo.find_one.
  induction c as [|d c IH]; cbn [List.filter find]; [tauto|].
  destruct (Mongo.matches id d); [split; discriminate | exact IH].
Qed.

(** X14.  DELETE /document/{id} answers 200 or 404, and 404 exactly when
    no stored document has the identifier, the world being then left as
    it was.  When it answers 200 the store has one document less, and
    in every case the documents with other identifiers are found as
    before and the chat log is left alone: the turns of a deleted
    document stay. *)
Theorem delete_removes_one_document w id :
  let run := delete_document id w in
  (status (fst run) = 200 \/ status (fst run) = 404) /\
  (status (fst run) = 404 <-> Mongo.find_one id (documents w) = None) /\
  (status (fst run) = 404 -> snd run = w) /\
  (status (fst run) = 200 ->
   S (length (documents (snd run))) = length (documents w)) /\
  (forall id', id' <> id ->
     Mongo.find_one id' (documents (snd run))
     = Mongo.find_one id' (documents w)) /\
  chat_messages (snd run) = chat_messages w /\
  trace (snd run) = trace w.
Proof.
  intros run. subst run. rewrite delete_document_run.
  cbn [fst snd documents chat_messages trace].
  pose proof (delete_one_length id (documents w)) as Hlen.
  pose proof (delete_one_filter_nil id (documents w)) as Hnil.
  pose proof (filter_nil_find_one id (documents w)) as Hfind.
  destruct (List.filter (Mongo.matches id) (documents w)) as [|d l];
    cbn [status].
  - split; [right; reflexivity|]. split; [split; [intros _|reflexivity]|].
    { apply Hfind. reflexivity. }
    split; [intros _; rewrite Hnil by reflexivity; destruct w; reflexivity|].
    split; [discriminate|].
    split; [intros id' Hne; apply find_one_delete_one_other, Hne|].
    split; reflexivity.
  - split; [left; reflexivity|]. split; [split; [discriminate|]|].
    { intros Hnone. apply Hfind in Hnone. discriminate. }
    split; [discriminate|]. split; [intros _; lia|].
    split; [intros id' Hne; apply find_one_delete_one_other, Hne|].
    split; reflexivity.
Qed.

Lemma delete_removes_one_document_witness :
  let w := Fixture.world_of [Fixture.stored "doc-1" (Some "Some text.");
                             Fixture.stored "doc-2" None] in
  "doc-2" <> "doc-1" /\
  status (fst (delete_document "doc-1" w)) = 200 /\
  Mongo.find_one "doc-2" (documents (snd (delete_document "doc-1" w)))
  = Some (Fixture.stored "doc-2" None) /\
  length (documents (snd (delete_document "doc-1" w))) = 1%nat.
Proof.
  intros w.
  assert (Hne : "doc-2" <> "doc-1") by discriminate.
  assert (Hok : status (fst (delete_document "doc-1" w)) = 200)
    by (vm_compute; reflexivity).
  destruct (delete_removes_one_document w "doc-1")
    as (_ & _ & _ & Hlen & Hother & _).
  split; [exact Hne|]. split; [exact Hok|].
  split; [rewrite (Hother "doc-2" Hne); reflexivity|].
  specialize (Hlen Hok).
  change (length (documents w)) with 2%nat in Hlen.
  exact (f_equal Nat.pred Hlen).
Defined.

(** ** The entries of the listing *)

Lemma listing_entry_returns (doc : document) w e w' :
  listing_entry doc w = (Return e, w') ->
  listable doc /\
  (forall k, k ∉ listing_keys -> e !! k = None) /\
  (forall k, k ∈ required_keys -> e !! k = doc !! k) /\
  e !! "has_summary" = Some (VBool (truthy (get doc "summary_text"))) /\
  e !! "has_schema" = Some (VBool (truthy (get doc "mindmap_schema"))) /\
  e !! "text_preview"
  = Some (match doc !! "extracted_text" with
          | Some (VStr s) =>
              if PyStr.nonempty s then VStr (PyStr.upto 200 s +:+ "...")
              else VNone
          | _ => VNone
          end).
Proof.
  assert (Hout : forall (a b c d f g h i : value) k,
            k ∉ listing_keys ->
            ({[ "id" := a; "filename" := b; "content_type" := c;
                "file_size" := d; "has_summary" := f; "has_schema" := g;
                "created_at" := h; "text_preview" := i ]} : document) !! k
            = None).
  { intros a b c d f g h i k Hk. unfold listing_keys in Hk.
    rewrite !not_elem_of_cons in Hk.
    destruct Hk as (? & ? & ? & ? & ? & ? & ? & ? & _).
    rewrite !lookup_insert_ne by congruence.
    apply lookup_singleton_ne. congruence. }
  assert (Hreq : forall (a b c d f g h i : value) k,
            k ∈ required_keys ->
            doc !! "id" = Some a -> doc !! "filename" = Some b ->
            doc !! "content_type" = Some c -> doc !! "file_size" = Some d ->
            doc !! "created_at" = Some h ->
            ({[ "id" := a; "filename" := b; "content_type" := c;
                "file_size" := d; "has_summary" := f; "has_schema" := g;
                "created_at" := h; "text_preview" := i ]} : document) !! k
            = doc !! k).
  { intros a b c d f g h i k Hk H1 H2 H3 H4 H5. unfold required_keys in Hk.
    rewrite !elem_of_cons in Hk.
    destruct Hk as [->|[->|[->|[->|[->|Hk]]]]];
      [rewrite H1|rewrite H2|rewrite H3|rewrite H4|rewrite H5|];
      try reflexivity.
    apply elem_of_nil in Hk. destruct Hk. }
  unfold listing_entry, getitem, listable. mrun.
  destruct (doc !! "id") as [a|] eqn:H1; mrun; [|discriminate].
  destruct (doc !! "filename") as [b|] eqn:H2; mrun; [|discriminate].
  destruct (doc !! "content_type") as [c|] eqn:H3; mrun; [|discriminate].
  destruct (doc !! "file_size") as [d|] eqn:H4; mrun; [|discriminate].
  destruct (doc !! "created_at") as [h|] eqn:H5; mrun; [|discriminate].
  unfold get at 1, get_or, slice_upto.
  destruct (doc !! "extracted_text") as [text|] eqn:Htext; mrun.
  - destruct text as [|flag|n|s|t|o]; cbn [truthy]; mrun.
    + intros [= <- <-]. repeat split; eauto.
      left. unfold get. rewrite Htext. reflexivity.
    + destruct flag; mrun; [discriminate|].
      intros [= <- <-]. repeat split; eauto.
      left. unfold get. rewrite Htext. reflexivity.
    + destruct (n =? 0) eqn:Hn; mrun; [|discriminate].
      intros [= <- <-]. repeat split; eauto.
      left. unfold get. rewrite Htext. cbn [truthy]. rewrite Hn. reflexivity.
    + destruct (PyStr.nonempty s) eqn:Hs; mrun;
        intros [= <- <-]; repeat split; eauto.
    + discriminate.
    + discriminate.
  - intros [= <- <-]. repeat split; eauto.
    left. unfold get. rewrite Htext. reflexivity.
Qed.

Lemma for_each_returns_listable (c : list document) w l w' :
  for_each listing_entry c w = (Return l, w') -> Forall listable c.
Proof.
  intros Hrun. apply for_each_Forall2 in Hrun.
  induction Hrun as [|d e c l (w1 & w2 & Hentry) _ IH]; constructor.
  - apply (listing_entry_returns d w1 e w2 Hentry).
  - exact IH.
Qed.

(** X15.  GET /documents answers 200 or 500, and 200 exactly when each
    of the first 1000 documents has the five fields the listing reads
    and a text that is a string or falsy: one stored document that lacks
    a field fails the whole listing.  An entry has the eight fields of
    the listing and no other, so neither the extracted text nor the
    summary; its first five are the document's, its two flags tell
    whether the summary and the schema are truthy, and its preview is
    the first 200 characters of the text followed by three dots, also
    when the text is shorter, or None when there is no text. *)
Theorem listing_shows_flags_and_a_preview w :
  (status (fst (get_documents w)) = 200 \/
   status (fst (get_documents w)) = 500) /\
  (status (fst (get_documents w)) = 200 <->
   Forall listable (take 1000 (documents w))) /\
  (forall l i e d,
     records (fst (get_documents w)) = Some l ->
     l !! i = Some e -> documents w !! i = Some d ->
     (forall k, k ∉ listing_keys -> e !! k = None) /\
     (forall k, k ∈ required_keys -> e !! k = d !! k) /\
     e !! "has_summary" = Some (VBool (truthy (get d "summary_text"))) /\
     e !! "has_schema" = Some (VBool (truthy (get d "mindmap_schema"))) /\
     e !! "text_preview"
     = Some (match d !! "extracted_text" with
             | Some (VStr s) =>
                 if PyStr.nonempty s
                 then VStr (PyStr.upto 200 s +:+ "...")
                 else VNone
             | _ => VNone
             end)).
Proof.
  rewrite get_documents_run. cbn [fst].
  destruct (for_each listing_entry (take 1000 (documents w)) w)
    as [[l'|err] w1] eqn:Hrun; cbn [fst status records].
  - split; [left; reflexivity|]. split.
    { split; [intros _|reflexivity].
      exact (for_each_returns_listable _ _ _ _ Hrun). }
    intros l i e d [= <-] He Hd.
    apply for_each_Forall2 in Hrun.
    destruct (Forall2_lookup_r _ _ _ _ _ Hrun He)
      as (d' & Hd' & w2 & w3 & Hentry).
    apply lookup_take_Some in Hd' as [Hd' _].
    rewrite Hd in Hd'. injection Hd' as <-.
    apply (listing_entry_returns d w2 e w3 Hentry).
  - split; [right; reflexivity|]. split; [|intros l i e d [=]].
    split; [discriminate|]. intros Hall.
    destruct (for_each_listable _ w Hall) as [l Hl].
    rewrite Hl in Hrun. discriminate.
Qed.

(** ** The records of the store *)

Lemma well_formed_listable (d : document) : well_formed d -> listable d.
Proof.
  intros [Hreq (text & Htext & _)]. unfold required_keys in Hreq.
  rewrite !Forall_cons in Hreq.
  destruct Hreq as (H1 & H2 & H3 & H4 & H5 & _).
  repeat split; try assumption. right. exists text. exact Htext.
Qed.

Lemma well_formed_union (fields d : document) :
  (forall k, k ∈ "extracted_text" :: required_keys -> fields !! k = None) ->
  well_formed d -> well_formed (fields ∪ d).
Proof.
  intros Hf [Hreq (text & Htext & Hne)]. split.
  - rewrite Forall_forall in Hreq |- *. intros k Hk.
    rewrite lookup_union_r by (apply Hf; right; exact Hk).
    apply Hreq, Hk.
  - exists text. split; [|exact Hne].
    rewrite lookup_union_r by (apply Hf; left). exact Htext.
Qed.

Lemma well_formed_update_one id (fields : document) (c : list document) :
  (forall k, k ∈ "extracted_text" :: required_keys -> fields !! k = None) ->
  Forall well_formed c -> Forall well_formed (Mongo.update_one id fields c).
Proof.
  intros Hf. induction 1 as [|d c Hd Hc IH]; cbn [Mongo.update_one];
    [constructor|].
  destruct (Mongo.matches id d); constructor; auto.
  apply well_formed_union; assumption.
Qed.

Lemma Forall_delete_one (P : document -> Prop) id (c : list document) :
  Forall P c -> Forall P (snd (Mongo.delete_one id c)).
Proof.
  induction 1 as [|d c Hd Hc IH]; cbn [Mongo.delete_one]; [constructor|].
  destruct (Mongo.matches id d); [exact Hc|].
  destruct (Mongo.delete_one id c) as [n c']. constructor; assumption.
Qed.

Lemma well_formed_upload E file w :
  Forall well_formed (documents w) ->
  Forall well_formed (documents (snd (upload_document E file w))).
Proof.
  intros Hw.
  destruct (upload_outcome E w file)
    as [(ct & text & oid & tr' & t' & _ & Hne & ->)
       |(s & detail & tr' & t' & _ & ->)]; cbn [snd documents];
    [|exact Hw].
  destruct (insert_uploaded_record E w file ct text oid (documents w))
    as (d & -> & H1 & H2 & H3 & H4 & H5 & _ & _ & _ & _ & H6 & _).
  apply Forall_app. split; [exact Hw|]. repeat constructor; eauto.
Qed.

#[local] Instance well_formed_preorder :
  PreOrder (fun c c' : list document =>
              Forall well_formed c -> Forall well_formed c').
Proof. split; [intros c; auto | intros a b c; auto]. Qed.

Lemma handle_well_formed E r w :
  Forall well_formed (documents w) ->
  Forall well_formed (documents (snd (handle E r w))).
Proof.
  revert w.
  change (preserves
            (on_documents (fun c c' => Forall well_formed c ->
                                       Forall well_formed c'))
            (handle E r)).
  assert (Hsummary : forall fields : document,
            (forall k, k ∉ ["summary_text"; "summary_type"; "updated_at"] ->
                       fields !! k = None) ->
            forall k, k ∈ "extracted_text" :: required_keys ->
                      fields !! k = None).
  { intros fields Hf k Hk. apply Hf. unfold required_keys in Hk.
    rewrite !elem_of_cons in Hk. rewrite !not_elem_of_cons.
    destruct Hk as [->|[->|[->|[->|[->|[->|Hk]]]]]];
      [..|apply elem_of_nil in Hk; destruct Hk];
      (repeat split; try discriminate); apply not_elem_of_nil. }
  assert (Hschema : forall fields : document,
            (forall k, k ∉ ["mindmap_schema"; "schema_type"; "updated_at"] ->
                       fields !! k = None) ->
            forall k, k ∈ "extracted_text" :: required_keys ->
                      fields !! k = None).
  { intros fields Hf k Hk. apply Hf. unfold required_keys in Hk.
    rewrite !elem_of_cons in Hk. rewrite !not_elem_of_cons.
    destruct Hk as [->|[->|[->|[->|[->|[->|Hk]]]]]];
      [..|apply elem_of_nil in Hk; destruct Hk];
      (repeat split; try discriminate); apply not_elem_of_nil. }
  destruct r as [file|r|r|r|id ct| |id|id| ]; cbn [handle].
  - intros w. unfold on_documents. apply well_formed_upload.
  - apply (generate_summary_preserves E r _). intros fields [c ch tr t] Hf.
    unfold on_documents. cbn. apply well_formed_update_one, Hsummary, Hf.
  - apply (generate_schema_preserves E r _). intros fields [c ch tr t] Hf.
    unfold on_documents. cbn. apply well_formed_update_one, Hschema, Hf.
  - unfold chat_with_document. preserve.
  - unfold export_pdf. preserve.
  - unfold get_documents. preserve.
  - unfold get_document. preserve.
  - unfold delete_document. preserve.
    intros; cbv beta.
    match goal with w : world |- _ => destruct w as [c ch tr t] end.
    unfold on_documents. cbn. apply Forall_delete_one.
  - unfold root. preserve.
Qed.

Lemma serve_well_formed E rs w :
  Forall well_formed (documents w) ->
  Forall well_formed (documents (snd (serve E rs w))).
Proof.
  revert w. induction rs as [|r rs IH]; intros w Hw; cbn [serve].
  - exact Hw.
  - pose proof (handle_well_formed E r w Hw) as Hstep.
    destruct (handle E r w) as [res w1]. cbn [snd] in Hstep.
    specialize (IH w1 Hstep). destruct (serve E rs w1) as [sts w2].
    exact IH.
Qed.

Lemma find_one_Forall (P : document -> Prop) id (c : list document) d :
  Forall P c -> Mongo.find_one id c = Some d -> P d.
Proof.
  intros Hall Hfind. apply find_some in Hfind as [Hin _].
  rewrite Forall_forall in Hall. apply Hall, list_elem_of_In, Hin.
Qed.

Lemma well_formed_world_answers E w :
  Forall well_formed (documents w) ->
  status (fst (get_documents w)) = 200 /\
  (forall id, status (fst (get_document id w)) = 200 \/
              status (fst (get_document id w)) = 404) /\
  (forall r, status (fst (generate_summary E r w)) <> 400) /\
  (forall r, status (fst (generate_schema E r w)) <> 400) /\
  (forall id, status (fst (export_pdf E id (Some "full") w)) <> 400).
Proof.
  intros Hw. split; [|split; [|split; [|split]]].
  - rewrite get_documents_run. cbn [fst].
    assert (Hall : Forall listable (take 1000 (documents w))).
    { apply Forall_take. eapply Forall_impl; [exact Hw|].
      exact well_formed_listable. }
    destruct (for_each_listable _ w Hall) as [l ->]. reflexivity.
  - intros id. destruct (Mongo.find_one id (documents w)) as [d|] eqn:Hfind.
    + destruct (find_one_Forall _ _ _ _ Hw Hfind) as [Hreq _].
      rewrite (get_document_found id w d Hfind Hreq). left. reflexivity.
    + right. destruct w as [docs chats tr tk]. cbn [documents] in Hfind.
      unfold get_document. mrun. rewrite Hfind. reflexivity.
  - intros r. pose proof (generate_summary_outcome E w r) as Hout.
    destruct (Mongo.find_one _ (documents w)) as [d|] eqn:Hfind;
      [|rewrite Hout; discriminate].
    destruct (find_one_Forall _ _ _ _ Hw Hfind) as [_ (text & Htext & Hne)].
    rewrite Htext in Hout. cbn [truthy] in Hout. rewrite Hne in Hout.
    cbv zeta in Hout.
    destruct (send_message _ _ _ _ _ _); rewrite Hout; discriminate.
  - intros r. pose proof (generate_schema_outcome E w r) as Hout.
    destruct (Mongo.find_one _ (documents w)) as [d|] eqn:Hfind;
      [|rewrite Hout; discriminate].
    destruct (find_one_Forall _ _ _ _ Hw Hfind) as [_ (text & Htext & Hne)].
    rewrite Htext in Hout. cbn [truthy] in Hout. rewrite Hne in Hout.
    cbv zeta in Hout.
    destruct (send_message _ _ _ _ _ _); rewrite Hout; discriminate.
  - intros id. destruct (Mongo.find_one id (documents w)) as [d|] eqn:Hfind;
      [|rewrite (export_unknown E w id _ Hfind); discriminate].
    destruct (find_one_Forall _ _ _ _ Hw Hfind) as [_ (text & Htext & Hne)].
    assert (Hs : text <> "") by (intros ->; discriminate).
    rewrite (export_found E w id "full" d "extracted_text" text
               Hfind eq_refl Htext Hs).
    destruct (doc_build _ _ _ _); discriminate.
Qed.

(** X16.  Whatever requests have been served since the store was empty,
    every stored document has the five fields the routes read with
    [doc[...]] and a non-empty extracted text: an upload stores them,
    and the summary and schema writes do not touch them.  So on such a
    store the listing answers 200, GET /document answers 200 or 404 and
    never 500, the two generation routes never answer 400 (their guard
    on a missing text cannot fire), and neither does the export of the
    full text. *)
Theorem served_documents_are_well_formed E rs :
  let w := snd (serve E rs initial) in
  Forall well_formed (documents w) /\
  status (fst (get_documents w)) = 200 /\
  (forall id, status (fst (get_document id w)) = 200 \/
              status (fst (get_document id w)) = 404) /\
  (forall r, status (fst (generate_summary E r w)) <> 400) /\
  (forall r, status (fst (generate_schema E r w)) <> 400) /\
  (forall id, status (fst (export_pdf E id (Some "full") w)) <> 400).
Proof.
  intros w.
  assert (Hw : Forall well_formed (documents w)).
  { apply serve_well_formed. constructor. }
  split; [exact Hw|]. apply well_formed_world_answers, Hw.
Qed.

(** ** [prepare_for_mongo] on nested data *)

Lemma prepare_dict (fields : list (string * Json.json)) :
  Json.prepare_for_mongo (Json.JDict fields)
  = Json.JDict (map (fun kv => (fst kv, Json.prepared_value (snd kv))) fields).
Proof. reflexivity. Qed.

Lemma prepared_twice (data : Json.json) :
  Json.prepare_for_mongo (Json.prepare_for_mongo data)
  = Json.prepare_for_mongo data /\
  Json.prepared_value (Json.prepared_value data) = Json.prepared_value data /\
  Json.prepared_item (Json.prepared_item data) = Json.prepared_item data.
Proof.
  induction data as [v|fields IH|items IH] using json_induction.
  - repeat split. destruct v; reflexivity.
  - assert (Htwice : Json.prepare_for_mongo
                       (Json.prepare_for_mongo (Json.JDict fields))
                     = Json.prepare_for_mongo (Json.JDict fields)).
    { rewrite !prepare_dict. f_equal. rewrite map_map. cbn [fst snd].
      induction IH as [|kv rest (_ & Hkv & _) _ IHrest]; cbn [map];
        [reflexivity|].
      rewrite Hkv, IHrest. reflexivity. }
    split; [exact Htwice|].
    split; change (Json.prepared_value (Json.JDict fields))
             with (Json.prepare_for_mongo (Json.JDict fields));
      change (Json.prepared_item (Json.JDict fields))
        with (Json.prepare_for_mongo (Json.JDict fields));
      rewrite prepare_dict; cbn [Json.prepared_value Json.prepared_item];
      rewrite <- prepare_dict; exact Htwice.
  - split; [reflexivity|]. split; [|reflexivity].
    cbn [Json.prepared_value]. f_equal. rewrite map_map.
    induction IH as [|item rest (_ & _ & Hitem) _ IHrest]; cbn [map];
      [reflexivity|].
    rewrite Hitem, IHrest. reflexivity.
Qed.

Lemma prepared_value_no_datetime (data : Json.json) :
  Json.lists_of_dicts data = true ->
  Json.no_datetime (Json.prepared_value data) = true.
Proof.
  induction data as [v|fields IH|items IH] using json_induction.
  - intros _. destruct v; reflexivity.
  - change (Json.prepared_value (Json.JDict fields))
      with (Json.prepare_for_mongo (Json.JDict fields)).
    rewrite prepare_dict. cbn [Json.lists_of_dicts Json.no_datetime].
    induction IH as [|kv rest Hkv _ IHrest]; cbn [map forallb fst snd];
      [reflexivity|].
    intros [Hhead Hrest]%andb_prop.
    rewrite (Hkv Hhead), (IHrest Hrest). reflexivity.
  - cbn [Json.prepared_value Json.lists_of_dicts Json.no_datetime].
    induction IH as [|item rest Hitem _ IHrest]; cbn [map forallb];
      [reflexivity|].
    intros [Hhead Hrest]%andb_prop. rewrite (IHrest Hrest).
    destruct item as [v|inner|inner]; cbn [Json.prepared_item].
    + destruct v; try discriminate; reflexivity.
    + change (Json.prepare_for_mongo (Json.JDict inner))
        with (Json.prepared_value (Json.JDict inner)).
      rewrite (Hitem Hhead). reflexivity.
    + discriminate.
Qed.

Lemma datetime_in_a_list_stays (items : list Json.json) iso :
  In (Json.JScalar (VDatetime iso)) items ->
  forallb Json.no_datetime (map Json.prepared_item items) = false.
Proof.
  induction items as [|item rest IH]; cbn [In map forallb]; [tauto|].
  intros [->|Hin].
  - reflexivity.
  - rewrite (IH Hin). apply andb_false_r.
Qed.

Lemma as_document_of_items (items : list (string * value)) :
  Json.as_document (Json.of_items items) = Some (list_to_map items).
Proof.
  unfold Json.as_document, Json.of_items.
  assert (HmapM : mapM (fun kv : string * Json.json =>
                          match snd kv with
                          | Json.JScalar v => Some (fst kv, v)
                          | _ => None
                          end)
                       (map (fun kv : string * value =>
                               (fst kv, Json.JScalar (snd kv))) items)
                  = Some items).
  { induction items as [|[k v] rest IH]; [reflexivity|].
    cbn [map mapM fst snd]. rewrite IH. reflexivity. }
  rewrite HmapM. reflexivity.
Qed.

(** X17.  [prepare_for_mongo] on data that nests.  It keeps the keys of
    a dict, in order, and is idempotent.  It turns into its ISO string
    every [datetime] that is a value of the dict, of a dict nested in
    it or of a dict in one of their lists: when no list holds a
    [datetime] or a list, no [datetime] is left.  A [datetime] that is
    an item of a list is left as it is.  On a flat dict the function is
    the one the routes are modelled with. *)
Theorem prepare_for_mongo_reaches_dict_values :
  (forall data,
     Json.keys (Json.prepare_for_mongo data) = Json.keys data /\
     Json.prepare_for_mongo (Json.prepare_for_mongo data)
     = Json.prepare_for_mongo data) /\
  (forall fields,
     Json.lists_of_dicts (Json.JDict fields) = true ->
     Json.no_datetime (Json.prepare_for_mongo (Json.JDict fields)) = true) /\
  (forall k items iso,
     In (Json.JScalar (VDatetime iso)) items ->
     Json.no_datetime
       (Json.prepare_for_mongo (Json.JDict [(k, Json.JList items)]))
     = false) /\
  (forall items : list (string * value),
     Json.as_document (Json.prepare_for_mongo (Json.of_items items))
     = Some (prepare_for_mongo (list_to_map items))).
Proof.
  split; [|split; [|split]].
  - intros data. split; [|apply prepared_twice].
    destruct data as [v|fields|items]; try reflexivity.
    rewrite prepare_dict. cbn [Json.keys]. rewrite map_map. reflexivity.
  - intros fields. exact (prepared_value_no_datetime (Json.JDict fields)).
  - intros k items iso Hin. rewrite prepare_dict.
    cbn [map fst snd Json.prepared_value Json.no_datetime forallb].
    rewrite (datetime_in_a_list_stays items iso Hin). reflexivity.
  - intros items. unfold prepare_for_mongo.
    rewrite <- list_to_map_fmap, <- as_document_of_items. f_equal.
    unfold Json.of_items. rewrite prepare_dict. f_equal.
    induction items as [|[k v] rest IH]; [reflexivity|].
    change (prod_map id ?f <$> (k, v) :: rest)
      with ((k, f v) :: (prod_map id f <$> rest)).
    cbn [map fst snd]. rewrite IH. destruct v; reflexivity.
Qed.

(** ** An upload that declares no type *)

(** X18.  An upload whose part declares no content type is answered 413
    when it is over the size limit and 500 otherwise, not 400: the
    record's validation fails before the type is looked at, and the
    failure is reported as an error of the upload.  No extraction call
    is made and nothing is stored. *)
Theorem upload_without_content_type E w file :
  content_type file = None ->
  let run := upload_document E file w in
  (if MAX_UPLOAD <? Z.of_nat (length (contents file))
   then status (fst run) = 413
   else fst run
        = Raise (HTTPException 500
                   ("Errore durante il caricamento: "
                    +:+ none_not_allowed E))) /\
  documents (snd run) = documents w /\
  chat_messages (snd run) = chat_messages w /\
  trace (snd run) = trace w.
Proof.
  intros Hct run. subst run. destruct w as [docs chats tr tk].
  unfold upload_document. mrun.
  destruct (MAX_UPLOAD <? _); mrun; [repeat split|].
  rewrite Hct. mrun. repeat split.
Qed.

Lemma upload_without_content_type_witness :
  status (fst (upload_document Fixture.E0
                 (mkUploadFile "scan" None [x25; x50]) Fixture.w0)) = 500.
Proof.
  destruct (upload_without_content_type Fixture.E0 Fixture.w0
              (mkUploadFile "scan" None [x25; x50]) eq_refl) as [Hrun _].
  change (MAX_UPLOAD <? Z.of_nat (length (contents (mkUploadFile "scan" None [x25; x50]))))
    with false in Hrun.
  cbv beta iota in Hrun. rewrite Hrun. reflexivity.
Defined.
